(** * CUR8tr: a shallow embedding of the recommendation-sharing application

    The development follows the Python sources file by file:
    - [Py]      : the fragments of the Python runtime the code relies on
                  ([str.lower], [str.strip], [str.split], [re.sub] on
                  character classes, [json.dumps], [random.choices],
                  f-string rendering of integers) and SQL [LIKE];
    - [models]  : models.py (rows, [slugify], the tag methods of
                  [Recommendation], the ORM cascades and unique constraints);
    - [utils]   : utils.py ([slugify], [format_url], [truncate_text],
                  [create_default_categories]);
    - [forms]   : forms.py (the validators declared on the forms);
    - [routes]  : routes.py (the request handlers, as state-passing functions
                  on the database and the session);
    - [routes_tagging] : routes_tagging.py (the JSON tag API).

    Text is a [string]; its characters are the code points below 256.  All
    character tables below ([isspace], [lower], the NFKD projection) are the
    Python/Unicode ones restricted to that range. *)

From Stdlib Require Import ZArith Ascii String List Bool Lia.
From Stdlib Require Import DecimalString DecimalNat.
From Stdlib Require OrderedTypeEx.
From stdpp Require Import gmap strings list fin_maps.

Local Open Scope string_scope.
Local Open Scope list_scope.

(* ===================================================================== *)
(** * The Python runtime fragments                                        *)
(* ===================================================================== *)

Module Py.

Abbreviation chars := (list ascii).

Definition s2l : string -> chars := list_ascii_of_string.
Definition l2s : chars -> string := string_of_list_ascii.

Definition ord (c : ascii) : nat := nat_of_ascii c.

Definition between (lo hi : nat) (c : ascii) : bool :=
  Nat.leb lo (ord c) && Nat.leb (ord c) hi.

(** The class [[a-zA-Z0-9]] of the regular expressions. *)
Definition is_upper_az (c : ascii) : bool := between 65 90 c.
Definition is_lower_az (c : ascii) : bool := between 97 122 c.
Definition is_digit (c : ascii) : bool := between 48 57 c.
Definition is_alnum (c : ascii) : bool :=
  is_lower_az c || is_upper_az c || is_digit c.

Definition is_hyphen (c : ascii) : bool := Nat.eqb (ord c) 45.

(** [str.isspace] on one character: TAB..CR, FS..US, SPACE, NEL, NBSP.
    [\s] of [re] (on [str] patterns) is the same predicate. *)
Definition isspace (c : ascii) : bool :=
  between 9 13 c || between 28 32 c
  || Nat.eqb (ord c) 133 || Nat.eqb (ord c) 160.

(** [\w] on ASCII text: letters, digits and the underscore. *)
Definition is_word (c : ascii) : bool := is_alnum c || Nat.eqb (ord c) 95.

(** [str.lower]: A-Z, and the Latin-1 capitals U+00C0..U+00DE but the
    multiplication sign U+00D7, move 32 code points up. *)
Definition lower_char (c : ascii) : ascii :=
  if is_upper_az c || (between 192 222 c && negb (Nat.eqb (ord c) 215))
  then ascii_of_nat (ord c + 32) else c.

Definition lower (s : chars) : chars := map lower_char s.

(** [str.strip]: characters of a class are dropped at both ends. *)
Fixpoint lstrip (p : ascii -> bool) (s : chars) : chars :=
  match s with
  | [] => []
  | c :: s' => if p c then lstrip p s' else s
  end.

Definition rstrip (p : ascii -> bool) (s : chars) : chars :=
  rev (lstrip p (rev s)).

Definition strip (p : ascii -> bool) (s : chars) : chars :=
  rstrip p (lstrip p s).

(** [re.sub(r'[class]+', repl, s)]: the scan of [re.sub] over a pattern
    that is one character class under [+].  A match starts at the first
    character of the class and is greedy, so it covers the whole run;
    [in_run] records that the previous character was already consumed by
    the current match. *)
Fixpoint sub_runs_from (p : ascii -> bool) (repl : chars) (in_run : bool)
         (s : chars) : chars :=
  match s with
  | [] => []
  | c :: s' =>
      if p c then
        if in_run then sub_runs_from p repl true s'
        else repl ++ sub_runs_from p repl true s'
      else c :: sub_runs_from p repl false s'
  end.

Definition sub_runs (p : ascii -> bool) (repl : chars) (s : chars) : chars :=
  sub_runs_from p repl false s.

(** [re.sub(r'[class]', '', s)]: every character of the class is deleted. *)
Definition sub_delete (p : ascii -> bool) (s : chars) : chars :=
  List.filter (fun c => negb (p c)) s.

(** [str.split(sep)] for a one-character separator. *)
Fixpoint split (sep : ascii) (s : chars) : list chars :=
  match s with
  | [] => [[]]
  | c :: s' =>
      if Ascii.eqb c sep then [] :: split sep s'
      else match split sep s' with
           | h :: t => (c :: h) :: t
           | [] => [[c]]
           end
  end.

(** The first character of [s] is of the class [p]. *)
Definition starts_with (p : ascii -> bool) (s : chars) : bool :=
  match s with c :: _ => p c | [] => false end.

(** The class [[^a-zA-Z0-9]]. *)
Definition non_alnum (c : ascii) : bool := negb (is_alnum c).

(** [list.remove(x)]: the first occurrence goes (the callers check
    membership first, so the ValueError of an absent element never arises;
    an absent element leaves the list as it is here). *)
Fixpoint list_remove (x : string) (l : list string) : list string :=
  match l with
  | [] => []
  | y :: l' => if String.eqb x y then l' else y :: list_remove x l'
  end.

(** [s.startswith(prefix)] *)
Fixpoint startswith (prefix s : chars) : bool :=
  match prefix, s with
  | [], _ => true
  | _ :: _, [] => false
  | a :: prefix', b :: s' => Ascii.eqb a b && startswith prefix' s'
  end.

(** [s[:stop]] for an integer [stop]: a negative [stop] counts from the
    end, and the bounds are clamped. *)
Definition slice_to (stop : Z) (s : chars) : chars :=
  if Z.ltb stop 0
  then take (Z.to_nat (Z.max 0 (Z.of_nat (length s) + stop))) s
  else take (Z.to_nat stop) s.

(** [sorted(list(s))] for a set [s] of strings, given by the list of the
    elements put into it: ascending by code points, each element once. *)
Fixpoint insert_sorted (x : string) (l : list string) : list string :=
  match l with
  | [] => [x]
  | y :: l' =>
      match String.compare x y with
      | Lt => x :: l
      | Eq => l
      | Gt => y :: insert_sorted x l'
      end
  end.

Definition sorted_set (l : list string) : list string :=
  fold_right insert_sorted [] l.

(** Truthiness of a string. *)
Definition truthy (s : chars) : bool :=
  match s with [] => false | _ => true end.

(** [f"{n}"] for a non-negative integer. *)
Definition str_of_nat (n : nat) : chars :=
  s2l (NilEmpty.string_of_uint (Nat.to_uint n)).

(** ** [json.dumps] on a list of strings

    [json.dumps] (the serializer SQLAlchemy uses for a JSON column) escapes
    the quote, the backslash and everything outside SPACE..TILDE, writes a
    list between brackets and separates the items with a comma and a space. *)

Definition dquote : ascii := "034"%char.
Definition backslash : ascii := "092"%char.

Definition hex_digit (n : nat) : ascii :=
  nth n (s2l "0123456789abcdef") "0"%char.

Definition json_escape_char (c : ascii) : chars :=
  let n := ord c in
  if Nat.eqb n 34 then [backslash; dquote]
  else if Nat.eqb n 92 then [backslash; backslash]
  else if Nat.eqb n 10 then [backslash; "n"%char]
  else if Nat.eqb n 13 then [backslash; "r"%char]
  else if Nat.eqb n 9 then [backslash; "t"%char]
  else if Nat.eqb n 8 then [backslash; "b"%char]
  else if Nat.eqb n 12 then [backslash; "f"%char]
  else if between 32 126 c then [c]
  else [backslash; "u"%char; "0"%char; "0"%char;
        hex_digit (n / 16); hex_digit (n mod 16)].

Definition json_string (s : chars) : chars :=
  dquote :: flat_map json_escape_char s ++ [dquote].

(** [sep.join(items)] *)
Fixpoint join (sep : chars) (items : list chars) : chars :=
  match items with
  | [] => []
  | [x] => x
  | x :: rest => x ++ sep ++ join sep rest
  end.

Definition json_dumps_list (l : list chars) : chars :=
  "["%char :: join (s2l ", ") (map json_string l) ++ ["]"%char].

(** ** SQL [LIKE] (PostgreSQL: case-sensitive, backslash escapes)

    [%] matches any sequence, [_] any one character, a backslash makes the
    next character literal.  A pattern that ends in a lone backslash is an
    error in PostgreSQL; it matches nothing here. *)

Fixpoint like (pat : chars) (s : chars) {struct pat} : bool :=
  match pat with
  | [] => match s with [] => true | _ => false end
  | c :: pat' =>
      if Ascii.eqb c "%"%char then
        (fix any (s : chars) : bool :=
           like pat' s || match s with [] => false | _ :: s' => any s' end) s
      else if Ascii.eqb c "_"%char then
        match s with [] => false | _ :: s' => like pat' s' end
      else if Ascii.eqb c backslash then
        match pat' with
        | [] => false
        | e :: pat'' =>
            match s with [] => false | d :: s' => Ascii.eqb e d && like pat'' s' end
        end
      else
        match s with [] => false | d :: s' => Ascii.eqb c d && like pat' s' end
  end.

(** The characters with a special meaning in a [LIKE] pattern. *)
Definition like_special (c : ascii) : bool :=
  Ascii.eqb c "%"%char || Ascii.eqb c "_"%char || Ascii.eqb c backslash.

(** [x] is a literal substring of [s]. *)
Definition infix (x s : chars) : Prop :=
  exists pre post, s = pre ++ x ++ post.

(** SQL three-valued logic: [None] is NULL. *)
Definition sql_or (a b : option bool) : option bool :=
  match a, b with
  | Some true, _ | _, Some true => Some true
  | Some false, Some false => Some false
  | _, _ => None
  end.

Definition sql_and (a b : option bool) : option bool :=
  match a, b with
  | Some false, _ | _, Some false => Some false
  | Some true, Some true => Some true
  | _, _ => None
  end.

(** A row passes a [WHERE] clause when the condition is TRUE. *)
Definition sql_true (a : option bool) : bool :=
  match a with Some true => true | _ => false end.

(** ** [random.choices(population, k=k)]

    [rand i] is the [i]-th draw of the generator; a draw selects the element
    at its index reduced into the population. *)
Definition choices (rand : nat -> nat) (population : chars) (k : nat) : chars :=
  map (fun i => nth (rand i mod length population) population "0"%char) (seq 0 k).

(** [string.digits] *)
Definition digits : chars := s2l "0123456789".

End Py.

Export Py.

(* ===================================================================== *)
(** * models.py: the rows                                                 *)
(* ===================================================================== *)

Module User.
Record t := mk {
  id : Z;
  username : string;
  email : string;
  password_hash : string;
  is_admin : bool;
  is_verified : bool }.
End User.

Module Profile.
Record t := mk {
  id : Z;
  name : string;
  bio : string;
  slug : string;
  is_public : bool;
  instagram_handle : string;
  tiktok_handle : string;
  country : string;
  city : string;
  user_id : Z }.
End Profile.

Module Category.
Record t := mk {
  id : Z;
  name : string;
  description : string;
  slug : string;
  profile_id : Z }.
End Category.

(** The JSON column [tags]: [None] is NULL, otherwise a dict from keys to
    lists of strings. *)
Abbreviation tagdict := (gmap string (list string)).

Module Recommendation.
Record t := mk {
  id : Z;
  title : string;
  description : string;
  rating : Z;
  cost_rating : string;
  location : string;
  tags : option tagdict;
  created_at : Z;
  category_id : Z }.

Definition with_tags (self : t) (new_tags : option tagdict) : t :=
  mk (id self) (title self) (description self) (rating self)
     (cost_rating self) (location self) new_tags (created_at self)
     (category_id self).
End Recommendation.

Module Follow.
Record t := mk { id : Z; follower_id : Z; followed_id : Z }.
End Follow.

Module Like.
Record t := mk { id : Z; user_id : Z; recommendation_id : Z }.
End Like.

Module Comment.
Record t := mk {
  id : Z;
  content : string;
  user_id : Z;
  recommendation_id : Z;
  created_at : Z }.
End Comment.


(* ===================================================================== *)
(** * The database behind the ORM                                         *)
(* ===================================================================== *)

(** One list of rows per table of models.py, in table order.  The unique
    constraints declared on the models are checked when a row is added (a
    violation is SQLAlchemy's IntegrityError, [None] here); the
    [cascade="all, delete-orphan"] relationships are followed when a row is
    deleted. *)
Module orm.

Record DB := mkDB {
  users : list User.t;
  profiles : list Profile.t;
  categories : list Category.t;
  recommendations : list Recommendation.t;
  follows : list Follow.t;
  likes : list Like.t;
  comments : list Comment.t }.

Definition empty : DB := mkDB [] [] [] [] [] [] [].

Definition with_users (d : DB) (l : list User.t) : DB :=
  mkDB l (profiles d) (categories d) (recommendations d) (follows d) (likes d) (comments d).
Definition with_profiles (d : DB) (l : list Profile.t) : DB :=
  mkDB (users d) l (categories d) (recommendations d) (follows d) (likes d) (comments d).
Definition with_categories (d : DB) (l : list Category.t) : DB :=
  mkDB (users d) (profiles d) l (recommendations d) (follows d) (likes d) (comments d).
Definition with_recommendations (d : DB) (l : list Recommendation.t) : DB :=
  mkDB (users d) (profiles d) (categories d) l (follows d) (likes d) (comments d).
Definition with_follows (d : DB) (l : list Follow.t) : DB :=
  mkDB (users d) (profiles d) (categories d) (recommendations d) l (likes d) (comments d).
Definition with_likes (d : DB) (l : list Like.t) : DB :=
  mkDB (users d) (profiles d) (categories d) (recommendations d) (follows d) l (comments d).
Definition with_comments (d : DB) (l : list Comment.t) : DB :=
  mkDB (users d) (profiles d) (categories d) (recommendations d) (follows d) (likes d) l.

(** An autoincremented primary key: larger than every key of the table. *)
Definition next_id (ids : list Z) : Z := (1 + fold_right Z.max 0 ids)%Z.

(** [Model.query.get(id)] *)
Definition get_user (d : DB) (id : Z) : option User.t :=
  find (fun u => Z.eqb (User.id u) id) (users d).
Definition get_recommendation (d : DB) (id : Z) : option Recommendation.t :=
  find (fun r => Z.eqb (Recommendation.id r) id) (recommendations d).
Definition get_category (d : DB) (id : Z) : option Category.t :=
  find (fun c => Z.eqb (Category.id c) id) (categories d).
Definition get_profile (d : DB) (id : Z) : option Profile.t :=
  find (fun p => Z.eqb (Profile.id p) id) (profiles d).

(** A value written to a [String(n)] column.  app.py configures PostgreSQL
    only, where the column is VARCHAR(n): a value of more than [n]
    characters is refused with an error (value too long), which aborts the
    INSERT or UPDATE.  (PostgreSQL cuts an over-long value instead when all
    the characters beyond [n] are spaces; here such a value is refused as
    well.  The theorems state success for values that fit, and failure for
    slugs, which have no spaces, and for addresses without spaces.) *)
Definition varchar (n : nat) (s : string) : bool :=
  Nat.leb (length (s2l s)) n.

(** [db.session.add(User(...)); db.session.commit()] under
    [username unique=True] and [email unique=True], with the columns
    [username String(80)], [email String(120)] and
    [password_hash String(256)]. *)
Definition add_user (d : DB) (username email password_hash : string)
           (is_verified : bool) : option (DB * User.t) :=
  if existsb (fun u => String.eqb (User.username u) username
                       || String.eqb (User.email u) email) (users d)
  then None
  else if negb (varchar 80 username && varchar 120 email && varchar 256 password_hash)
  then None
  else
    let u := User.mk (next_id (map User.id (users d))) username email
                     password_hash false is_verified in
    Some (with_users d (users d ++ [u]), u).

(** The [String(n)] columns of a Profile row: [name String(100)],
    [slug String(100)], [instagram_handle String(30)],
    [tiktok_handle String(30)], [country String(56)], [city String(56)]. *)
Definition profile_columns (p : Profile.t) : bool :=
  varchar 100 (Profile.name p) && varchar 100 (Profile.slug p)
  && varchar 30 (Profile.instagram_handle p) && varchar 30 (Profile.tiktok_handle p)
  && varchar 56 (Profile.country p) && varchar 56 (Profile.city p).

(** Adding a Profile under [slug unique=True]; [p] carries every column
    but the key. *)
Definition add_profile (d : DB) (p : Profile.t) : option (DB * Profile.t) :=
  if existsb (fun x => String.eqb (Profile.slug x) (Profile.slug p)) (profiles d)
  then None
  else if negb (profile_columns p) then None
  else
    let p := Profile.mk (next_id (map Profile.id (profiles d))) (Profile.name p)
                        (Profile.bio p) (Profile.slug p) (Profile.is_public p)
                        (Profile.instagram_handle p) (Profile.tiktok_handle p)
                        (Profile.country p) (Profile.city p) (Profile.user_id p) in
    Some (with_profiles d (profiles d ++ [p]), p).

(** Committing a changed Profile row whose slug is the stored one. *)
Definition update_profile (d : DB) (p : Profile.t) : option DB :=
  if negb (profile_columns p) then None
  else Some (with_profiles d
               (map (fun x => if Z.eqb (Profile.id x) (Profile.id p) then p else x)
                    (profiles d))).

(** The [String(n)] columns of a Category row: [name String(100)] and
    [slug String(100)]. *)
Definition category_columns (name slug : string) : bool :=
  varchar 100 name && varchar 100 slug.

(** Adding a Category under [unique_category_slug_per_profile]. *)
Definition add_category (d : DB) (name description slug : string)
           (profile_id : Z) : option (DB * Category.t) :=
  if existsb (fun c => Z.eqb (Category.profile_id c) profile_id
                       && String.eqb (Category.slug c) slug) (categories d)
  then None
  else if negb (category_columns name slug) then None
  else
    let c := Category.mk (next_id (map Category.id (categories d))) name
                         description slug profile_id in
    Some (with_categories d (categories d ++ [c]), c).

(** Committing a changed Category row ([UPDATE ... WHERE id = ...]) under
    [unique_category_slug_per_profile]: the constraint is violated when
    another row holds the same profile and slug. *)
Definition update_category (d : DB) (c : Category.t) : option DB :=
  if existsb (fun x => negb (Z.eqb (Category.id x) (Category.id c))
                       && Z.eqb (Category.profile_id x) (Category.profile_id c)
                       && String.eqb (Category.slug x) (Category.slug c)) (categories d)
  then None
  else if negb (category_columns (Category.name c) (Category.slug c)) then None
  else Some (with_categories d
               (map (fun x => if Z.eqb (Category.id x) (Category.id c) then c else x)
                    (categories d))).

(** Adding a Recommendation (no unique constraint besides the key). *)
Definition add_recommendation (d : DB) (title description : string) (rating : Z)
           (cost_rating location : string) (tags : option tagdict)
           (now category_id : Z) : DB * Recommendation.t :=
  let r := Recommendation.mk (next_id (map Recommendation.id (recommendations d)))
                             title description rating cost_rating location tags
                             now category_id in
  (with_recommendations d (recommendations d ++ [r]), r).

(** Adding a Follow under [unique_follow]. *)
Definition add_follow (d : DB) (follower_id followed_id : Z)
  : option (DB * Follow.t) :=
  if existsb (fun f => Z.eqb (Follow.follower_id f) follower_id
                       && Z.eqb (Follow.followed_id f) followed_id) (follows d)
  then None
  else
    let f := Follow.mk (next_id (map Follow.id (follows d))) follower_id followed_id in
    Some (with_follows d (follows d ++ [f]), f).

(** Adding a Like under [unique_like]. *)
Definition add_like (d : DB) (user_id recommendation_id : Z)
  : option (DB * Like.t) :=
  if existsb (fun l => Z.eqb (Like.user_id l) user_id
                       && Z.eqb (Like.recommendation_id l) recommendation_id) (likes d)
  then None
  else
    let l := Like.mk (next_id (map Like.id (likes d))) user_id recommendation_id in
    Some (with_likes d (likes d ++ [l]), l).

(** Adding a Comment (no unique constraint besides the key). *)
Definition add_comment (d : DB) (content : string) (user_id recommendation_id now : Z)
  : DB * Comment.t :=
  let c := Comment.mk (next_id (map Comment.id (comments d))) content user_id
                      recommendation_id now in
  (with_comments d (comments d ++ [c]), c).

(** [db.session.delete(row)] for the rows without cascading relationships:
    the row with that primary key goes. *)
Definition delete_follow (d : DB) (f : Follow.t) : DB :=
  with_follows d (List.filter (fun x => negb (Z.eqb (Follow.id x) (Follow.id f))) (follows d)).
Definition delete_like (d : DB) (l : Like.t) : DB :=
  with_likes d (List.filter (fun x => negb (Z.eqb (Like.id x) (Like.id l))) (likes d)).
Definition delete_comment (d : DB) (c : Comment.t) : DB :=
  with_comments d (List.filter (fun x => negb (Z.eqb (Comment.id x) (Comment.id c))) (comments d)).

(** The collections that [Recommendation.likes] and
    [Recommendation.comments] load. *)
Definition likes_of (d : DB) (r : Recommendation.t) : list Like.t :=
  List.filter (fun l => Z.eqb (Like.recommendation_id l) (Recommendation.id r)) (likes d).
Definition comments_of (d : DB) (r : Recommendation.t) : list Comment.t :=
  List.filter (fun c => Z.eqb (Comment.recommendation_id c) (Recommendation.id r)) (comments d).
(** [Category.recommendations] *)
Definition recommendations_of (d : DB) (c : Category.t) : list Recommendation.t :=
  List.filter (fun r => Z.eqb (Recommendation.category_id r) (Category.id c)) (recommendations d).

(** [db.session.delete(recommendation)]: [likes] and [comments] are
    [cascade="all, delete-orphan"], so every loaded child is deleted, then
    the row itself. *)
Definition delete_recommendation (d : DB) (r : Recommendation.t) : DB :=
  let d := fold_left delete_like (likes_of d r) d in
  let d := fold_left delete_comment (comments_of d r) d in
  with_recommendations d
    (List.filter (fun x => negb (Z.eqb (Recommendation.id x) (Recommendation.id r)))
                 (recommendations d)).

(** [db.session.delete(category)]: [recommendations] is
    [cascade="all, delete-orphan"]; each child is deleted with its own
    cascades, then the row itself. *)
Definition delete_category (d : DB) (c : Category.t) : DB :=
  let d := fold_left delete_recommendation (recommendations_of d c) d in
  with_categories d
    (List.filter (fun x => negb (Z.eqb (Category.id x) (Category.id c))) (categories d)).

End orm.

(* ===================================================================== *)
(** * models.py: [slugify] and the methods                                *)
(* ===================================================================== *)

Module models.

(** [slugify] of models.py, on the characters of the text. *)
Definition slugify_chars (text : chars) : chars :=
  let slug := sub_runs non_alnum ["-"%char]
                       (strip isspace (lower text)) in
  let slug := strip is_hyphen slug in
  take 50 slug.

(** [slugify(text)]: [None] and the empty string are falsy. *)
Definition slugify (text : option string) : string :=
  match text with
  | None => ""
  | Some t => if truthy (s2l t) then l2s (slugify_chars (s2l t)) else ""
  end.

(** Truthiness of the [tags] attribute: NULL and the empty dict are falsy. *)
Definition tags_truthy (tags : option tagdict) : bool :=
  match tags with
  | None => false
  | Some d => negb (bool_decide (d = ∅))
  end.

(** [Recommendation.get_tags] *)
Definition get_tags (self : Recommendation.t) : list string :=
  match Recommendation.tags self with
  | Some d =>
      if tags_truthy (Some d) then
        let tags := [] in
        let tags := match d !! "categories" with
                    | Some l => tags ++ l
                    | None => tags
                    end in
        let tags := match d !! "collections" with
                    | Some l => tags ++ l
                    | None => tags
                    end in
        tags
      else []
  | None => []
  end.

(** One branch of [add_tag]: append [tag_slug] under [key] unless it is
    already in [self.tags.get(key, [])]. *)
Definition add_under (key : string) (tag_slug : string) (d : tagdict) : tagdict :=
  if bool_decide (tag_slug ∈ default [] (d !! key)) then d
  else
    let d := if bool_decide (is_Some (d !! key)) then d else <[key := []]> d in
    <[key := default [] (d !! key) ++ [tag_slug]]> d.

(** [Recommendation.add_tag] *)
Definition add_tag (self : Recommendation.t) (tag_name : string)
           (tag_type : string) : Recommendation.t :=
  let d := match Recommendation.tags self with
           | Some d => if tags_truthy (Some d) then d
                       else <["categories" := []]> (<["collections" := []]> ∅)
           | None => <["categories" := []]> (<["collections" := []]> ∅)
           end in
  let tag_slug := slugify (Some tag_name) in
  let d := if String.eqb tag_type "category"
           then add_under "categories" tag_slug d
           else add_under "collections" tag_slug d in
  Recommendation.with_tags self (Some d).

(** One branch of [remove_tag]: when [key] is present and holds
    [tag_slug], its first occurrence is removed. *)
Definition remove_under (key : string) (tag_slug : string) (d : tagdict) : tagdict :=
  match d !! key with
  | Some l =>
      if bool_decide (tag_slug ∈ l) then <[key := list_remove tag_slug l]> d else d
  | None => d
  end.

(** [Recommendation.remove_tag]; [tag_type] is [None] by default. *)
Definition remove_tag (self : Recommendation.t) (tag_name : string)
           (tag_type : option string) : Recommendation.t :=
  match Recommendation.tags self with
  | Some d =>
      if tags_truthy (Some d) then
        let tag_slug := slugify (Some tag_name) in
        let d :=
          match tag_type with
          | None => remove_under "categories" tag_slug d
          | Some t => if String.eqb t "category"
                      then remove_under "categories" tag_slug d else d
          end in
        let d :=
          match tag_type with
          | None => remove_under "collections" tag_slug d
          | Some t => if String.eqb t "collection"
                      then remove_under "collections" tag_slug d else d
          end in
        Recommendation.with_tags self (Some d)
      else self
  | None => self
  end.

(** [Recommendation.has_tag] *)
Definition has_tag (self : Recommendation.t) (tag_name : string) : bool :=
  match Recommendation.tags self with
  | Some d =>
      if tags_truthy (Some d) then
        let tag_slug := slugify (Some tag_name) in
        bool_decide (tag_slug ∈ default [] (d !! "categories"))
        || bool_decide (tag_slug ∈ default [] (d !! "collections"))
      else false
  | None => false
  end.

(** [User.is_following], [Recommendation.get_like_count] and
    [Recommendation.is_liked_by] read the database. *)

Definition is_following (d : orm.DB) (self user : User.t) : bool :=
  match find (fun f => Z.eqb (Follow.follower_id f) (User.id self)
                       && Z.eqb (Follow.followed_id f) (User.id user)) (orm.follows d) with
  | Some _ => true
  | None => false
  end.

Definition get_like_count (d : orm.DB) (self : Recommendation.t) : nat :=
  length (orm.likes_of d self).

Definition is_liked_by (d : orm.DB) (self : Recommendation.t) (user : option User.t) : bool :=
  match user with
  | None => false
  | Some u => existsb (fun l => Z.eqb (Like.user_id l) (User.id u)) (orm.likes_of d self)
  end.

(** [User.get_follower_count]: 0 without a profile, else the number of
    Follow rows that point at the user. *)
Definition get_follower_count (d : orm.DB) (self : User.t) : nat :=
  match find (fun p => Z.eqb (Profile.user_id p) (User.id self)) (orm.profiles d) with
  | None => 0
  | Some _ =>
      length (List.filter (fun f => Z.eqb (Follow.followed_id f) (User.id self))
                          (orm.follows d))
  end.

End models.

(* ===================================================================== *)
(** * utils.py                                                            *)
(* ===================================================================== *)

Module utils.

(** [unicodedata.normalize('NFKD', c).encode('ascii', 'ignore')] for one
    character: the ASCII characters of its compatibility decomposition. *)
Definition nfkd_ascii (c : ascii) : chars :=
  let n := ord c in
  let within lo hi := Nat.leb lo n && Nat.leb n hi in
  let one_of l := existsb (Nat.eqb n) l in
  if Nat.ltb n 128 then [c]
  else if one_of [160; 168; 175; 180; 184]%nat then s2l " "
  else if one_of [170]%nat then s2l "a"
  else if one_of [178]%nat then s2l "2"
  else if one_of [179]%nat then s2l "3"
  else if one_of [185]%nat then s2l "1"
  else if one_of [186]%nat then s2l "o"
  else if one_of [188]%nat then s2l "14"
  else if one_of [189]%nat then s2l "12"
  else if one_of [190]%nat then s2l "34"
  else if within 192 197 then s2l "A"
  else if one_of [199]%nat then s2l "C"
  else if within 200 203 then s2l "E"
  else if within 204 207 then s2l "I"
  else if one_of [209]%nat then s2l "N"
  else if within 210 214 then s2l "O"
  else if within 217 220 then s2l "U"
  else if one_of [221]%nat then s2l "Y"
  else if within 224 229 then s2l "a"
  else if one_of [231]%nat then s2l "c"
  else if within 232 235 then s2l "e"
  else if within 236 239 then s2l "i"
  else if one_of [241]%nat then s2l "n"
  else if within 242 246 then s2l "o"
  else if within 249 252 then s2l "u"
  else if one_of [253; 255]%nat then s2l "y"
  else [].

(** [slugify] of utils.py, on the characters of the text. *)
Definition slugify_chars (text : chars) : chars :=
  let text := flat_map nfkd_ascii text in
  let text :=
    lower (strip isspace
      (sub_delete (fun c => negb (is_word c || isspace c || is_hyphen c)) text)) in
  sub_runs (fun c => is_hyphen c || isspace c) ["-"%char] text.

Definition slugify (text : string) : string := l2s (slugify_chars (s2l text)).

(** [format_url(url)]: [None] and the empty string are returned as they
    are. *)
Definition format_url (url : option string) : option string :=
  match url with
  | None => None
  | Some u =>
      if negb (truthy (s2l u)) then Some u
      else if negb (startswith (s2l "http://") (s2l u)
                    || startswith (s2l "https://") (s2l u))
      then Some (l2s (s2l "https://" ++ s2l u))
      else Some u
  end.

(** [truncate_text(text, max_length)] *)
Definition truncate_text (text : option string) (max_length : Z) : string :=
  match text with
  | None => ""
  | Some t =>
      if negb (truthy (s2l t)) then ""
      else if Z.leb (Z.of_nat (length (s2l t))) max_length then t
      else l2s (slice_to (max_length - 3) (s2l t) ++ s2l "...")
  end.

(** The collision loop that follows every [slugify] call on a name:

      counter = 1
      original_slug = slug
      while <a row with this slug exists>:
          slug = f"{original_slug}-{counter}"
          counter += 1

    [taken] is the query of the loop condition; [fuel] bounds the number of
    iterations and [None] means the bound was reached. *)
Fixpoint slug_loop (taken : string -> bool) (original_slug : string)
         (fuel : nat) (slug : string) (counter : nat) : option string :=
  if taken slug then
    match fuel with
    | O => None
    | S fuel' =>
        slug_loop taken original_slug fuel'
                  (l2s (s2l original_slug ++ ["-"%char] ++ str_of_nat counter))
                  (counter + 1)
    end
  else Some slug.

Definition default_categories : list (string * string) :=
  [ ("Books", "Your favorite books and reading recommendations");
    ("YouTube Channels", "Amazing YouTube channels worth following");
    ("Food", "Restaurants, recipes, and food recommendations");
    ("Where To Stay", "Hotels, accommodations, and travel spots");
    ("Apps", "Useful apps and digital tools");
    ("Products", "Products and services you love") ].

(** [create_default_categories(profile)].  The session autoflushes before
    each query of the loop, so a category added in one iteration is seen by
    the next.  [None] is an IntegrityError or an exhausted loop bound. *)
Definition create_default_categories (d : orm.DB) (profile : Profile.t)
  : option orm.DB :=
  let existing_names :=
    map Category.name
        (List.filter (fun c => Z.eqb (Category.profile_id c) (Profile.id profile))
                     (orm.categories d)) in
  fold_left
    (fun acc '(name, description) =>
       match acc with
       | None => None
       | Some d =>
           if bool_decide (name ∈ existing_names) then Some d
           else
             let slug := slugify name in
             match slug_loop
                     (fun s => existsb
                                 (fun c => Z.eqb (Category.profile_id c) (Profile.id profile)
                                           && String.eqb (Category.slug c) s)
                                 (orm.categories d))
                     slug (S (length (orm.categories d))) slug 1 with
             | None => None
             | Some slug =>
                 match orm.add_category d name description slug (Profile.id profile) with
                 | Some (d', _) => Some d'
                 | None => None
                 end
             end
       end)
    default_categories (Some d).

End utils.


(* ===================================================================== *)
(** * forms.py                                                            *)
(* ===================================================================== *)

(** The validators declared on the forms.  The CSRF check of FlaskForm and
    the file fields are left out; the library validator [Email] is a
    parameter where it is used. *)
Module forms.

(** [DataRequired]: the data is truthy and, for a string, not blank. *)
Definition DataRequired (data : string) : bool :=
  truthy (s2l data) && truthy (strip isspace (s2l data)).

(** [Length(min, max)] *)
Definition Length (min max : nat) (data : string) : bool :=
  Nat.leb min (length (s2l data)) && Nat.leb (length (s2l data)) max.
Definition Length_min (min : nat) (data : string) : bool :=
  Nat.leb min (length (s2l data)).
Definition Length_max (max : nat) (data : string) : bool :=
  Nat.leb (length (s2l data)) max.

(** [Optional()]: an empty or blank field stops the chain as valid. *)
Definition Optional (data : string) (rest : bool) : bool :=
  if truthy (strip isspace (s2l data)) then rest else true.

Record RegisterForm := mkRegisterForm {
  username : string;
  email : string;
  password : string;
  password_confirm : string }.

Definition RegisterForm_validate (Email : string -> bool) (f : RegisterForm) : bool :=
  DataRequired (username f) && Length 3 80 (username f)
  && DataRequired (email f) && Email (email f)
  && DataRequired (password f) && Length_min 6 (password f)
  && DataRequired (password_confirm f)
  && String.eqb (password_confirm f) (password f).

(** [Regexp(r'^[a-zA-Z0-9._]+$')], applied with [re.match]: one or more
    characters of the class, up to the end of the data or up to a newline
    that ends the data. *)
Definition is_handle_char (c : ascii) : bool :=
  is_alnum c || Nat.eqb (ord c) 46 || Nat.eqb (ord c) 95.

Definition Regexp_handle (data : string) : bool :=
  let s := s2l data in
  let body :=
    match rev s with
    | c :: r => if Nat.eqb (ord c) 10 then rev r else s
    | [] => s
    end in
  truthy body && forallb is_handle_char body.

(** The profile image of [ProfileForm] is a file field; the requests
    modelled carry no file. *)
Record ProfileForm := mkProfileForm {
  name : string;
  bio : string;
  country : string;
  city : string;
  instagram_handle : string;
  tiktok_handle : string;
  is_public : bool }.

Definition ProfileForm_validate (f : ProfileForm) : bool :=
  DataRequired (name f) && Length 2 100 (name f) && Length_max 500 (bio f)
  && Optional (country f) (Length_max 56 (country f))
  && Optional (city f) (Length_max 56 (city f))
  && Optional (instagram_handle f)
              (Length_max 30 (instagram_handle f) && Regexp_handle (instagram_handle f))
  && Optional (tiktok_handle f)
              (Length_max 30 (tiktok_handle f) && Regexp_handle (tiktok_handle f)).

Record RecommendationForm := mkRecommendationForm {
  category_id : Z;
  title : string;
  rating : Z;
  cost_rating : string;
  description : string;
  location : string;
  category_tags : string;
  collection_tags : string }.

(** [choices] are the ids of the categories the select field offers. *)
Definition RecommendationForm_validate (choices : list Z) (f : RecommendationForm) : bool :=
  bool_decide (category_id f ∈ choices) && negb (Z.eqb (category_id f) 0)
  && DataRequired (title f) && Length 2 200 (title f)
  && bool_decide (rating f ∈ [5; 4; 3; 2; 1]%Z)
  && bool_decide (cost_rating f ∈ ["$"; "$$"; "$$$"; "$$$$"])
  && Length_max 1000 (description f)
  && Optional (location f) (Length_max 300 (location f)).

Record CategoryForm := mkCategoryForm {
  category_name : string;
  category_description : string }.

Definition CategoryForm_validate (f : CategoryForm) : bool :=
  DataRequired (category_name f) && Length 2 100 (category_name f)
  && Length_max 300 (category_description f).

Record CommentForm := mkCommentForm { content : string }.

Definition CommentForm_validate (f : CommentForm) : bool :=
  DataRequired (content f) && Length 1 500 (content f).

End forms.

(* ===================================================================== *)
(** * The session cookie                                                  *)
(* ===================================================================== *)

Module session.

(** [session['pending_user']]; [expires_at] is the instant (in
    microseconds) that the ISO string written by [isoformat] and read back
    by [fromisoformat] denotes. *)
Record pending_user := mk_pending {
  username : string;
  email : string;
  password_hash : string;
  verification_code : string;
  expires_at : Z }.

Record t := mk {
  user_id : option Z;
  pending : option pending_user }.

Definition empty : t := mk None None.

End session.

(* ===================================================================== *)
(** * routes.py                                                           *)
(* ===================================================================== *)

(** A handler takes the state before the request (database and session
    cookie) and the request's data, and returns the state after it and the
    reply.  An unhandled Python exception is the reply [server_error]; the
    transaction is then rolled back, so the database is the one of the last
    commit. *)
Module routes.

Inductive method := GET | POST.

Inductive response :=
| render_template (template : string)
| redirect (endpoint : string)
| redirect_url (url : string)
| abort (status : nat)
| server_error
| jsonify_like (action : string) (like_count : nat) (is_liked : bool).

Record reply := mk_reply {
  flashed : list string;
  resp : response }.

Record state := mk_state {
  db : orm.DB;
  sess : session.t }.

Definition with_db (st : state) (d : orm.DB) : state := mk_state d (sess st).
Definition with_sess (st : state) (s : session.t) : state := mk_state (db st) s.

Definition is_post (m : method) : bool :=
  match m with POST => true | GET => false end.

(** [@login_required] *)
Definition login_required (st : state) (f : Z -> state * reply) : state * reply :=
  match session.user_id (sess st) with
  | None => (st, mk_reply ["auth:access_denied"] (redirect "login"))
  | Some uid => f uid
  end.

(** [query.first_or_404()] *)
Definition first_or_404 {A} (st : state) (row : option A)
           (k : A -> state * reply) : state * reply :=
  match row with
  | Some x => k x
  | None => (st, mk_reply [] (abort 404))
  end.

(** An attribute read on the result of [query.get] or [query.first]: on
    [None] it raises AttributeError. *)
Definition attr_of {A} (st : state) (row : option A)
           (k : A -> state * reply) : state * reply :=
  match row with
  | Some x => k x
  | None => (st, mk_reply [] server_error)
  end.

(** [redirect(request.referrer or url_for('index'))]: no endpoint is named
    [index], so without a referrer [url_for] raises BuildError. *)
Definition redirect_back (referrer : option string) : response :=
  match referrer with
  | Some r => if truthy (s2l r) then redirect_url r else server_error
  | None => server_error
  end.

(** [Profile.query.filter_by(user_id=...).first()] *)
Definition profile_of_user (d : orm.DB) (uid : Z) : option Profile.t :=
  find (fun p => Z.eqb (Profile.user_id p) uid) (orm.profiles d).

(** [Profile.query.filter_by(slug=slug, is_public=True).first()] *)
Definition public_profile (d : orm.DB) (slug : string) : option Profile.t :=
  find (fun p => String.eqb (Profile.slug p) slug && Profile.is_public p)
       (orm.profiles d).

(** [Category.query.filter_by(profile_id=..., slug=...).first()] *)
Definition category_by_slug (d : orm.DB) (profile_id : Z) (slug : string)
  : option Category.t :=
  find (fun c => Z.eqb (Category.profile_id c) profile_id
                 && String.eqb (Category.slug c) slug) (orm.categories d).

(** [Recommendation.query.filter_by(category_id=..., id=...).first()] *)
Definition recommendation_in (d : orm.DB) (category_id rec_id : Z)
  : option Recommendation.t :=
  find (fun r => Z.eqb (Recommendation.category_id r) category_id
                 && Z.eqb (Recommendation.id r) rec_id) (orm.recommendations d).

(** [Recommendation.query.join(Category).filter(Recommendation.id == rec_id,
    Category.profile_id == profile_id).first()] *)
Definition recommendation_of_profile (d : orm.DB) (rec_id profile_id : Z)
  : option Recommendation.t :=
  find (fun r => Z.eqb (Recommendation.id r) rec_id
                 && existsb (fun c => Z.eqb (Category.id c) (Recommendation.category_id r)
                                      && Z.eqb (Category.profile_id c) profile_id)
                            (orm.categories d))
       (orm.recommendations d).

Definition ten_minutes : Z := 600000000%Z.

Section Library.

(** [wtforms.validators.Email] and [werkzeug.security.generate_password_hash]. *)
Variable Email : string -> bool.
Variable generate_password_hash : string -> string.

(** [register]: [now] is [datetime.now()], [rand] the random generator. *)
Definition register (st : state) (m : method) (form : forms.RegisterForm)
           (now : Z) (rand : nat -> nat) : state * reply :=
  if is_post m && forms.RegisterForm_validate Email form then
    if existsb (fun u => String.eqb (User.username u) (forms.username form))
               (orm.users (db st))
    then (st, mk_reply ["auth:register_username_taken"]
                       (render_template "auth/register.html"))
    else if existsb (fun u => String.eqb (User.email u) (forms.email form))
                    (orm.users (db st))
    then (st, mk_reply ["auth:register_email_taken"]
                       (render_template "auth/register.html"))
    else
      let verification_code := l2s (choices rand digits 6) in
      let pending :=
        session.mk_pending (forms.username form) (forms.email form)
                           (generate_password_hash (forms.password form))
                           verification_code (now + ten_minutes)%Z in
      (with_sess st (session.mk (session.user_id (sess st)) (Some pending)),
       mk_reply ["auth:register_success"; "Verification code"]
                (redirect "verify_registration"))
  else (st, mk_reply [] (render_template "auth/register.html")).

(** [verify_registration]: [verification_code] is the submitted form field
    (empty when absent). *)
Definition verify_registration (st : state) (m : method)
           (verification_code : string) (now : Z) : state * reply :=
  match session.pending (sess st) with
  | None => (st, mk_reply ["auth:register_success"] (redirect "register"))
  | Some pending_user =>
      if Z.ltb (session.expires_at pending_user) now then
        (with_sess st (session.mk (session.user_id (sess st)) None),
         mk_reply ["auth:verify_expired"] (redirect "register"))
      else if is_post m then
        let code := l2s (strip isspace (s2l verification_code)) in
        if String.eqb code (session.verification_code pending_user) then
          match orm.add_user (db st) (session.username pending_user)
                             (session.email pending_user)
                             (session.password_hash pending_user) true with
          | None => (st, mk_reply [] server_error)
          | Some (d, user) =>
              (mk_state d (session.mk (Some (User.id user)) None),
               mk_reply ["auth:verify_success"] (redirect "dashboard"))
          end
        else (st, mk_reply ["auth:verify_invalid_code"]
                           (render_template "auth/verify.html"))
      else (st, mk_reply [] (render_template "auth/verify.html"))
  end.

(** [werkzeug.security.check_password_hash] *)
Variable check_password_hash : string -> string -> bool.

(** [login]: the form fields are read directly and stripped. *)
Definition login (st : state) (m : method) (username password : string)
  : state * reply :=
  if is_post m then
    let username := l2s (strip isspace (s2l username)) in
    let password := l2s (strip isspace (s2l password)) in
    match find (fun u => String.eqb (User.username u) username) (orm.users (db st)) with
    | Some user =>
        let password_valid := check_password_hash (User.password_hash user) password in
        if password_valid && User.is_verified user then
          (* session.clear(); session['user_id'] = user.id *)
          (with_sess st (session.mk (Some (User.id user)) None),
           mk_reply ["auth:login_success"] (redirect "dashboard"))
        else if negb (User.is_verified user) then
          (st, mk_reply ["auth:login_unverified"] (render_template "auth/login.html"))
        else if negb password_valid then
          (st, mk_reply ["auth:login_wrong_password"] (render_template "auth/login.html"))
        else (st, mk_reply [] (render_template "auth/login.html"))
    | None =>
        (st, mk_reply ["auth:login_user_not_found"] (render_template "auth/login.html"))
    end
  else (st, mk_reply [] (render_template "auth/login.html")).

End Library.

(** [logout]: [session.pop('user_id', None)] *)
Definition logout (st : state) : state * reply :=
  (with_sess st (session.mk None (session.pending (sess st))),
   mk_reply ["auth:logout_success"] (redirect "home")).

(** [dashboard_profile], for a request without an image file. *)
Definition dashboard_profile (st : state) (m : method) (form : forms.ProfileForm)
  : state * reply :=
  login_required st (fun uid =>
  attr_of st (orm.get_user (db st) uid) (fun user =>
  let profile := profile_of_user (db st) (User.id user) in
  if is_post m && forms.ProfileForm_validate form then
    match profile with
    | Some profile =>
        let profile' :=
          Profile.mk (Profile.id profile) (forms.name form) (forms.bio form)
                     (Profile.slug profile) (forms.is_public form)
                     (forms.instagram_handle form) (forms.tiktok_handle form)
                     (forms.country form) (forms.city form)
                     (Profile.user_id profile) in
        match orm.update_profile (db st) profile' with
        | None => (st, mk_reply [] server_error)
        | Some d =>
            (with_db st d,
             mk_reply ["Profile updated successfully!"] (redirect "dashboard_profile"))
        end
    | None =>
        let slug := utils.slugify (forms.name form) in
        match utils.slug_loop
                (fun s => existsb (fun p => String.eqb (Profile.slug p) s)
                                  (orm.profiles (db st)))
                slug (S (length (orm.profiles (db st)))) slug 1 with
        | None => (st, mk_reply [] server_error)
        | Some slug =>
            match orm.add_profile (db st)
                    (Profile.mk 0 (forms.name form) (forms.bio form) slug
                                (forms.is_public form)
                                (forms.instagram_handle form) (forms.tiktok_handle form)
                                (forms.country form) (forms.city form)
                                (User.id user)) with
            | None => (st, mk_reply [] server_error)
            | Some (d, profile) =>
                match utils.create_default_categories d profile with
                | None => (st, mk_reply [] server_error)
                | Some d =>
                    (with_db st d,
                     mk_reply ["Profile updated successfully!"]
                              (redirect "dashboard_profile"))
                end
            end
        end
    end
  else (st, mk_reply [] (render_template "dashboard/profile.html")))).

(** The categories of a profile:
    [Category.query.filter_by(profile_id=...).all()] *)
Definition categories_of (d : orm.DB) (profile_id : Z) : list Category.t :=
  List.filter (fun c => Z.eqb (Category.profile_id c) profile_id) (orm.categories d).

Definition default_category_names : list string :=
  ["Books"; "YouTube Channels"; "I Recommend Following"; "Food"; "Where To Stay";
   "Apps"; "Products"].

(** [dashboard_categories]: the page of one's categories; it first creates
    the default categories when one of [default_category_names] is
    missing. *)
Definition dashboard_categories (st : state) : state * reply :=
  login_required st (fun uid =>
  attr_of st (orm.get_user (db st) uid) (fun user =>
  match profile_of_user (db st) (User.id user) with
  | None => (st, mk_reply ["Please create a profile first."] (redirect "dashboard_profile"))
  | Some profile =>
      let existing_names := map Category.name (categories_of (db st) (Profile.id profile)) in
      let missing_defaults :=
        List.filter (fun name => negb (bool_decide (name ∈ existing_names)))
                    default_category_names in
      match missing_defaults with
      | [] => (st, mk_reply [] (render_template "dashboard/categories.html"))
      | _ =>
          match utils.create_default_categories (db st) profile with
          | None => (st, mk_reply [] server_error)
          | Some d =>
              (with_db st d,
               mk_reply [l2s (s2l "Added " ++ str_of_nat (length missing_defaults)
                              ++ s2l " default categories to your profile!")]
                        (render_template "dashboard/categories.html"))
          end
      end
  end)).

(** [new_category] *)
Definition new_category (st : state) (m : method) (form : forms.CategoryForm)
  : state * reply :=
  login_required st (fun uid =>
  attr_of st (orm.get_user (db st) uid) (fun user =>
  match profile_of_user (db st) (User.id user) with
  | None => (st, mk_reply ["Please create a profile first."] (redirect "dashboard_profile"))
  | Some profile =>
      if is_post m && forms.CategoryForm_validate form then
        let slug := utils.slugify (forms.category_name form) in
        match utils.slug_loop
                (fun s => existsb (fun c => Z.eqb (Category.profile_id c) (Profile.id profile)
                                            && String.eqb (Category.slug c) s)
                                  (orm.categories (db st)))
                slug (S (length (orm.categories (db st)))) slug 1 with
        | None => (st, mk_reply [] server_error)
        | Some slug =>
            match orm.add_category (db st) (forms.category_name form)
                                   (forms.category_description form) slug
                                   (Profile.id profile) with
            | None => (st, mk_reply [] server_error)
            | Some (d, _) =>
                (with_db st d,
                 mk_reply ["Category created successfully!"]
                          (redirect "dashboard_categories"))
            end
        end
      else (st, mk_reply [] (render_template "dashboard/category_form.html"))
  end)).

(** [edit_category]: the slug is recomputed only when the name changes, and
    the collision loop leaves the category itself out. *)
Definition edit_category (st : state) (category_id : Z) (m : method)
           (form : forms.CategoryForm) : state * reply :=
  login_required st (fun uid =>
  attr_of st (orm.get_user (db st) uid) (fun user =>
  attr_of st (profile_of_user (db st) (User.id user)) (fun profile =>
  first_or_404 st
    (find (fun c => Z.eqb (Category.id c) category_id
                    && Z.eqb (Category.profile_id c) (Profile.id profile))
          (orm.categories (db st)))
    (fun category =>
  if is_post m && forms.CategoryForm_validate form then
    let new_slug :=
      if negb (String.eqb (Category.name category) (forms.category_name form)) then
        let slug := utils.slugify (forms.category_name form) in
        utils.slug_loop
          (fun s => existsb (fun c => Z.eqb (Category.profile_id c) (Profile.id profile)
                                      && String.eqb (Category.slug c) s
                                      && negb (Z.eqb (Category.id c) (Category.id category)))
                            (orm.categories (db st)))
          slug (S (length (orm.categories (db st)))) slug 1
      else Some (Category.slug category) in
    match new_slug with
    | None => (st, mk_reply [] server_error)
    | Some slug =>
        let category' :=
          Category.mk (Category.id category) (forms.category_name form)
                      (forms.category_description form) slug
                      (Category.profile_id category) in
        match orm.update_category (db st) category' with
        | None => (st, mk_reply [] server_error)
        | Some d =>
            (with_db st d,
             mk_reply ["Category updated successfully!"]
                      (redirect "dashboard_categories"))
        end
    end
  else (st, mk_reply [] (render_template "dashboard/category_form.html")))))).

(** [delete_category] *)
Definition delete_category (st : state) (category_id : Z) : state * reply :=
  login_required st (fun uid =>
  attr_of st (orm.get_user (db st) uid) (fun user =>
  attr_of st (profile_of_user (db st) (User.id user)) (fun profile =>
  first_or_404 st
    (find (fun c => Z.eqb (Category.id c) category_id
                    && Z.eqb (Category.profile_id c) (Profile.id profile))
          (orm.categories (db st)))
    (fun category =>
       (with_db st (orm.delete_category (db st) category),
        mk_reply ["Category deleted successfully!"] (redirect "dashboard_categories")))))).

(** [delete_recommendation] *)
Definition delete_recommendation (st : state) (rec_id : Z) : state * reply :=
  login_required st (fun uid =>
  attr_of st (orm.get_user (db st) uid) (fun user =>
  attr_of st (profile_of_user (db st) (User.id user)) (fun profile =>
  first_or_404 st (recommendation_of_profile (db st) rec_id (Profile.id profile))
    (fun recommendation =>
       (with_db st (orm.delete_recommendation (db st) recommendation),
        mk_reply ["Recommendation deleted successfully!"]
                 (redirect "dashboard_recommendations")))))).

(** [follow_user] *)
Definition follow_user (st : state) (user_id : Z) (referrer : option string)
  : state * reply :=
  login_required st (fun uid =>
  let current_user := orm.get_user (db st) uid in
  first_or_404 st (orm.get_user (db st) user_id) (fun user_to_follow =>
  attr_of st current_user (fun current_user =>
  if models.is_following (db st) current_user user_to_follow then
    (st, mk_reply ["You are already following this user."] (redirect_back referrer))
  else
    match orm.add_follow (db st) (User.id current_user) (User.id user_to_follow) with
    | None => (st, mk_reply [] server_error)
    | Some (d, _) =>
        (with_db st d, mk_reply ["You are now following"] (redirect_back referrer))
    end))).

(** [unfollow_user] *)
Definition unfollow_user (st : state) (user_id : Z) (referrer : option string)
  : state * reply :=
  login_required st (fun uid =>
  let current_user := orm.get_user (db st) uid in
  first_or_404 st (orm.get_user (db st) user_id) (fun user_to_unfollow =>
  attr_of st current_user (fun current_user =>
  match find (fun f => Z.eqb (Follow.follower_id f) (User.id current_user)
                       && Z.eqb (Follow.followed_id f) (User.id user_to_unfollow))
             (orm.follows (db st)) with
  | Some follow =>
      (with_db st (orm.delete_follow (db st) follow),
       mk_reply ["You have unfollowed"] (redirect_back referrer))
  | None =>
      (st, mk_reply ["You are not following this user."] (redirect_back referrer))
  end))).

(** [view_profile] and [view_category]: read-only pages of a public
    profile. *)
Definition view_profile (st : state) (slug : string) : state * reply :=
  first_or_404 st (public_profile (db st) slug) (fun profile =>
  (st, mk_reply [] (render_template "profile.html"))).

Definition view_category (st : state) (profile_slug category_slug : string)
  : state * reply :=
  first_or_404 st (public_profile (db st) profile_slug) (fun profile =>
  first_or_404 st (category_by_slug (db st) (Profile.id profile) category_slug) (fun category =>
  (st, mk_reply [] (render_template "category.html")))).

(** [view_recommendation]: the page of a recommendation; a POST with a
    valid comment form by a signed-in user adds a comment.  [now] is the
    default of [created_at]. *)
Definition view_recommendation (st : state) (profile_slug category_slug : string)
           (rec_id : Z) (m : method) (comment_form : forms.CommentForm) (now : Z)
  : state * reply :=
  first_or_404 st (public_profile (db st) profile_slug) (fun profile =>
  first_or_404 st (category_by_slug (db st) (Profile.id profile) category_slug) (fun category =>
  first_or_404 st (recommendation_in (db st) (Category.id category) rec_id) (fun recommendation =>
  let current_user :=
    match session.user_id (sess st) with
    | Some uid => orm.get_user (db st) uid
    | None => None
    end in
  match current_user with
  | Some current_user =>
      if is_post m && forms.CommentForm_validate comment_form then
        let '(d, _) := orm.add_comment (db st) (forms.content comment_form)
                         (User.id current_user) (Recommendation.id recommendation) now in
        (with_db st d,
         mk_reply ["Comment added successfully!"] (redirect "view_recommendation"))
      else (st, mk_reply [] (render_template "recommendation.html"))
  | None => (st, mk_reply [] (render_template "recommendation.html"))
  end))).

(** [like_recommendation] *)
Definition like_recommendation (st : state) (profile_slug category_slug : string)
           (rec_id : Z) : state * reply :=
  login_required st (fun uid =>
  first_or_404 st (public_profile (db st) profile_slug) (fun profile =>
  first_or_404 st (category_by_slug (db st) (Profile.id profile) category_slug) (fun category =>
  first_or_404 st (recommendation_in (db st) (Category.id category) rec_id) (fun recommendation =>
  attr_of st (orm.get_user (db st) uid) (fun user =>
  let existing_like :=
    find (fun l => Z.eqb (Like.user_id l) (User.id user)
                   && Z.eqb (Like.recommendation_id l) (Recommendation.id recommendation))
         (orm.likes (db st)) in
  let committed :=
    match existing_like with
    | Some existing_like => Some (orm.delete_like (db st) existing_like, "unliked")
    | None =>
        match orm.add_like (db st) (User.id user) (Recommendation.id recommendation) with
        | Some (d, _) => Some (d, "liked")
        | None => None
        end
    end in
  match committed with
  | None => (st, mk_reply [] server_error)
  | Some (d, action) =>
      (with_db st d,
       mk_reply [] (jsonify_like action
                      (models.get_like_count d recommendation)
                      (models.is_liked_by d recommendation (Some user))))
  end))))).

(** [delete_comment] *)
Definition delete_comment (st : state) (profile_slug category_slug : string)
           (rec_id comment_id : Z) : state * reply :=
  login_required st (fun uid =>
  first_or_404 st (public_profile (db st) profile_slug) (fun profile =>
  first_or_404 st (category_by_slug (db st) (Profile.id profile) category_slug) (fun category =>
  first_or_404 st (recommendation_in (db st) (Category.id category) rec_id) (fun recommendation =>
  first_or_404 st
    (find (fun c => Z.eqb (Comment.id c) comment_id
                    && Z.eqb (Comment.recommendation_id c) (Recommendation.id recommendation))
          (orm.comments (db st)))
    (fun comment =>
  attr_of st (orm.get_user (db st) uid) (fun current_user =>
  let deleted :=
    (with_db st (orm.delete_comment (db st) comment),
     mk_reply ["Comment deleted successfully!"] (redirect "view_recommendation")) in
  if Z.eqb (Comment.user_id comment) (User.id current_user) then deleted
  else
    (* recommendation.category.profile.user_id *)
    attr_of st (orm.get_category (db st) (Recommendation.category_id recommendation)) (fun rec_category =>
    attr_of st (orm.get_profile (db st) (Category.profile_id rec_category)) (fun rec_profile =>
    if Z.eqb (Profile.user_id rec_profile) (User.id current_user) then deleted
    else
      (st, mk_reply ["You can only delete your own comments."]
                    (redirect "view_recommendation")))))))))).

(** The tag processing shared by [new_recommendation] and
    [edit_recommendation]:
    [[tag.strip() for tag in data.split(',') if tag.strip()]] *)
Definition split_tags (data : string) : list chars :=
  List.filter truthy (map (strip isspace) (split ","%char (s2l data))).

Definition process_tags (form : forms.RecommendationForm) : tagdict :=
  let tags_data : tagdict := ∅ in
  let tags_data :=
    if truthy (s2l (forms.category_tags form)) then
      let category_tags := split_tags (forms.category_tags form) in
      match category_tags with
      | [] => tags_data
      | _ => <["categories" := map (fun tag => models.slugify (Some (l2s tag))) category_tags]> tags_data
      end
    else tags_data in
  let tags_data :=
    if truthy (s2l (forms.collection_tags form)) then
      let collection_tags := split_tags (forms.collection_tags form) in
      match collection_tags with
      | [] => tags_data
      | _ => <["collections" := map (fun tag => models.slugify (Some (l2s tag))) collection_tags]> tags_data
      end
    else tags_data in
  (* recommendation.tags = tags_data if tags_data else {} *)
  if bool_decide (tags_data = ∅) then ∅ else tags_data.

(** [new_recommendation]; [now] is the default of [created_at]. *)
Definition new_recommendation (st : state) (m : method)
           (form : forms.RecommendationForm) (now : Z) : state * reply :=
  login_required st (fun uid =>
  attr_of st (orm.get_user (db st) uid) (fun user =>
  match profile_of_user (db st) (User.id user) with
  | None => (st, mk_reply ["Please create a profile first."] (redirect "dashboard_profile"))
  | Some profile =>
      let categories :=
        List.filter (fun c => Z.eqb (Category.profile_id c) (Profile.id profile))
                    (orm.categories (db st)) in
      match categories with
      | [] => (st, mk_reply ["Please create a category first."] (redirect "new_category"))
      | _ =>
          if is_post m
             && forms.RecommendationForm_validate (map Category.id categories) form
          then
            let '(d, _) :=
              orm.add_recommendation (db st) (forms.title form) (forms.description form)
                (forms.rating form) (forms.cost_rating form) (forms.location form)
                (Some (process_tags form)) now (forms.category_id form) in
            (with_db st d,
             mk_reply ["Recommendation added successfully!"]
                      (redirect "dashboard_recommendations"))
          else (st, mk_reply [] (render_template "dashboard/rec_form.html"))
      end
  end)).

(** [edit_recommendation] *)
Definition edit_recommendation (st : state) (rec_id : Z) (m : method)
           (form : forms.RecommendationForm) : state * reply :=
  login_required st (fun uid =>
  attr_of st (orm.get_user (db st) uid) (fun user =>
  attr_of st (profile_of_user (db st) (User.id user)) (fun profile =>
  first_or_404 st (recommendation_of_profile (db st) rec_id (Profile.id profile))
    (fun recommendation =>
  let categories :=
    List.filter (fun c => Z.eqb (Category.profile_id c) (Profile.id profile))
                (orm.categories (db st)) in
  if is_post m
     && forms.RecommendationForm_validate (map Category.id categories) form
  then
    let recommendation' :=
      Recommendation.mk (Recommendation.id recommendation) (forms.title form)
        (forms.description form) (forms.rating form) (forms.cost_rating form)
        (forms.location form) (Some (process_tags form))
        (Recommendation.created_at recommendation) (forms.category_id form) in
    (with_db st (orm.with_recommendations (db st)
       (map (fun r => if Z.eqb (Recommendation.id r) (Recommendation.id recommendation)
                      then recommendation' else r) (orm.recommendations (db st)))),
     mk_reply ["Recommendation updated successfully!"]
              (redirect "dashboard_recommendations"))
  else (st, mk_reply [] (render_template "dashboard/rec_form.html")))))).

End routes.

(* ===================================================================== *)
(** * routes_tagging.py                                                   *)
(* ===================================================================== *)

Module routes_tagging.

(** One entry of the JSON list the search returns (the fields that carry
    the identity and the tags; the remaining columns are copied likewise). *)
Record rec_dict := mk_rec_dict {
  id : Z;
  title : string;
  tags : list string }.

Inductive response :=
| json_error (status : nat) (error : string)
| json_tags (rec_id : Z) (tags : list string) (message : string)
| json_recs (recs : list rec_dict)
| server_error.

(** [@login_required_api] *)
Definition login_required_api (st : routes.state)
           (f : Z -> routes.state * response) : routes.state * response :=
  match session.user_id (routes.sess st) with
  | None => (st, json_error 401 "Authentication required")
  | Some uid => f uid
  end.

Definition attr_of {A} (st : routes.state) (row : option A)
           (k : A -> routes.state * response) : routes.state * response :=
  match row with
  | Some x => k x
  | None => (st, server_error)
  end.

(** [db.session.query(Recommendation).join(Category).join(Profile)
      .filter(cond)]: the inner joins along the foreign keys. *)
Definition joined (d : orm.DB) (cond : Profile.t -> bool) : list Recommendation.t :=
  flat_map (fun r =>
    flat_map (fun c =>
      if Z.eqb (Category.id c) (Recommendation.category_id r) then
        flat_map (fun p =>
          if Z.eqb (Profile.id p) (Category.profile_id c) && cond p
          then [r] else [])
          (orm.profiles d)
      else [])
      (orm.categories d))
    (orm.recommendations d).

(** The rows the requester may see: [session.get('user_id')] is tested for
    truthiness, so the id 0 counts as anonymous. *)
Definition visible (st : routes.state) : list Recommendation.t :=
  match session.user_id (routes.sess st) with
  | Some user_id =>
      if Z.eqb user_id 0 then joined (routes.db st) Profile.is_public
      else joined (routes.db st)
             (fun p => Profile.is_public p || Z.eqb (Profile.user_id p) user_id)
  | None => joined (routes.db st) Profile.is_public
  end.

(** [Recommendation.tags.op('->>')(key)]: the text of the field, NULL when
    the column is NULL or the key is absent. *)
Definition json_field (tags : option tagdict) (key : string) : option chars :=
  match tags with
  | Some d =>
      match d !! key with
      | Some l => Some (json_dumps_list (map s2l l))
      | None => None
      end
  | None => None
  end.

(** [column.like(pattern)] *)
Definition sql_like (text : option chars) (pattern : chars) : option bool :=
  match text with
  | Some t => Some (like pattern t)
  | None => None
  end.

(** [f'%"{tag_slug}"%'] *)
Definition tag_pattern (tag_slug : string) : chars :=
  "%"%char :: dquote :: s2l tag_slug ++ [dquote; "%"%char].

(** The condition built for one requested tag. *)
Definition tag_condition (tag : chars) (r : Recommendation.t) : option bool :=
  let tag_slug := models.slugify (Some (l2s tag)) in
  sql_or (sql_like (json_field (Recommendation.tags r) "categories") (tag_pattern tag_slug))
         (sql_like (json_field (Recommendation.tags r) "collections") (tag_pattern tag_slug)).

(** [and_] over the conditions of all requested tags. *)
Definition all_conditions (tag_list : list chars) (r : Recommendation.t) : option bool :=
  fold_right (fun tag acc => sql_and (tag_condition tag r) acc) (Some true) tag_list.

(** [tag_list] of the request parameter. *)
Definition parse_tags (tags_param : string) : list chars :=
  if truthy (s2l tags_param)
  then List.filter truthy (map (strip isspace) (split ","%char (s2l tags_param)))
  else [].

(** [order_by(Recommendation.created_at.desc())]: insertion keeps the table
    order among equal timestamps. *)
Fixpoint insert_desc (r : Recommendation.t) (l : list Recommendation.t)
  : list Recommendation.t :=
  match l with
  | [] => [r]
  | x :: l' =>
      if Z.ltb (Recommendation.created_at x) (Recommendation.created_at r)
      then r :: l
      else x :: insert_desc r l'
  end.

Definition order_by_created_desc (l : list Recommendation.t) : list Recommendation.t :=
  fold_right insert_desc [] l.

(** The rows selected by [get_recommendations_by_tags]. *)
Definition select_by_tags (st : routes.state) (tags_param : string)
  : list Recommendation.t :=
  let tag_list := parse_tags tags_param in
  let query := visible st in
  let query :=
    match tag_list with
    | [] => query
    | _ => List.filter (fun r => sql_true (all_conditions tag_list r)) query
    end in
  take 50 (order_by_created_desc query).

(** [get_recommendations_by_tags] *)
Definition get_recommendations_by_tags (st : routes.state) (tags_param : string)
  : routes.state * response :=
  (st, json_recs
         (map (fun r => mk_rec_dict (Recommendation.id r) (Recommendation.title r)
                                    (models.get_tags r))
              (select_by_tags st tags_param))).

(** Writing a changed row back on commit. *)
Definition save (d : orm.DB) (r : Recommendation.t) : orm.DB :=
  orm.with_recommendations d
    (map (fun x => if Z.eqb (Recommendation.id x) (Recommendation.id r) then r else x)
         (orm.recommendations d)).

(** [rec.category.profile.user_id] *)
Definition owner_id (d : orm.DB) (r : Recommendation.t) : option Z :=
  match orm.get_category d (Recommendation.category_id r) with
  | Some c =>
      match orm.get_profile d (Category.profile_id c) with
      | Some p => Some (Profile.user_id p)
      | None => None
      end
  | None => None
  end.

(** The JSON body of the POST: the keys [tag] and [type], when present. *)
Record tag_request := mk_tag_request {
  tag : option string;
  type : option string }.

(** [add_tag_to_recommendation] *)
Definition add_tag_to_recommendation (st : routes.state) (rec_id : Z)
           (data : tag_request) : routes.state * response :=
  login_required_api st (fun uid =>
  match orm.get_recommendation (routes.db st) rec_id with
  | None => (st, json_error 404 "Recommendation not found")
  | Some rec =>
      let user := orm.get_user (routes.db st) uid in
      attr_of st (owner_id (routes.db st) rec) (fun owner =>
      attr_of st user (fun user =>
      if negb (Z.eqb owner (User.id user))
      then (st, json_error 403 "You can only edit your own recommendations")
      else
        match tag data with
        | None => (st, json_error 400 "Tag name required")
        | Some t =>
            let tag_name := l2s (strip isspace (s2l t)) in
            let tag_type := default "collection" (type data) in
            if negb (truthy (s2l tag_name))
            then (st, json_error 400 "Tag name cannot be empty")
            else
              let rec := models.add_tag rec tag_name tag_type in
              (routes.with_db st (save (routes.db st) rec),
               json_tags (Recommendation.id rec) (models.get_tags rec)
                         "Tag added successfully")
        end))
  end).

(** [remove_tag_from_recommendation] *)
Definition remove_tag_from_recommendation (st : routes.state) (rec_id : Z)
           (data : tag_request) : routes.state * response :=
  login_required_api st (fun uid =>
  match orm.get_recommendation (routes.db st) rec_id with
  | None => (st, json_error 404 "Recommendation not found")
  | Some rec =>
      let user := orm.get_user (routes.db st) uid in
      attr_of st (owner_id (routes.db st) rec) (fun owner =>
      attr_of st user (fun user =>
      if negb (Z.eqb owner (User.id user))
      then (st, json_error 403 "You can only edit your own recommendations")
      else
        match tag data with
        | None => (st, json_error 400 "Tag name required")
        | Some t =>
            let tag_name := l2s (strip isspace (s2l t)) in
            let tag_type := type data in
            let rec := models.remove_tag rec tag_name tag_type in
            (routes.with_db st (save (routes.db st) rec),
             json_tags (Recommendation.id rec) (models.get_tags rec)
                       "Tag removed successfully")
        end))
  end).

(** [set_recommendation_tags]; [data] is the JSON body, an object whose
    values are lists of strings. *)
Definition set_recommendation_tags (st : routes.state) (rec_id : Z)
           (data : option tagdict) : routes.state * response :=
  login_required_api st (fun uid =>
  match orm.get_recommendation (routes.db st) rec_id with
  | None => (st, json_error 404 "Recommendation not found")
  | Some rec =>
      let user := orm.get_user (routes.db st) uid in
      attr_of st (owner_id (routes.db st) rec) (fun owner =>
      attr_of st user (fun user =>
      if negb (Z.eqb owner (User.id user))
      then (st, json_error 403 "You can only edit your own recommendations")
      else
        if negb (models.tags_truthy data)
        then (st, json_error 400 "JSON data required")
        else
          let data := default ∅ data in
          let categories := default [] (data !! "categories") in
          let collections := default [] (data !! "collections") in
          let slugs l :=
            map (fun x => models.slugify (Some x))
                (List.filter (fun x => truthy (strip isspace (s2l x))) l) in
          let new_tags : tagdict := ∅ in
          let new_tags :=
            match categories with
            | [] => new_tags
            | _ => <["categories" := slugs categories]> new_tags
            end in
          let new_tags :=
            match collections with
            | [] => new_tags
            | _ => <["collections" := slugs collections]> new_tags
            end in
          let rec :=
            Recommendation.with_tags rec
              (if bool_decide (new_tags = ∅) then None else Some new_tags) in
          (routes.with_db st (save (routes.db st) rec),
           json_tags (Recommendation.id rec) (models.get_tags rec)
                     "Tags updated successfully")))
  end).

(** [get_all_tags]: the two lists of the JSON object it answers with
    (the status is always 200).  The tags come from the recommendations
    the requester may see. *)
Record all_tags := mk_all_tags {
  tag_categories : list string;
  tag_collections : list string }.

(** [for rec in recommendations: if rec.tags: if key in rec.tags:
    s.update(rec.tags[key])] *)
Definition tags_under (key : string) (recommendations : list Recommendation.t)
  : list string :=
  flat_map (fun rec =>
              match Recommendation.tags rec with
              | Some d =>
                  if models.tags_truthy (Some d) then default [] (d !! key) else []
              | None => []
              end)
           recommendations.

Definition get_all_tags (st : routes.state) : routes.state * all_tags :=
  let recommendations := visible st in
  (st, mk_all_tags (sorted_set (tags_under "categories" recommendations))
                   (sorted_set (tags_under "collections" recommendations))).

End routes_tagging.

(* ===================================================================== *)
(** * The properties the specification names                              *)
(* ===================================================================== *)

(** The tag slug as section 4.1 of the specification words it, written
    independently of models.py: the text is lowercased, cut into its
    maximal runs of alphanumeric and of non-alphanumeric characters, every
    non-alphanumeric run becomes one hyphen, the hyphens at both ends go and
    the result is capped at 50 characters. *)
Module described_slug.

(** The maximal runs of a text, each tagged with the class of its characters. *)
Fixpoint runs (s : chars) : list (bool * chars) :=
  match s with
  | [] => []
  | c :: s' =>
      match runs s' with
      | (b, r) :: rest =>
          if Bool.eqb b (is_alnum c) then (b, c :: r) :: rest
          else (is_alnum c, [c]) :: (b, r) :: rest
      | [] => [(is_alnum c, [c])]
      end
  end.

(** Runs are maximal when neighbouring blocks are of different classes. *)
Fixpoint alternating (l : list (bool * chars)) : Prop :=
  match l with
  | (b1, _) :: (((b2, _) :: _) as rest) => b1 <> b2 /\ alternating rest
  | _ => True
  end.

Definition hyphenate (s : chars) : chars :=
  flat_map (fun '(alnum, r) => if (alnum : bool) then r else ["-"%char]) (runs s).

Definition slug_of (text : chars) : chars :=
  take 50 (strip is_hyphen (hyphenate (lower text))).

End described_slug.

(** The invariants of section 3. *)
Module invariants.

(** A normalized slug: lowercase letters, digits and hyphens, at most 50. *)
Definition slug_char (c : ascii) : bool :=
  is_lower_az c || is_digit c || is_hyphen c.

Definition normalized_slug (s : string) : Prop :=
  forallb slug_char (s2l s) = true /\ length (s2l s) <= 50.

(** The [tags] value: only the two recognized keys, each a duplicate-free
    list of normalized slugs. *)
Definition recognized_keys (tags : option tagdict) : Prop :=
  forall d k l, tags = Some d -> d !! k = Some l ->
                k = "categories" \/ k = "collections".

Definition slugs_normalized (tags : option tagdict) : Prop :=
  forall d k l, tags = Some d -> d !! k = Some l -> Forall normalized_slug l.

Definition lists_deduplicated (tags : option tagdict) : Prop :=
  forall d k l, tags = Some d -> d !! k = Some l -> NoDup l.

Definition tags_invariant (tags : option tagdict) : Prop :=
  recognized_keys tags /\ slugs_normalized tags /\ lists_deduplicated tags.

(** Follow and Like pairs appear at most once. *)
Definition follow_pairs_unique (d : orm.DB) : Prop :=
  NoDup (map (fun f => (Follow.follower_id f, Follow.followed_id f)) (orm.follows d)).

Definition like_pairs_unique (d : orm.DB) : Prop :=
  NoDup (map (fun l => (Like.user_id l, Like.recommendation_id l)) (orm.likes d)).


(** The primary keys of the tables that cascades delete from. *)
Definition primary_keys (d : orm.DB) : Prop :=
  NoDup (map Category.id (orm.categories d))
  /\ NoDup (map Recommendation.id (orm.recommendations d))
  /\ NoDup (map Like.id (orm.likes d))
  /\ NoDup (map Comment.id (orm.comments d)).

(** The slugs the collision loop tries, in order: the slug itself, then the
    slug with the suffixes -1, -2, ... *)
Definition candidate (original_slug : string) (k : nat) : string :=
  match k with
  | O => original_slug
  | S _ => l2s (s2l original_slug ++ ["-"%char] ++ str_of_nat k)
  end.

(** What a cascading delete leaves: exactly the recommendations whose id is
    in [ids] are gone, with exactly their likes and comments; users,
    profiles and follows are untouched. *)
Definition cascade_removed (ids : list Z) (d d' : orm.DB) : Prop :=
  (forall r, In r (orm.recommendations d')
             <-> In r (orm.recommendations d) /\ ~ In (Recommendation.id r) ids)
  /\ (forall l, In l (orm.likes d')
                <-> In l (orm.likes d) /\ ~ In (Like.recommendation_id l) ids)
  /\ (forall c, In c (orm.comments d')
                <-> In c (orm.comments d) /\ ~ In (Comment.recommendation_id c) ids)
  /\ orm.users d' = orm.users d
  /\ orm.profiles d' = orm.profiles d
  /\ orm.follows d' = orm.follows d.

(** Deleting the category [category_id]: the category row goes, and the
    recommendations that belong to it go with their likes and comments. *)
Definition category_deleted (category_id : Z) (d d' : orm.DB) : Prop :=
  (forall c, In c (orm.categories d')
             <-> In c (orm.categories d) /\ Category.id c <> category_id)
  /\ cascade_removed
       (map Recommendation.id
            (List.filter (fun r => Z.eqb (Recommendation.category_id r) category_id)
                         (orm.recommendations d)))
       d d'.

(** Deleting the recommendation [rec_id]: it goes with its likes and
    comments; the categories are untouched. *)
Definition recommendation_deleted (rec_id : Z) (d d' : orm.DB) : Prop :=
  orm.categories d' = orm.categories d /\ cascade_removed [rec_id] d d'.

(** The comment a deletion URL addresses: the chain of lookups of
    [delete_comment], each of which answers 404 when it finds nothing. *)
Definition comment_route (d : orm.DB) (profile_slug category_slug : string)
           (rec_id comment_id : Z) : option (Recommendation.t * Comment.t) :=
  match routes.public_profile d profile_slug with
  | None => None
  | Some profile =>
      match routes.category_by_slug d (Profile.id profile) category_slug with
      | None => None
      | Some category =>
          match routes.recommendation_in d (Category.id category) rec_id with
          | None => None
          | Some recommendation =>
              match find (fun c => Z.eqb (Comment.id c) comment_id
                                   && Z.eqb (Comment.recommendation_id c)
                                            (Recommendation.id recommendation))
                         (orm.comments d) with
              | None => None
              | Some comment => Some (recommendation, comment)
              end
          end
      end
  end.

(** The texts on which the two [slugify] functions are compared: ASCII
    letters, digits, ASCII whitespace and hyphens, with a letter or digit at
    both ends. *)
Definition plain_char (c : ascii) : bool :=
  is_alnum c || is_hyphen c || (isspace c && Nat.ltb (ord c) 128).

Definition clean_ends (s : chars) : bool :=
  match s with
  | [] => true
  | c :: _ => is_alnum c && is_alnum (List.last s c)
  end.

Definition plain_text (text : string) : Prop :=
  forallb plain_char (s2l text) = true /\ clean_ends (s2l text) = true.

(** No two hyphens in a row. *)
Fixpoint single_hyphens (s : chars) : bool :=
  match s with
  | a :: ((b :: _) as s') => negb (is_hyphen a && is_hyphen b) && single_hyphens s'
  | _ => true
  end.

(** The characters of a profile or category slug: lowercase letters,
    digits, the underscore and the hyphen. *)
Definition name_slug_char (c : ascii) : bool :=
  is_lower_az c || is_digit c || Nat.eqb (ord c) 95 || is_hyphen c.

(** [Category.slug] is unique within its profile. *)
Definition category_slugs_unique (d : orm.DB) : Prop :=
  NoDup (map (fun c => (Category.profile_id c, Category.slug c)) (orm.categories d)).

(** The category [c] belongs to the profile of the user [uid]. *)
Definition own_category (d : orm.DB) (uid : Z) (c : Category.t) : Prop :=
  exists p, routes.profile_of_user d uid = Some p
            /\ Category.profile_id c = Profile.id p.

(** What a request to the tag API of the recommendation [rec_id] may do:
    nothing at all, unless the requester is signed in as the owner of the
    recommendation; then the rows with another id are left as they are and
    the row found for [rec_id] changes in its tags only. *)
Definition tags_edited_by_owner (rec_id : Z) (st st' : routes.state) : Prop :=
  st' = st
  \/ ((exists rec, orm.get_recommendation (routes.db st) rec_id = Some rec
                   /\ session.user_id (routes.sess st)
                      = routes_tagging.owner_id (routes.db st) rec)
      /\ routes.sess st' = routes.sess st
      /\ orm.with_recommendations (routes.db st') (orm.recommendations (routes.db st))
         = routes.db st
      /\ Forall2 (fun r r' =>
                    if Z.eqb (Recommendation.id r) rec_id
                    then Recommendation.id r' = rec_id
                    else r' = r)
                 (orm.recommendations (routes.db st))
                 (orm.recommendations (routes.db st'))
      /\ exists rec rec',
          orm.get_recommendation (routes.db st) rec_id = Some rec
          /\ orm.get_recommendation (routes.db st') rec_id = Some rec'
          /\ Recommendation.with_tags rec' (Recommendation.tags rec) = rec).

(** A list of recommendations from the newest to the oldest. *)
Fixpoint newest_first (l : list Recommendation.t) : Prop :=
  match l with
  | [] => True
  | r :: l' =>
      Forall (fun x => (Recommendation.created_at x <= Recommendation.created_at r)%Z) l'
      /\ newest_first l'
  end.

(** The requester of [st] may see the recommendation [r]: it is in a
    category of a profile that is public or belongs to the signed-in
    user. *)
Definition may_see (st : routes.state) (r : Recommendation.t) : Prop :=
  exists c p,
    In c (orm.categories (routes.db st))
    /\ In p (orm.profiles (routes.db st))
    /\ Category.id c = Recommendation.category_id r
    /\ Profile.id p = Category.profile_id c
    /\ (Profile.is_public p = true
        \/ (session.user_id (routes.sess st) = Some (Profile.user_id p)
            /\ Profile.user_id p <> 0%Z)).

(** A list of strings in strictly ascending order. *)
Fixpoint ascending (l : list string) : Prop :=
  match l with
  | [] => True
  | x :: l' => Forall (fun y => String.ltb x y = true) l' /\ ascending l'
  end.

End invariants.

(* ===================================================================== *)
(** * A small database used in the concrete runs                          *)
(* ===================================================================== *)

Module scenario.

Definition alice : User.t := User.mk 1 "alice" "alice@example.com" "hash-a" false true.
Definition bob : User.t := User.mk 2 "bob" "bob@example.com" "hash-b" false true.
Definition carol : User.t := User.mk 3 "carol" "carol@example.com" "hash-c" false true.

(** Alice's profile, public or hidden. *)
Definition alice_profile (is_public : bool) : Profile.t :=
  Profile.mk 1 "Alice" "" "alice" is_public "" "" "" "" 1.

Definition food : Category.t := Category.mk 1 "Food" "" "food" 1.

(** One recommendation of Alice, tagged with the collection "smart-art". *)
Definition gallery : Recommendation.t :=
  Recommendation.mk 1 "Gallery" "" 5 "$" ""
                    (Some (<["collections" := ["smart-art"]]> ∅)) 0 1.

(** Bob follows Alice, likes her recommendation and commented on it. *)
Definition bob_follows_alice : Follow.t := Follow.mk 1 2 1.
Definition bob_likes_gallery : Like.t := Like.mk 1 2 1.
Definition bob_comment : Comment.t := Comment.mk 1 "Nice" 2 1 0.

Definition database (is_public : bool) : orm.DB :=
  orm.mkDB [alice; bob; carol] [alice_profile is_public] [food] [gallery]
           [bob_follows_alice] [bob_likes_gallery] [bob_comment].

(** The state when [user] is signed in. *)
Definition signed_in (user : User.t) (is_public : bool) : routes.state :=
  routes.mk_state (database is_public) (session.mk (Some (User.id user)) None).

Definition anonymous : routes.state :=
  routes.mk_state (database true) session.empty.

(** A creation form whose collection tags repeat one tag. *)
Definition beach_form : forms.RecommendationForm :=
  forms.mkRecommendationForm 1 "Beach bar" 5 "$" "" "" "" "beach, Beach".

End scenario.
(* ===================================================================== *)
(** * Sanity checks of the embedding                                      *)
(* ===================================================================== *)

Example models_slugify_summer :
  models.slugify (Some "Summer 2025") = "summer-2025".
Proof. reflexivity. Qed.

Example models_slugify_punct :
  models.slugify (Some "  --Hello,   World!! ") = "hello-world".
Proof. reflexivity. Qed.

Example utils_slugify_punct :
  utils.slugify "  --Hello,   World!! " = "-hello-world".
Proof. reflexivity. Qed.

(* ===================================================================== *)
(** * Facts about the text primitives                                     *)
(* ===================================================================== *)

Lemma l2s_s2l (s : string) : l2s (s2l s) = s.
Proof. apply string_of_list_ascii_of_string. Qed.

Lemma s2l_l2s (l : chars) : s2l (l2s l) = l.
Proof. apply list_ascii_of_string_of_list_ascii. Qed.

Lemma s2l_inj (s t : string) : s2l s = s2l t -> s = t.
Proof. intros H. rewrite <- (l2s_s2l s), <- (l2s_s2l t). now rewrite H. Qed.

Lemma l2s_inj (s t : chars) : l2s s = l2s t -> s = t.
Proof. intros H. rewrite <- (s2l_l2s s), <- (s2l_l2s t). now rewrite H. Qed.

(** A property of all 256 characters is checked by enumeration. *)
Ltac by_cases_on_char c :=
  destruct c as [[] [] [] [] [] [] [] []]; vm_compute; try reflexivity;
  try discriminate; try tauto; try (intros; discriminate).

Lemma space_not_alnum c : isspace c = true -> is_alnum c = false.
Proof. by_cases_on_char c. Qed.

Lemma hyphen_not_alnum c : is_hyphen c = true -> is_alnum c = false.
Proof. by_cases_on_char c. Qed.

Lemma lower_char_alnum c : is_alnum (lower_char c) = is_alnum c.
Proof. by_cases_on_char c. Qed.

Lemma lower_char_space c : isspace (lower_char c) = isspace c.
Proof. by_cases_on_char c. Qed.

Lemma lower_char_hyphen c : is_hyphen (lower_char c) = is_hyphen c.
Proof. by_cases_on_char c. Qed.

Lemma lower_char_not_upper c : is_upper_az (lower_char c) = false.
Proof. by_cases_on_char c. Qed.

Lemma is_hyphen_eq c : is_hyphen c = true <-> c = "-"%char.
Proof. split; [by_cases_on_char c | intros ->; reflexivity]. Qed.

(** ** [lstrip], [rstrip], [strip] *)

Lemma lstrip_app_class p w s : forallb p w = true -> lstrip p (w ++ s) = lstrip p s.
Proof.
  induction w as [|c w IH]; simpl; [reflexivity|].
  intros H. apply andb_prop in H as [Hc Hw]. now rewrite Hc, IH.
Qed.

Lemma lstrip_split p s : exists w, forallb p w = true /\ s = w ++ lstrip p s.
Proof.
  induction s as [|c s IH]; simpl.
  - exists []. now split.
  - destruct (p c) eqn:Hc.
    + destruct IH as (w & Hw & E). exists (c :: w). simpl. rewrite Hc, Hw.
      split; [reflexivity | now f_equal].
    + exists []. now split.
Qed.

Lemma lstrip_all p w : forallb p w = true -> lstrip p w = [].
Proof.
  intros H. rewrite <- (app_nil_r w). now rewrite lstrip_app_class.
Qed.

Lemma lstrip_head p c s : p c = false -> lstrip p (c :: s) = c :: s.
Proof. intros H. simpl. now rewrite H. Qed.

Lemma lstrip_app_keep p s t :
  lstrip p s <> [] -> lstrip p (s ++ t) = lstrip p s ++ t.
Proof.
  induction s as [|c s IH]; simpl; [congruence|].
  destruct (p c); [exact IH | reflexivity].
Qed.

Lemma lstrip_nil_all p s : lstrip p s = [] -> forallb p s = true.
Proof.
  induction s as [|c s IH]; simpl; [reflexivity|].
  destruct (p c); [exact IH | discriminate].
Qed.

Lemma rstrip_app_class p s w : forallb p w = true -> rstrip p (s ++ w) = rstrip p s.
Proof.
  intros H. unfold rstrip. rewrite rev_app_distr, lstrip_app_class; [reflexivity|].
  rewrite forallb_forall in *. intros x Hx. apply H. now apply in_rev.
Qed.

Lemma rstrip_split p s : exists w, forallb p w = true /\ s = rstrip p s ++ w.
Proof.
  destruct (lstrip_split p (rev s)) as (w & Hw & E).
  exists (rev w). split.
  - rewrite forallb_forall in *. intros x Hx. apply Hw. now apply in_rev.
  - unfold rstrip. rewrite <- rev_app_distr, <- E. now rewrite rev_involutive.
Qed.

Lemma rstrip_last p s c : p c = false -> rstrip p (s ++ [c]) = s ++ [c].
Proof.
  intros H. unfold rstrip. rewrite rev_app_distr. simpl. rewrite H.
  simpl. now rewrite rev_involutive.
Qed.

Lemma rstrip_nil p : rstrip p [] = [].
Proof. reflexivity. Qed.

(** Characters of the class added at either end do not change [strip]. *)
Lemma strip_app_class_l p w s : forallb p w = true -> strip p (w ++ s) = strip p s.
Proof. intros H. unfold strip. now rewrite lstrip_app_class. Qed.

Lemma strip_app_class_r p s w : forallb p w = true -> strip p (s ++ w) = strip p s.
Proof.
  intros H. unfold strip.
  destruct (lstrip p s) as [|c r] eqn:E.
  - rewrite lstrip_app_class; [|now apply lstrip_nil_all].
    rewrite (lstrip_all p w H). reflexivity.
  - rewrite lstrip_app_keep; [|congruence]. rewrite E. now apply rstrip_app_class.
Qed.

(** [strip] cuts a text into a prefix and a suffix of the class around the
    result. *)
Lemma strip_split p s :
  exists w1 w2, forallb p w1 = true /\ forallb p w2 = true
                /\ s = w1 ++ strip p s ++ w2.
Proof.
  destruct (lstrip_split p s) as (w1 & H1 & E1).
  destruct (rstrip_split p (lstrip p s)) as (w2 & H2 & E2).
  exists w1, w2. repeat split; [assumption..|].
  unfold strip. now rewrite <- E2.
Qed.

(** ** [re.sub] over runs *)

Lemma sub_runs_pending p r s :
  r ++ sub_runs_from p r true s =
  if starts_with p s then sub_runs_from p r false s
  else r ++ sub_runs_from p r false s.
Proof.
  destruct s as [|c s]; simpl; [reflexivity|].
  destruct (p c) eqn:Hc; reflexivity.
Qed.

(** A prefix of characters of the class adds at most one replacement in
    front. *)
Lemma sub_runs_class_prefix p r w s :
  forallb p w = true ->
  sub_runs_from p r false (w ++ s) = sub_runs_from p r false s
  \/ sub_runs_from p r false (w ++ s) = r ++ sub_runs_from p r false s.
Proof.
  intros Hw.
  assert (Ht : forall w, forallb p w = true ->
               sub_runs_from p r true (w ++ s) = sub_runs_from p r true s).
  { clear. induction w as [|c w IH]; simpl; [reflexivity|].
    intros H. apply andb_prop in H as [Hc Hw]. rewrite Hc. now apply IH. }
  destruct w as [|c w]; [now left|].
  simpl in *. apply andb_prop in Hw as [Hc Hw]. rewrite Hc, (Ht w Hw).
  rewrite sub_runs_pending. destruct (starts_with p s); [now left | now right].
Qed.

(** A suffix of characters of the class adds at most one replacement at the
    end. *)
Lemma sub_runs_class_suffix p r s w b :
  forallb p w = true ->
  sub_runs_from p r b (s ++ w) = sub_runs_from p r b s
  \/ sub_runs_from p r b (s ++ w) = sub_runs_from p r b s ++ r.
Proof.
  intros Hw.
  assert (Ht : forall w, forallb p w = true -> sub_runs_from p r true w = []).
  { clear. induction w as [|c w IH]; simpl; [reflexivity|].
    intros H. apply andb_prop in H as [Hc Hw]. rewrite Hc. now apply IH. }
  revert b. induction s as [|c s IH]; intros b; simpl.
  - destruct w as [|c w]; [now left|]. simpl in *.
    apply andb_prop in Hw as [Hc Hw']. rewrite Hc, (Ht w Hw').
    destruct b; [now left | right; now rewrite app_nil_r].
  - destruct (p c).
    + destruct b.
      * apply IH.
      * destruct (IH true) as [E|E]; rewrite E; [now left | right].
        now rewrite app_assoc.
    + destruct (IH false) as [E|E]; rewrite E; [now left | now right].
Qed.

Lemma sub_runs_ext p q r b s :
  forallb (fun c => Bool.eqb (p c) (q c)) s = true ->
  sub_runs_from p r b s = sub_runs_from q r b s.
Proof.
  revert b. induction s as [|c s IH]; intros b; simpl; [reflexivity|].
  intros H. apply andb_prop in H as [Hc Hs]. apply eqb_prop in Hc.
  rewrite <- Hc. destruct (p c), b; rewrite ?IH; auto.
Qed.

Lemma sub_runs_head p r c s :
  p c = false -> sub_runs_from p r false (c :: s) = c :: sub_runs_from p r false s.
Proof. intros H. simpl. now rewrite H. Qed.

Lemma sub_runs_last p r b s c :
  p c = false -> sub_runs_from p r b (s ++ [c]) = sub_runs_from p r false s ++ [c]
                 \/ sub_runs_from p r b (s ++ [c]) = sub_runs_from p r b s ++ [c].
Proof.
  intros Hc. right. revert b. induction s as [|d s IH]; intros b; simpl.
  - now rewrite Hc.
  - destruct (p d), b; rewrite ?IH; try reflexivity. now rewrite app_assoc.
Qed.

(* ===================================================================== *)
(** * Tag slugs: models.slugify against its description                   *)
(* ===================================================================== *)

Lemma runs_cons c s :
  described_slug.runs (c :: s) =
  match described_slug.runs s with
  | (b, r) :: rest =>
      if Bool.eqb b (is_alnum c) then (b, c :: r) :: rest
      else (is_alnum c, [c]) :: (b, r) :: rest
  | [] => [(is_alnum c, [c])]
  end.
Proof. reflexivity. Qed.

Lemma runs_head d s :
  exists r rest, described_slug.runs (d :: s) = (is_alnum d, d :: r) :: rest.
Proof.
  rewrite runs_cons. destruct (described_slug.runs s) as [|[b r] rest]; [eauto|].
  destruct (Bool.eqb b (is_alnum d)) eqn:E; [|eauto].
  apply eqb_prop in E. subst b. eauto.
Qed.

(** The runs are a decomposition of the text... *)
Lemma runs_concat s : flat_map snd (described_slug.runs s) = s.
Proof.
  induction s as [|c s IH]; [reflexivity|].
  rewrite runs_cons. destruct (described_slug.runs s) as [|[b r] rest].
  - simpl in *. now subst s.
  - destruct (Bool.eqb b (is_alnum c)); simpl in *; now rewrite IH.
Qed.

(** ... into non-empty blocks of characters of one class ... *)
Lemma runs_uniform s :
  Forall (fun '(b, r) => r <> [] /\ forallb (fun c => Bool.eqb (is_alnum c) b) r = true)
         (described_slug.runs s).
Proof.
  induction s as [|c s IH]; [constructor|].
  rewrite runs_cons. destruct (described_slug.runs s) as [|[b r] rest].
  - constructor; [|constructor]. split; [discriminate|]. simpl.
    now rewrite eqb_reflx.
  - inversion IH as [|? ? Hhd Hrest]; subst. destruct Hhd as [Hne Hall].
    destruct (Bool.eqb b (is_alnum c)) eqn:E.
    + constructor; [|assumption]. split; [discriminate|]. simpl.
      apply eqb_prop in E. subst b. now rewrite eqb_reflx, Hall.
    + constructor; [|assumption]. split; [discriminate|]. simpl.
      now rewrite eqb_reflx.
Qed.

(** ... that are maximal: neighbouring blocks are of different classes. *)
Lemma runs_maximal s : described_slug.alternating (described_slug.runs s).
Proof.
  induction s as [|c s IH]; [exact I|].
  rewrite runs_cons. destruct (described_slug.runs s) as [|[b r] rest]; [exact I|].
  destruct (Bool.eqb b (is_alnum c)) eqn:E.
  - destruct rest as [|[b2 r2] rest]; [exact I|]. exact IH.
  - split; [|exact IH]. intros H. rewrite H, eqb_reflx in E. discriminate.
Qed.

Lemma hyphenate_cons_alnum c s :
  is_alnum c = true ->
  described_slug.hyphenate (c :: s) = c :: described_slug.hyphenate s.
Proof.
  intros Hc. unfold described_slug.hyphenate.
  destruct s as [|d s]; [cbn [described_slug.runs flat_map]; now rewrite Hc|].
  destruct (runs_head d s) as (r & rest & E).
  rewrite runs_cons, E, Hc.
  destruct (is_alnum d); simpl; reflexivity.
Qed.

Lemma hyphenate_cons_sep c s :
  is_alnum c = false ->
  described_slug.hyphenate (c :: s) =
  if starts_with non_alnum s then described_slug.hyphenate s
  else "-"%char :: described_slug.hyphenate s.
Proof.
  intros Hc. unfold described_slug.hyphenate.
  destruct s as [|d s]; [cbn [described_slug.runs flat_map]; now rewrite Hc|].
  destruct (runs_head d s) as (r & rest & E).
  rewrite runs_cons, E, Hc. unfold starts_with, non_alnum.
  destruct (is_alnum d); simpl; reflexivity.
Qed.

(** The scan of [re.sub] produces exactly the hyphenated runs. *)
Lemma sub_runs_hyphenate s :
  sub_runs non_alnum ["-"%char] s = described_slug.hyphenate s.
Proof.
  unfold sub_runs. induction s as [|c s IH]; [reflexivity|].
  simpl. unfold non_alnum at 1. destruct (is_alnum c) eqn:Hc; simpl.
  - now rewrite hyphenate_cons_alnum, IH.
  - rewrite hyphenate_cons_sep by assumption.
    change ("-"%char :: sub_runs_from non_alnum ["-"%char] true s)
      with (["-"%char] ++ sub_runs_from non_alnum ["-"%char] true s).
    rewrite sub_runs_pending, IH. reflexivity.
Qed.

(** [text.strip()] before the substitution changes nothing once the hyphens
    at the ends are stripped: whitespace is non-alphanumeric. *)
Lemma strip_space_redundant p t :
  (forall c, isspace c = true -> p c = true) ->
  strip is_hyphen (sub_runs p ["-"%char] (strip isspace t))
  = strip is_hyphen (sub_runs p ["-"%char] t).
Proof.
  intros Hp.
  destruct (strip_split isspace t) as (w1 & w2 & H1 & H2 & E).
  remember (strip isspace t) as m eqn:Hm. clear Hm. subst t.
  assert (Hcls : forall w, forallb isspace w = true -> forallb p w = true).
  { intros w Hw. rewrite forallb_forall in *. auto. }
  unfold sub_runs.
  assert (E1 : strip is_hyphen (sub_runs_from p ["-"%char] false (w1 ++ m ++ w2))
               = strip is_hyphen (sub_runs_from p ["-"%char] false (m ++ w2))).
  { destruct (sub_runs_class_prefix p ["-"%char] w1 (m ++ w2) (Hcls _ H1)) as [->| ->];
      [reflexivity | now apply strip_app_class_l]. }
  rewrite E1.
  destruct (sub_runs_class_suffix p ["-"%char] m w2 false (Hcls _ H2)) as [->| ->];
    [reflexivity | symmetry; now apply strip_app_class_r].
Qed.

Lemma slugify_chars_described t :
  models.slugify_chars t = described_slug.slug_of t.
Proof.
  unfold models.slugify_chars, described_slug.slug_of.
  change (fun c => negb (is_alnum c)) with non_alnum.
  rewrite strip_space_redundant.
  - now rewrite sub_runs_hyphenate.
  - intros c Hc. unfold non_alnum. now rewrite space_not_alnum.
Qed.

Lemma length_take_le {A} n (l : list A) : length (take n l) <= n.
Proof. rewrite length_take. lia. Qed.

(** C9.  For every input string, the tag slug computed by [slugify] of
    models.py is the lowercased text with each maximal run of
    non-alphanumeric characters replaced by one hyphen, the hyphens at both
    ends stripped, capped at 50 characters; a missing or empty input yields
    the empty slug. *)
Theorem slugify_as_described :
  forall text : string,
    models.slugify (Some text) = l2s (described_slug.slug_of (s2l text))
    /\ length (s2l (models.slugify (Some text))) <= 50
    /\ models.slugify None = ""
    /\ models.slugify (Some "") = "".
Proof.
  intros text.
  assert (E : models.slugify (Some text) = l2s (described_slug.slug_of (s2l text))).
  { unfold models.slugify. destruct (s2l text) as [|c t] eqn:Ht; [reflexivity|].
    simpl truthy. cbv iota. now rewrite slugify_chars_described. }
  split; [exact E|]. split; [|split; reflexivity].
  rewrite E, s2l_l2s. apply length_take_le.
Qed.

(* ===================================================================== *)
(** * The two slug functions compared                                     *)
(* ===================================================================== *)

Lemma plain_char_nfkd c : invariants.plain_char c = true -> utils.nfkd_ascii c = [c].
Proof. by_cases_on_char c. Qed.

Lemma plain_char_kept c :
  invariants.plain_char c = true ->
  negb (negb (is_word c || isspace c || is_hyphen c)) = true.
Proof. by_cases_on_char c. Qed.

Lemma plain_char_lower_classes c :
  invariants.plain_char c = true ->
  Bool.eqb (non_alnum (lower_char c))
           (is_hyphen (lower_char c) || isspace (lower_char c)) = true.
Proof. by_cases_on_char c. Qed.

Lemma hyphen_or_space_not_alnum c :
  is_hyphen c || isspace c = true -> is_alnum c = false.
Proof. by_cases_on_char c. Qed.

Lemma flat_map_nfkd_plain t :
  forallb invariants.plain_char t = true -> flat_map utils.nfkd_ascii t = t.
Proof.
  induction t as [|c t IH]; simpl; [reflexivity|].
  intros H. apply andb_prop in H as [Hc Ht].
  now rewrite (plain_char_nfkd c Hc), IH.
Qed.

Lemma filter_all {A} (f : A -> bool) l : forallb f l = true -> List.filter f l = l.
Proof.
  induction l as [|x l IH]; simpl; [reflexivity|].
  intros H. apply andb_prop in H as [Hx Hl]. now rewrite Hx, IH.
Qed.

Lemma sub_delete_plain t :
  forallb invariants.plain_char t = true ->
  sub_delete (fun c => negb (is_word c || isspace c || is_hyphen c)) t = t.
Proof.
  intros H. unfold sub_delete. apply filter_all.
  rewrite forallb_forall in *. intros c Hc. apply plain_char_kept. now apply H.
Qed.

(** A text with a letter or digit at both ends is left alone by [strip] on
    a class of non-alphanumeric characters. *)
Lemma strip_clean_ends p t :
  invariants.clean_ends t = true ->
  (forall c, p c = true -> is_alnum c = false) ->
  strip p t = t.
Proof.
  intros Hc Hp. destruct t as [|c s]; [reflexivity|].
  cbn [invariants.clean_ends] in Hc. apply andb_prop in Hc as [Hhd Hlast].
  assert (Hnp : forall x, is_alnum x = true -> p x = false).
  { intros x Hx. destruct (p x) eqn:E; [|reflexivity]. apply Hp in E. congruence. }
  unfold strip. rewrite lstrip_head by now apply Hnp.
  rewrite (app_removelast_last (l := c :: s) c) by discriminate.
  apply rstrip_last. now apply Hnp.
Qed.

Lemma last_map {A B} (f : A -> B) l d :
  List.last (map f l) (f d) = f (List.last l d).
Proof.
  induction l as [|x l IH]; [reflexivity|].
  destruct l as [|y l]; [reflexivity|]. exact IH.
Qed.

Lemma clean_ends_lower t :
  invariants.clean_ends t = true -> invariants.clean_ends (lower t) = true.
Proof.
  destruct t as [|c s]; [reflexivity|]. unfold lower.
  cbn [invariants.clean_ends map]. intros H. apply andb_prop in H as [Hhd Hlast].
  change (lower_char c :: map lower_char s) with (map lower_char (c :: s)).
  rewrite last_map, !lower_char_alnum, Hhd, Hlast. reflexivity.
Qed.

Lemma clean_ends_sub_runs q t :
  invariants.clean_ends t = true ->
  (forall c, q c = true -> is_alnum c = false) ->
  invariants.clean_ends (sub_runs q ["-"%char] t) = true.
Proof.
  intros Hc Hq. destruct t as [|c s]; [reflexivity|].
  cbn [invariants.clean_ends] in Hc. apply andb_prop in Hc as [Hhd Hlast].
  assert (Hnq : forall x, is_alnum x = true -> q x = false).
  { intros x Hx. destruct (q x) eqn:E; [|reflexivity]. apply Hq in E. congruence. }
  unfold sub_runs.
  assert (Hend : exists body, sub_runs_from q ["-"%char] false (c :: s)
                              = body ++ [List.last (c :: s) c]).
  { pose proof (app_removelast_last (l := c :: s) c ltac:(discriminate)) as E.
    destruct (sub_runs_last q ["-"%char] false (removelast (c :: s))
                            (List.last (c :: s) c) (Hnq _ Hlast)) as [H|H];
      rewrite <- E in H; eauto. }
  destruct Hend as (body & Hend).
  assert (Hstart : exists rest, sub_runs_from q ["-"%char] false (c :: s) = c :: rest).
  { rewrite sub_runs_head by now apply Hnq. eauto. }
  destruct Hstart as (rest & Hstart).
  rewrite Hstart. cbn [invariants.clean_ends]. rewrite Hhd.
  rewrite <- Hstart, Hend, last_last, Hlast. reflexivity.
Qed.

(** C10, the counterexample: an apostrophe is deleted by utils.slugify and
    turned into a hyphen by models.slugify. *)
Lemma slugify_functions_differ :
  utils.slugify "Don't" <> models.slugify (Some "Don't").
Proof. vm_compute. discriminate. Qed.

(** C10, amended.  The two [slugify] functions return the same slug on
    every text that consists only of ASCII letters, digits, ASCII whitespace
    and hyphens, begins and ends with a letter or digit, and whose slug has
    at most 50 characters. *)
Theorem slugify_functions_agree_on_plain_text :
  forall text : string,
    invariants.plain_text text ->
    length (s2l (utils.slugify text)) <= 50 ->
    utils.slugify text = models.slugify (Some text).
Proof.
  intros text [Hplain Hends] Hlen.
  unfold utils.slugify in *. rewrite s2l_l2s in Hlen.
  unfold models.slugify.
  assert (Hu : utils.slugify_chars (s2l text)
               = sub_runs (fun c => is_hyphen c || isspace c) ["-"%char]
                          (lower (s2l text))).
  { unfold utils.slugify_chars.
    rewrite flat_map_nfkd_plain, sub_delete_plain by assumption.
    rewrite strip_clean_ends; [reflexivity | assumption | apply space_not_alnum]. }
  rewrite Hu in *.
  destruct (s2l text) as [|c t] eqn:Ht; [reflexivity|].
  simpl truthy. cbv iota. f_equal.
  unfold models.slugify_chars.
  rewrite (strip_clean_ends isspace);
    [| now apply clean_ends_lower | apply space_not_alnum].
  assert (Hsame : sub_runs non_alnum ["-"%char] (lower (c :: t))
                  = sub_runs (fun c => is_hyphen c || isspace c) ["-"%char]
                             (lower (c :: t))).
  { apply sub_runs_ext. unfold lower. rewrite forallb_forall in *.
    intros x Hx. apply in_map_iff in Hx as (y & <- & Hy).
    apply plain_char_lower_classes. now apply Hplain. }
  rewrite Hsame.
  rewrite (strip_clean_ends is_hyphen).
  - symmetry. apply take_ge. exact Hlen.
  - apply clean_ends_sub_runs; [now apply clean_ends_lower|].
    apply hyphen_or_space_not_alnum.
  - apply hyphen_not_alnum.
Qed.

Lemma slugify_functions_agree_witness :
  utils.slugify "Summer 2025" = models.slugify (Some "Summer 2025").
Proof.
  apply (slugify_functions_agree_on_plain_text "Summer 2025").
  - split; reflexivity.
  - vm_compute. lia.
Defined.

(* ===================================================================== *)
(** * Recommendation.add_tag and get_tags                                 *)
(* ===================================================================== *)

Lemma add_under_member key tag_slug (d : tagdict) :
  tag_slug ∈ default [] (models.add_under key tag_slug d !! key).
Proof.
  unfold models.add_under. case_bool_decide as Hin; [exact Hin|].
  rewrite lookup_insert_eq. simpl. apply elem_of_app. right.
  apply list_elem_of_singleton. reflexivity.
Qed.

Lemma add_under_non_empty key tag_slug (d : tagdict) :
  models.add_under key tag_slug d <> ∅.
Proof.
  unfold models.add_under. case_bool_decide as Hin.
  - intros ->. rewrite lookup_empty in Hin. simpl in Hin. inversion Hin.
  - apply insert_non_empty.
Qed.

Lemma add_under_again key tag_slug (d : tagdict) :
  models.add_under key tag_slug (models.add_under key tag_slug d)
  = models.add_under key tag_slug d.
Proof.
  unfold models.add_under at 1.
  rewrite bool_decide_eq_true_2; [reflexivity | apply add_under_member].
Qed.

Lemma add_under_other key key' tag_slug (d : tagdict) :
  key <> key' ->
  models.add_under key tag_slug d !! key' = d !! key'.
Proof.
  intros Hne. unfold models.add_under. case_bool_decide; [reflexivity|].
  rewrite lookup_insert_ne by assumption.
  case_bool_decide; [reflexivity|]. now rewrite lookup_insert_ne.
Qed.

Lemma tags_truthy_add_under key tag_slug (d : tagdict) :
  models.tags_truthy (Some (models.add_under key tag_slug d)) = true.
Proof.
  unfold models.tags_truthy. rewrite bool_decide_eq_false_2; [reflexivity|].
  apply add_under_non_empty.
Qed.

(** The dict [add_tag] works on, and the one it stores. *)
Lemma add_tag_tags self tag_name tag_type :
  exists d0,
    Recommendation.tags (models.add_tag self tag_name tag_type)
    = Some (models.add_under
              (if String.eqb tag_type "category" then "categories" else "collections")
              (models.slugify (Some tag_name)) d0)
    /\ (models.tags_truthy (Recommendation.tags self) = true ->
        Recommendation.tags self = Some d0)
    /\ (models.tags_truthy (Recommendation.tags self) = false ->
        d0 = <["categories" := []]> (<["collections" := []]> ∅)).
Proof.
  unfold models.add_tag.
  destruct (Recommendation.tags self) as [d|] eqn:Ht.
  - destruct (models.tags_truthy (Some d)) eqn:Htr.
    + exists d. destruct (String.eqb tag_type "category"); simpl; auto.
        all: split; [reflexivity | split; [reflexivity | discriminate]].
    + eexists. destruct (String.eqb tag_type "category"); simpl;
        (split; [reflexivity | split; [discriminate | reflexivity]]).
  - eexists. destruct (String.eqb tag_type "category"); simpl;
      (split; [reflexivity | split; [discriminate | reflexivity]]).
Qed.

(** C6.  For every Recommendation, [add_tag("Summer 2025", "collection")]
    followed by [get_tags()] yields a list that includes "summer-2025"; and
    for every tag text and type, calling [add_tag] twice with the same
    arguments leaves the recommendation as one call does. *)
Theorem add_tag_get_tags :
  (forall self : Recommendation.t,
      In "summer-2025"
         (models.get_tags (models.add_tag self "Summer 2025" "collection")))
  /\ (forall (self : Recommendation.t) (tag_name tag_type : string),
         models.add_tag (models.add_tag self tag_name tag_type) tag_name tag_type
         = models.add_tag self tag_name tag_type).
Proof.
  split.
  - intros self.
    destruct (add_tag_tags self "Summer 2025" "collection") as (d0 & E & _).
    change (String.eqb "collection" "category") with false in E. cbv iota in E.
    change (models.slugify (Some "Summer 2025")) with "summer-2025" in E.
    unfold models.get_tags. rewrite E, tags_truthy_add_under.
    pose proof (add_under_member "collections" "summer-2025" d0) as Hin.
    destruct (models.add_under "collections" "summer-2025" d0 !! "collections")
      as [l|]; simpl in Hin; [|inversion Hin].
    apply list_elem_of_In in Hin. apply in_or_app. now right.
  - intros self tag_name tag_type.
    destruct (add_tag_tags self tag_name tag_type) as (d0 & E & _).
    unfold models.add_tag at 1. rewrite E, tags_truthy_add_under.
    destruct (String.eqb tag_type "category"); rewrite add_under_again;
      unfold Recommendation.with_tags; rewrite <- E; now destruct (models.add_tag _ _ _).
Qed.

(* ===================================================================== *)
(** * The tags invariant and the operations that write tags               *)
(* ===================================================================== *)

Lemma in_lstrip p x s : In x (lstrip p s) -> In x s.
Proof.
  induction s as [|c s IH]; simpl; [tauto|].
  destruct (p c); simpl; auto.
Qed.

Lemma in_strip p x s : In x (strip p s) -> In x s.
Proof.
  unfold strip, rstrip. intros H. apply in_rev, in_lstrip, in_rev in H.
  now apply in_lstrip in H.
Qed.

Lemma in_take {A} n (x : A) l : In x (take n l) -> In x l.
Proof.
  revert l. induction n as [|n IH]; intros [|y l]; simpl; try tauto.
  intros [->|H]; auto.
Qed.

Lemma in_sub_runs p r b x s :
  In x (sub_runs_from p r b s) -> In x r \/ (In x s /\ p x = false).
Proof.
  revert b. induction s as [|c s IH]; intros b; simpl; [tauto|].
  destruct (p c) eqn:Hc.
  - destruct b.
    + intros H. apply IH in H. tauto.
    + intros H. apply in_app_or in H as [H|H]; [tauto|]. apply IH in H. tauto.
  - intros [->|H]; [tauto|]. apply IH in H. tauto.
Qed.

Lemma lowered_alnum_is_slug_char c :
  is_alnum (lower_char c) = true -> invariants.slug_char (lower_char c) = true.
Proof. by_cases_on_char c. Qed.

Lemma slugify_chars_normalized t :
  forallb invariants.slug_char (models.slugify_chars t) = true.
Proof.
  apply forallb_forall. intros x Hx. unfold models.slugify_chars in Hx.
  apply in_take, in_strip in Hx. unfold sub_runs in Hx.
  apply in_sub_runs in Hx as [[<-|[]]|[Hx Hal]]; [reflexivity|].
  apply in_strip in Hx. unfold lower in Hx.
  apply in_map_iff in Hx as (y & <- & _).
  apply lowered_alnum_is_slug_char. unfold non_alnum in Hal.
  now destruct (is_alnum (lower_char y)).
Qed.

(** Every slug [slugify] returns is normalized. *)
Lemma slugify_normalized text : invariants.normalized_slug (models.slugify text).
Proof.
  unfold invariants.normalized_slug, models.slugify.
  destruct text as [t|]; [|split; [reflexivity | simpl; lia]].
  destruct (truthy (s2l t)); [|split; [reflexivity | simpl; lia]].
  rewrite s2l_l2s. split; [apply slugify_chars_normalized|].
  unfold models.slugify_chars. apply length_take_le.
Qed.

Lemma Forall_map_slugify {A} (f : A -> option string) l :
  Forall invariants.normalized_slug (map (fun x => models.slugify (f x)) l).
Proof. apply Forall_map, Forall_forall. intros x _. apply slugify_normalized. Qed.

(** The creation and edit forms store only the two recognized keys and only
    normalized slugs. *)
Lemma process_tags_keys_and_slugs form :
  invariants.recognized_keys (Some (routes.process_tags form))
  /\ invariants.slugs_normalized (Some (routes.process_tags form)).
Proof.
  unfold routes.process_tags.
  set (cats := if truthy (s2l (forms.category_tags form)) then _ else _).
  assert (Hcats : forall k l, cats !! k = Some l ->
            k = "categories" /\ Forall invariants.normalized_slug l).
  { intros k l. subst cats.
    destruct (truthy _); [|now rewrite lookup_empty].
    destruct (routes.split_tags _); [now rewrite lookup_empty|].
    intros H. apply lookup_insert_Some in H as [[<- <-]|[_ H]].
    - split; [reflexivity | apply (Forall_map_slugify (fun x => Some (l2s x)))].
    - now rewrite lookup_empty in H. }
  clearbody cats.
  set (both := if truthy (s2l (forms.collection_tags form)) then _ else _).
  assert (Hboth : forall k l, both !! k = Some l ->
            (k = "categories" \/ k = "collections")
            /\ Forall invariants.normalized_slug l).
  { intros k l. subst both.
    destruct (truthy (s2l (forms.collection_tags form)));
      [|intros H; apply Hcats in H; tauto].
    destruct (routes.split_tags (forms.collection_tags form));
      [intros H; apply Hcats in H; tauto|].
    intros H. apply lookup_insert_Some in H as [[<- <-]|[_ H]].
    - split; [now right | apply (Forall_map_slugify (fun x => Some (l2s x)))].
    - apply Hcats in H. tauto. }
  clearbody both.
  split; intros d k l [= <-]; case_bool_decide as Hb;
    try (now rewrite lookup_empty); intros H; apply Hboth in H; tauto.
Qed.

(** [add_tag] keeps the whole invariant, deduplication included. *)
Lemma add_under_invariant key tag_slug (d : tagdict) :
  key = "categories" \/ key = "collections" ->
  invariants.normalized_slug tag_slug ->
  invariants.tags_invariant (Some d) ->
  invariants.tags_invariant (Some (models.add_under key tag_slug d)).
Proof.
  intros Hkey Hslug (Hk & Hn & Hd).
  unfold models.add_under. case_bool_decide as Hin; [repeat split; assumption|].
  set (d1 := if bool_decide (is_Some (d !! key)) then d else <[key:=[]]> d).
  assert (H1 : forall k l, d1 !! k = Some l ->
            (k = "categories" \/ k = "collections")
            /\ Forall invariants.normalized_slug l /\ NoDup l
            /\ (k = key -> l = default [] (d !! key))).
  { intros k l. subst d1. case_bool_decide as Hs.
    - intros H. repeat split; eauto. intros ->. now rewrite H.
    - intros H. apply lookup_insert_Some in H as [[<- <-]|[Hne H]].
      + repeat split; auto; try constructor. intros _.
        destruct (d !! key) eqn:E; [exfalso; apply Hs; eauto | reflexivity].
      + repeat split; eauto. congruence. }
  repeat split; intros d' k l [= <-] H;
    apply lookup_insert_Some in H as [[<- <-]|[Hne H]];
    try (apply H1 in H; tauto); try assumption.
  - destruct (d1 !! key) as [l0|] eqn:E; simpl.
    + apply Forall_app. split; [apply (H1 _ _ E)|].
      constructor; [exact Hslug | constructor].
    + constructor; [exact Hslug | constructor].
  - destruct (d1 !! key) as [l0|] eqn:E; simpl.
    + destruct (H1 _ _ E) as (_ & _ & Hnd & Hl0). specialize (Hl0 eq_refl).
      apply NoDup_app. repeat split; [assumption | | apply NoDup_singleton].
      intros x Hx Hx'. apply list_elem_of_singleton in Hx'. subst x.
      apply Hin. now rewrite <- Hl0.
    + apply NoDup_singleton.
Qed.

Lemma add_tag_invariant self tag_name tag_type :
  invariants.tags_invariant (Recommendation.tags self) ->
  invariants.tags_invariant
    (Recommendation.tags (models.add_tag self tag_name tag_type)).
Proof.
  intros Hinv.
  destruct (add_tag_tags self tag_name tag_type) as (d0 & -> & Ht & Hf).
  apply add_under_invariant.
  - destruct (String.eqb tag_type "category"); auto.
  - apply slugify_normalized.
  - destruct (models.tags_truthy (Recommendation.tags self)) eqn:E.
    + now rewrite <- (Ht eq_refl).
    + rewrite (Hf eq_refl).
      repeat split; intros d k l [= <-] H;
        apply lookup_insert_Some in H as [[<- <-]|[_ H]];
        try apply lookup_insert_Some in H as [[<- <-]|[_ H]];
        try (now rewrite lookup_empty in H); auto; constructor.
Qed.

(** The PUT replacement stores only the two recognized keys and only
    normalized slugs (or NULL). *)
Lemma set_recommendation_tags_keys_and_slugs st rec_id data st' id tags msg r :
  routes_tagging.set_recommendation_tags st rec_id data
  = (st', routes_tagging.json_tags id tags msg) ->
  In r (orm.recommendations (routes.db st')) ->
  Recommendation.id r = id ->
  exists r0, In r0 (orm.recommendations (routes.db st))
             /\ Recommendation.id r0 = id
             /\ (invariants.recognized_keys (Recommendation.tags r)
                 /\ invariants.slugs_normalized (Recommendation.tags r)).
Proof.
  unfold routes_tagging.set_recommendation_tags, routes_tagging.login_required_api,
    routes_tagging.attr_of.
  destruct (session.user_id (routes.sess st)); [|discriminate].
  destruct (orm.get_recommendation (routes.db st) rec_id) as [rec|] eqn:Hrec;
    [|discriminate].
  destruct (routes_tagging.owner_id (routes.db st) rec); [|discriminate].
  destruct (orm.get_user (routes.db st) z); [|discriminate].
  destruct (negb (z0 =? User.id t)%Z); [discriminate|].
  destruct (negb (models.tags_truthy data)); [discriminate|].
  cbv zeta.
  set (cats := match default [] (default ∅ data !! "categories") with [] => ∅ | _ => _ end).
  assert (Hcats : forall k l, cats !! k = Some l ->
            k = "categories" /\ Forall invariants.normalized_slug l).
  { intros k l. subst cats.
    destruct (default [] (default ∅ data !! "categories")); [now rewrite lookup_empty|].
    intros H. apply lookup_insert_Some in H as [[<- <-]|[_ H]].
    - split; [reflexivity | apply (Forall_map_slugify Some)].
    - now rewrite lookup_empty in H. }
  clearbody cats.
  set (both := match default [] (default ∅ data !! "collections") with [] => cats | _ => _ end).
  assert (Hboth : forall k l, both !! k = Some l ->
            (k = "categories" \/ k = "collections")
            /\ Forall invariants.normalized_slug l).
  { intros k l. subst both.
    destruct (default [] (default ∅ data !! "collections"));
      [intros H; apply Hcats in H; tauto|].
    intros H. apply lookup_insert_Some in H as [[<- <-]|[_ H]].
    - split; [now right | apply (Forall_map_slugify Some)].
    - apply Hcats in H. tauto. }
  clearbody both.
  intros [= <- <- _ _] Hr Hid. simpl in Hr.
  apply in_map_iff in Hr as (r0 & Hr0 & Hin).
  destruct (Recommendation.id r0 =? Recommendation.id rec)%Z eqn:E.
  - apply Z.eqb_eq in E. exists r0. split; [assumption|]. subst r. simpl.
    split; [assumption|].
    case_bool_decide as Hb.
    + split; intros d k l [=].
    + split; intros d k l [= <-] H; apply Hboth in H; tauto.
  - subst r0. simpl in Hid. rewrite Hid, Z.eqb_refl in E. discriminate.
Qed.

(** C3 at the failing input.  The creation form with the collection tags
    "beach, Beach" stores the slug "beach" twice: the stored list is not
    deduplicated, although [add_tag] never stores a slug twice
    ([add_tag_invariant]). *)
Theorem creation_form_stores_duplicate_slugs :
  let st' := fst (routes.new_recommendation
                    (scenario.signed_in scenario.alice true) routes.POST
                    scenario.beach_form 0) in
  exists r,
    In r (orm.recommendations (routes.db st'))
    /\ Recommendation.tags r = Some (<["collections" := ["beach"; "beach"]]> ∅)
    /\ ~ invariants.tags_invariant (Recommendation.tags r).
Proof.
  eexists. split; [|split].
  - vm_compute. right. left. reflexivity.
  - vm_compute. reflexivity.
  - intros (_ & _ & Hd).
    specialize (Hd _ "collections" ["beach"; "beach"] eq_refl eq_refl).
    apply NoDup_cons_1_1 in Hd. apply Hd. left.
Qed.

(* ===================================================================== *)
(** * Follow and Like pairs                                               *)
(* ===================================================================== *)

Lemma NoDup_map_filter {A B} (f : A -> B) (p : A -> bool) l :
  NoDup (map f l) -> NoDup (map f (List.filter p l)).
Proof.
  induction l as [|x l IH]; simpl; [auto|].
  intros H. apply NoDup_cons in H as [Hx Hl].
  destruct (p x); simpl; [|auto].
  apply NoDup_cons. split; [|auto].
  intros Hin. apply Hx. apply list_elem_of_In in Hin. apply list_elem_of_In.
  apply in_map_iff in Hin as (y & Hy & Hin).
  apply filter_In in Hin as [Hin _]. apply in_map_iff. eauto.
Qed.

Lemma NoDup_map_snoc {A B} (f : A -> B) l x :
  NoDup (map f l) -> ~ In (f x) (map f l) -> NoDup (map f (l ++ [x])).
Proof.
  intros Hl Hx. rewrite map_app. simpl.
  apply NoDup_app. repeat split; [assumption | | apply NoDup_singleton].
  intros y Hy Hy'. apply list_elem_of_singleton in Hy'. subst y.
  apply Hx. now apply list_elem_of_In.
Qed.

Lemma NoDup_map_inj_in {A B} (f : A -> B) l x y :
  NoDup (map f l) -> In x l -> In y l -> f x = f y -> x = y.
Proof.
  induction l as [|z l IH]; simpl; [tauto|].
  intros H. apply NoDup_cons in H as [Hz Hl].
  assert (Hnot : forall w, In w l -> f z <> f w).
  { intros w Hw E. apply Hz. apply list_elem_of_In, in_map_iff. eauto. }
  intros [->|Hx] [->|Hy] E; auto.
  - exfalso. now apply (Hnot y).
  - exfalso. now apply (Hnot x).
Qed.

Lemma find_some_iff_existsb {A} (p : A -> bool) l :
  (exists x, find p l = Some x) <-> existsb p l = true.
Proof.
  induction l as [|y l IH]; simpl.
  - split; [intros [x [=]] | discriminate].
  - destruct (p y); simpl; [split; eauto | exact IH].
Qed.

Lemma add_follow_unique d follower_id followed_id d' f :
  orm.add_follow d follower_id followed_id = Some (d', f) ->
  invariants.follow_pairs_unique d ->
  invariants.follow_pairs_unique d'
  /\ orm.likes d' = orm.likes d.
Proof.
  unfold orm.add_follow, invariants.follow_pairs_unique.
  destruct (existsb _ (orm.follows d)) eqn:E; [discriminate|].
  intros [= <- <-] Hu. simpl. split; [|reflexivity].
  apply NoDup_map_snoc; [assumption|]. simpl.
  intros Hin. apply in_map_iff in Hin as (g & Hg & Hin).
  injection Hg as H1 H2.
  apply not_true_iff_false in E. apply E. apply existsb_exists.
  exists g. split; [assumption|]. now rewrite H1, H2, !Z.eqb_refl.
Qed.

Lemma add_like_unique d user_id recommendation_id d' l :
  orm.add_like d user_id recommendation_id = Some (d', l) ->
  invariants.like_pairs_unique d ->
  invariants.like_pairs_unique d'
  /\ orm.follows d' = orm.follows d.
Proof.
  unfold orm.add_like, invariants.like_pairs_unique.
  destruct (existsb _ (orm.likes d)) eqn:E; [discriminate|].
  intros [= <- <-] Hu. simpl. split; [|reflexivity].
  apply NoDup_map_snoc; [assumption|]. simpl.
  intros Hin. apply in_map_iff in Hin as (g & Hg & Hin).
  injection Hg as H1 H2.
  apply not_true_iff_false in E. apply E. apply existsb_exists.
  exists g. split; [assumption|]. now rewrite H1, H2, !Z.eqb_refl.
Qed.

(** In a table with unique pairs, deleting the first row of a pair leaves
    no row of that pair. *)
Lemma delete_like_clears_pair d uid rid existing :
  invariants.like_pairs_unique d ->
  find (fun l => Z.eqb (Like.user_id l) uid && Z.eqb (Like.recommendation_id l) rid)
       (orm.likes d) = Some existing ->
  forall l, In l (orm.likes (orm.delete_like d existing)) ->
            ~ (Like.user_id l = uid /\ Like.recommendation_id l = rid).
Proof.
  unfold invariants.like_pairs_unique, orm.delete_like. simpl.
  intros Hu Hf l Hin [H1 H2].
  apply find_some in Hf as [He Hp].
  apply andb_prop in Hp as [P1 P2]. apply Z.eqb_eq in P1, P2.
  apply filter_In in Hin as [Hin Hid].
  assert (l = existing); [|subst l; now rewrite Z.eqb_refl in Hid].
  apply (NoDup_map_inj_in
           (fun l => (Like.user_id l, Like.recommendation_id l)) (orm.likes d));
    auto. simpl. congruence.
Qed.

Lemma get_user_some d id u :
  orm.get_user d id = Some u -> In u (orm.users d) /\ User.id u = id.
Proof.
  unfold orm.get_user. intros H. apply find_some in H as [Hin Hid].
  split; [assumption | now apply Z.eqb_eq].
Qed.

Lemma delete_like_unique d l :
  invariants.like_pairs_unique d ->
  invariants.like_pairs_unique (orm.delete_like d l).
Proof. unfold invariants.like_pairs_unique. simpl. apply NoDup_map_filter. Qed.

(** C2, the counterexample: Bob already likes the recommendation; his
    second like request is served, answers "unliked" and removes the row,
    so it is neither rejected nor a no-op. *)
Lemma second_like_request_removes_the_like :
  let st := scenario.signed_in scenario.bob true in
  let result := routes.like_recommendation st "alice" "food" 1 in
  orm.likes (routes.db st) = [scenario.bob_likes_gallery]
  /\ routes.resp (snd result) = routes.jsonify_like "unliked" 0 false
  /\ orm.likes (routes.db (fst result)) = []
  /\ routes.db (fst result) <> routes.db st.
Proof.
  cbv zeta. repeat split; try (vm_compute; reflexivity).
  intros H. apply (f_equal orm.likes) in H. vm_compute in H. discriminate.
Qed.

(** The same request when Alice has hidden her profile: the URL no longer
    resolves, the request is answered 404 and the row stays. *)
Example like_under_a_hidden_profile_is_rejected :
  let st := scenario.signed_in scenario.bob false in
  routes.like_recommendation st "alice" "food" 1
  = (st, routes.mk_reply [] (routes.abort 404)).
Proof. reflexivity. Qed.

(** C2, amended.  Follow pairs and Like pairs appear at most once, and
    neither a follow request nor a like request ever creates a second row
    of a pair.  A follow request for a pair that already has its row is a
    no-op.  A like request of a signed-in user for a pair that already has
    its row is either rejected, and then nothing changes (404 when the URL
    does not resolve to a recommendation under a public profile, a server
    error when the session's user is gone), or it is served as an unlike
    that removes the row; it is served whenever the URL resolves and the
    user exists. *)
Theorem follow_and_like_pairs_stay_unique :
  (forall st user_id referrer,
      invariants.follow_pairs_unique (routes.db st) ->
      invariants.like_pairs_unique (routes.db st) ->
      let st' := fst (routes.follow_user st user_id referrer) in
      invariants.follow_pairs_unique (routes.db st')
      /\ invariants.like_pairs_unique (routes.db st')
      /\ (forall uid f,
             session.user_id (routes.sess st) = Some uid ->
             In f (orm.follows (routes.db st)) ->
             Follow.follower_id f = uid -> Follow.followed_id f = user_id ->
             routes.db st' = routes.db st))
  /\ (forall st profile_slug category_slug rec_id,
         invariants.follow_pairs_unique (routes.db st) ->
         invariants.like_pairs_unique (routes.db st) ->
         let st' := fst (routes.like_recommendation st profile_slug category_slug rec_id) in
         let reply := snd (routes.like_recommendation st profile_slug category_slug rec_id) in
         invariants.follow_pairs_unique (routes.db st')
         /\ invariants.like_pairs_unique (routes.db st')
         /\ (forall uid l,
                session.user_id (routes.sess st) = Some uid ->
                In l (orm.likes (routes.db st)) ->
                Like.user_id l = uid -> Like.recommendation_id l = rec_id ->
                ((st' = st
                  /\ (routes.resp reply = routes.abort 404
                      \/ routes.resp reply = routes.server_error))
                 \/ (exists like_count,
                        routes.resp reply = routes.jsonify_like "unliked" like_count false
                        /\ forall l', In l' (orm.likes (routes.db st')) ->
                                      ~ (Like.user_id l' = uid
                                         /\ Like.recommendation_id l' = rec_id)))
                /\ (forall user profile category recommendation,
                       orm.get_user (routes.db st) uid = Some user ->
                       routes.public_profile (routes.db st) profile_slug = Some profile ->
                       routes.category_by_slug (routes.db st) (Profile.id profile)
                                               category_slug = Some category ->
                       routes.recommendation_in (routes.db st) (Category.id category)
                                                rec_id = Some recommendation ->
                       exists like_count,
                         routes.resp reply
                         = routes.jsonify_like "unliked" like_count false))).
Proof.
  split.
  - intros st user_id referrer Hf Hl. cbv zeta.
    unfold routes.follow_user, routes.login_required, routes.first_or_404,
      routes.attr_of.
    destruct (session.user_id (routes.sess st)) as [uid|] eqn:Hs; [|simpl; auto].
    destruct (orm.get_user (routes.db st) user_id) as [target|] eqn:Ht;
      [|simpl; auto].
    destruct (orm.get_user (routes.db st) uid) as [cur|] eqn:Hc; [|simpl; auto].
    apply get_user_some in Ht as [_ Ht], Hc as [_ Hc].
    destruct (models.is_following (routes.db st) cur target) eqn:Hfol;
      [simpl; auto|].
    destruct (orm.add_follow (routes.db st) (User.id cur) (User.id target))
      as [[d f]|] eqn:Ha; [|simpl; auto].
    simpl. destruct (add_follow_unique _ _ _ _ _ Ha Hf) as [Hf' Hlk].
    split; [assumption|]. split; [unfold invariants.like_pairs_unique; now rewrite Hlk|].
    intros uid' g [= <-] Hg Hg1 Hg2. exfalso.
    unfold models.is_following in Hfol.
    destruct (find _ (orm.follows (routes.db st))) eqn:Hfind; [discriminate|].
    apply (find_none _ _ Hfind) in Hg.
    now rewrite Hc, Ht, Hg1, Hg2, !Z.eqb_refl in Hg.
  - intros st profile_slug category_slug rec_id Hf Hl. cbv zeta.
    unfold routes.like_recommendation, routes.login_required, routes.first_or_404,
      routes.attr_of.
    destruct (session.user_id (routes.sess st)) as [uid|] eqn:Hs;
      [|simpl; repeat split; auto; discriminate].
    destruct (routes.public_profile (routes.db st) profile_slug) as [profile|];
      [|simpl; split; [assumption|]; split; [assumption|]; intros; split;
        [left; auto | intros; discriminate]].
    destruct (routes.category_by_slug (routes.db st) (Profile.id profile) category_slug)
      as [category|] eqn:Hcat;
      [|simpl; split; [assumption|]; split; [assumption|]; intros; split;
        [left; auto | intros ? p ? ? ? [= <-]; congruence]].
    destruct (routes.recommendation_in (routes.db st) (Category.id category) rec_id)
      as [recommendation|] eqn:Hr;
      [|simpl; split; [assumption|]; split; [assumption|]; intros; split;
        [left; auto | intros ? p c ? ? [= <-] Hc; rewrite Hcat in Hc;
                      injection Hc as <-; congruence]].
    destruct (orm.get_user (routes.db st) uid) as [user|] eqn:Hu;
      [|simpl; split; [assumption|]; split; [assumption|];
        intros uid' ? [= <-]; intros; split; [left; auto | intros; congruence]].
    apply get_user_some in Hu as [_ Hu].
    apply find_some in Hr as [_ Hr]. apply andb_prop in Hr as [_ Hr].
    apply Z.eqb_eq in Hr.
    destruct (find _ (orm.likes (routes.db st))) as [existing|] eqn:Hfind.
    + pose proof (delete_like_clears_pair _ _ _ _ Hl Hfind) as Hclear.
      assert (Hno : models.is_liked_by (orm.delete_like (routes.db st) existing)
                                       recommendation (Some user) = false).
      { unfold models.is_liked_by, orm.likes_of. apply not_true_iff_false. intros E.
        apply existsb_exists in E as (l' & Hin & E).
        apply filter_In in Hin as [Hin Hrid]. apply Z.eqb_eq in E, Hrid.
        apply (Hclear l' Hin). split; assumption. }
      cbn [fst snd routes.resp routes.db routes.with_db]. rewrite Hno.
      split; [assumption|]. split; [now apply delete_like_unique|].
      intros uid' l [= <-] Hin H1 H2.
      split; [right|]; eexists; [split; [reflexivity|] | reflexivity].
      rewrite <- Hu, <- Hr. exact Hclear.
    + destruct (orm.add_like (routes.db st) (User.id user) (Recommendation.id recommendation))
        as [[d l0]|] eqn:Ha.
      * simpl. destruct (add_like_unique _ _ _ _ _ Ha Hl) as [Hl' Hfo].
        split; [unfold invariants.follow_pairs_unique; now rewrite Hfo|].
        split; [assumption|].
        intros uid' l [= <-] Hin H1 H2. exfalso.
        apply (find_none _ _ Hfind) in Hin.
        now rewrite Hu, Hr, H1, H2, !Z.eqb_refl in Hin.
      * simpl. split; [assumption|]. split; [assumption|].
        intros uid' l [= <-] Hin H1 H2. exfalso.
        apply (find_none _ _ Hfind) in Hin.
        now rewrite Hu, Hr, H1, H2, !Z.eqb_refl in Hin.
Qed.

Lemma follow_and_like_pairs_witness :
  invariants.follow_pairs_unique
    (routes.db (fst (routes.follow_user (scenario.signed_in scenario.carol true) 1
                                        (Some "/p/alice")))).
Proof.
  apply (proj1 follow_and_like_pairs_stay_unique
               (scenario.signed_in scenario.carol true) 1%Z (Some "/p/alice")).
  - apply NoDup_singleton.
  - apply NoDup_singleton.
Defined.

(* ===================================================================== *)
(** * Who may delete a comment                                            *)
(* ===================================================================== *)

(** C5, the counterexample: Alice's profile is hidden, so the URL of Bob's
    comment does not resolve; Bob is the author, yet his request is answered
    404 and the comment stays. *)
Lemma author_cannot_delete_under_hidden_profile :
  let st := scenario.signed_in scenario.bob false in
  let result := routes.delete_comment st "alice" "food" 1 1 in
  Comment.user_id scenario.bob_comment = User.id scenario.bob
  /\ In scenario.bob_comment (orm.comments (routes.db st))
  /\ routes.resp (snd result) = routes.abort 404
  /\ In scenario.bob_comment (orm.comments (routes.db (fst result))).
Proof. cbv zeta. repeat split; vm_compute; auto. Qed.

(** C5, amended.  For every comment-deletion request by an authenticated
    user whose URL resolves to the comment (a public profile of that slug, a
    category of it, a recommendation of that category, a comment on it), the
    comment is deleted exactly when the acting user is the comment's author
    or the user owning the recommendation's profile; any other user's
    attempt is rejected and the state is unchanged.  A request whose URL
    does not resolve is answered 404 and changes nothing. *)
Theorem comment_deleted_iff_author_or_owner :
  forall st profile_slug category_slug rec_id comment_id,
    let st' := fst (routes.delete_comment st profile_slug category_slug rec_id comment_id) in
    let reply := snd (routes.delete_comment st profile_slug category_slug rec_id comment_id) in
    (forall uid user recommendation comment owner,
        session.user_id (routes.sess st) = Some uid ->
        orm.get_user (routes.db st) uid = Some user ->
        invariants.comment_route (routes.db st) profile_slug category_slug
                                 rec_id comment_id = Some (recommendation, comment) ->
        routes_tagging.owner_id (routes.db st) recommendation = Some owner ->
        (In comment (orm.comments (routes.db st'))
         <-> ~ (Comment.user_id comment = uid \/ owner = uid))
        /\ (Comment.user_id comment = uid \/ owner = uid ->
            routes.db st' = orm.delete_comment (routes.db st) comment
            /\ routes.flashed reply = ["Comment deleted successfully!"])
        /\ (~ (Comment.user_id comment = uid \/ owner = uid) ->
            st' = st
            /\ routes.flashed reply = ["You can only delete your own comments."]))
    /\ (forall uid,
           session.user_id (routes.sess st) = Some uid ->
           invariants.comment_route (routes.db st) profile_slug category_slug
                                    rec_id comment_id = None ->
           st' = st /\ routes.resp reply = routes.abort 404).
Proof.
  intros st profile_slug category_slug rec_id comment_id. cbv zeta.
  unfold routes.delete_comment, routes.login_required, routes.first_or_404,
    routes.attr_of, invariants.comment_route, routes_tagging.owner_id.
  split.
  - intros uid user recommendation comment owner Hs Hu Hroute Howner.
    rewrite Hs.
    destruct (routes.public_profile (routes.db st) profile_slug) as [profile|];
      [|discriminate].
    destruct (routes.category_by_slug (routes.db st) (Profile.id profile) category_slug)
      as [category|]; [|discriminate].
    destruct (routes.recommendation_in (routes.db st) (Category.id category) rec_id)
      as [recommendation'|]; [|discriminate].
    destruct (find _ (orm.comments (routes.db st))) as [comment'|] eqn:Hfind;
      [|discriminate].
    injection Hroute as -> ->. rewrite Hu.
    apply get_user_some in Hu as [_ Hu]. rewrite Hu.
    pose proof (find_some _ _ Hfind) as [Hin _].
    assert (Hgone : ~ In comment (orm.comments (orm.delete_comment (routes.db st) comment))).
    { simpl. intros H. apply filter_In in H as [_ H]. now rewrite Z.eqb_refl in H. }
    destruct (orm.get_category (routes.db st) (Recommendation.category_id recommendation))
      as [rec_category|]; [|discriminate].
    destruct (orm.get_profile (routes.db st) (Category.profile_id rec_category))
      as [rec_profile|]; [|discriminate].
    injection Howner as <-.
    destruct (Z.eqb_spec (Comment.user_id comment) uid) as [Ha|Ha].
    + simpl. repeat split; try tauto.
    + destruct (Z.eqb_spec (Profile.user_id rec_profile) uid) as [Ho|Ho].
      * simpl. repeat split; try tauto.
      * simpl. repeat split; try tauto.
  - intros uid Hs Hroute. rewrite Hs.
    destruct (routes.public_profile (routes.db st) profile_slug) as [profile|];
      [|now split].
    destruct (routes.category_by_slug (routes.db st) (Profile.id profile) category_slug)
      as [category|]; [|now split].
    destruct (routes.recommendation_in (routes.db st) (Category.id category) rec_id)
      as [recommendation'|]; [|now split].
    destruct (find _ (orm.comments (routes.db st))) as [comment'|]; [discriminate|].
    now split.
Qed.

Lemma comment_deleted_iff_author_or_owner_witness :
  In scenario.bob_comment
     (orm.comments
        (routes.db (fst (routes.delete_comment (scenario.signed_in scenario.carol true)
                                               "alice" "food" 1 1)))).
Proof.
  apply (proj1 (comment_deleted_iff_author_or_owner
                  (scenario.signed_in scenario.carol true) "alice" "food" 1%Z 1%Z)
               3%Z scenario.carol scenario.gallery scenario.bob_comment 1%Z);
    try reflexivity.
  vm_compute. intros [H|H]; discriminate.
Defined.

(* ===================================================================== *)
(** * Cascading deletes                                                   *)
(* ===================================================================== *)

Lemma filter_filter {A} (p q : A -> bool) l :
  List.filter p (List.filter q l) = List.filter (fun x => q x && p x) l.
Proof.
  induction l as [|x l IH]; simpl; [reflexivity|].
  destruct (q x); simpl; [destruct (p x); now rewrite IH | exact IH].
Qed.

(** The rows a list of deletions by primary key keeps. *)
Lemma fold_delete_like ls d :
  fold_left orm.delete_like ls d
  = orm.with_likes d
      (List.filter (fun x => forallb (fun l => negb (Z.eqb (Like.id x) (Like.id l))) ls)
                   (orm.likes d)).
Proof.
  revert d. induction ls as [|l ls IH]; intros d; simpl.
  - destruct d. unfold orm.with_likes. simpl. f_equal.
    symmetry. now apply filter_all, forallb_forall.
  - rewrite IH. unfold orm.delete_like, orm.with_likes. simpl.
    now rewrite filter_filter.
Qed.

Lemma fold_delete_comment cs d :
  fold_left orm.delete_comment cs d
  = orm.with_comments d
      (List.filter (fun x => forallb (fun c => negb (Z.eqb (Comment.id x) (Comment.id c))) cs)
                   (orm.comments d)).
Proof.
  revert d. induction cs as [|c cs IH]; intros d; simpl.
  - destruct d. unfold orm.with_comments. simpl. f_equal.
    symmetry. now apply filter_all, forallb_forall.
  - rewrite IH. unfold orm.delete_comment, orm.with_comments. simpl.
    now rewrite filter_filter.
Qed.

(** With unique primary keys, the rows whose key differs from the key of
    every row selected by [sel] are the rows [sel] rejects. *)
Lemma kept_by_key {A} (key : A -> Z) (sel : A -> bool) (l : list A) x :
  NoDup (map key l) -> In x l ->
  forallb (fun y => negb (Z.eqb (key x) (key y))) (List.filter sel l) = negb (sel x).
Proof.
  intros Hnd Hx. destruct (sel x) eqn:Hs; simpl.
  - apply not_true_iff_false. intros H. rewrite forallb_forall in H.
    specialize (H x). rewrite Z.eqb_refl in H. simpl in H.
    assert (false = true); [apply H, filter_In; auto | discriminate].
  - apply forallb_forall. intros y Hy. apply filter_In in Hy as [Hy Hsy].
    destruct (Z.eqb_spec (key x) (key y)) as [E|E]; [|reflexivity].
    assert (x = y) by (eapply NoDup_map_inj_in; eauto). subst y. congruence.
Qed.

Lemma primary_keys_filter d ps pc pr pl pm :
  invariants.primary_keys d ->
  invariants.primary_keys
    (orm.mkDB (orm.users d) (orm.profiles d)
              (List.filter pc (orm.categories d))
              (List.filter pr (orm.recommendations d))
              ps
              (List.filter pl (orm.likes d))
              (List.filter pm (orm.comments d))).
Proof.
  intros (H1 & H2 & H3 & H4). repeat split; simpl; now apply NoDup_map_filter.
Qed.

(** One [db.session.delete(recommendation)]. *)
Lemma delete_recommendation_removed d r :
  invariants.primary_keys d ->
  invariants.primary_keys (orm.delete_recommendation d r)
  /\ orm.categories (orm.delete_recommendation d r) = orm.categories d
  /\ invariants.cascade_removed [Recommendation.id r] d (orm.delete_recommendation d r).
Proof.
  intros Hpk. pose proof Hpk as (Hc & Hr & Hl & Hm).
  unfold orm.delete_recommendation. rewrite fold_delete_like, fold_delete_comment.
  unfold orm.likes_of, orm.comments_of. simpl.
  split; [|split; [reflexivity|]].
  - pose proof (primary_keys_filter d (orm.follows d) (fun _ => true)
                  (fun x => negb (Recommendation.id x =? Recommendation.id r)%Z)
                  (fun x => forallb (fun l => negb (Like.id x =? Like.id l)%Z)
                     (List.filter (fun l => (Like.recommendation_id l =? Recommendation.id r)%Z)
                                  (orm.likes d)))
                  (fun x => forallb (fun c => negb (Comment.id x =? Comment.id c)%Z)
                     (List.filter (fun c => (Comment.recommendation_id c =? Recommendation.id r)%Z)
                                  (orm.comments d))) Hpk) as H.
    rewrite (filter_all (fun _ => true)) in H by now apply forallb_forall.
    exact H.
  - unfold invariants.cascade_removed. simpl.
    split; [|split; [|split; [|auto]]].
    + intros x. rewrite filter_In. split.
      * intros [Hin H]. split; [assumption|]. intros [E|[]].
        rewrite <- E, Z.eqb_refl in H. discriminate.
      * intros [Hin H]. split; [assumption|].
        destruct (Z.eqb_spec (Recommendation.id x) (Recommendation.id r)); [|reflexivity].
        exfalso. apply H. now left.
    + intros x. rewrite filter_In. split.
      * intros [Hin H]. split; [assumption|].
        rewrite (kept_by_key Like.id) in H by assumption.
        intros [E|[]]. rewrite <- E, Z.eqb_refl in H. discriminate.
      * intros [Hin H]. split; [assumption|].
        rewrite (kept_by_key Like.id) by assumption.
        destruct (Z.eqb_spec (Like.recommendation_id x) (Recommendation.id r)); [|reflexivity].
        exfalso. apply H. now left.
    + intros x. rewrite filter_In. split.
      * intros [Hin H]. split; [assumption|].
        rewrite (kept_by_key Comment.id) in H by assumption.
        intros [E|[]]. rewrite <- E, Z.eqb_refl in H. discriminate.
      * intros [Hin H]. split; [assumption|].
        rewrite (kept_by_key Comment.id) by assumption.
        destruct (Z.eqb_spec (Comment.recommendation_id x) (Recommendation.id r)); [|reflexivity].
        exfalso. apply H. now left.
Qed.

Lemma cascade_removed_nil d : invariants.cascade_removed [] d d.
Proof. unfold invariants.cascade_removed. simpl. repeat split; tauto. Qed.

Lemma cascade_removed_step id ids d d1 d2 :
  invariants.cascade_removed [id] d d1 ->
  invariants.cascade_removed ids d1 d2 ->
  invariants.cascade_removed (id :: ids) d d2.
Proof.
  intros (A1 & A2 & A3 & A4 & A5 & A6) (B1 & B2 & B3 & B4 & B5 & B6).
  unfold invariants.cascade_removed. simpl in *.
  split; [|split; [|split; [|repeat split; congruence]]].
  - intros x. rewrite B1, A1. tauto.
  - intros x. rewrite B2, A2. tauto.
  - intros x. rewrite B3, A3. tauto.
Qed.

(** The cascade over the recommendations of a category. *)
Lemma fold_delete_recommendation rs d :
  invariants.primary_keys d ->
  invariants.primary_keys (fold_left orm.delete_recommendation rs d)
  /\ orm.categories (fold_left orm.delete_recommendation rs d) = orm.categories d
  /\ invariants.cascade_removed (map Recommendation.id rs) d
                                (fold_left orm.delete_recommendation rs d).
Proof.
  revert d. induction rs as [|r rs IH]; intros d Hpk; simpl.
  - split; [assumption|]. split; [reflexivity | apply cascade_removed_nil].
  - destruct (delete_recommendation_removed d r Hpk) as (Hpk1 & Hc1 & Hrm1).
    destruct (IH _ Hpk1) as (Hpk2 & Hc2 & Hrm2).
    split; [assumption|]. split; [congruence|].
    eapply cascade_removed_step; eassumption.
Qed.

Lemma delete_category_removed d c :
  invariants.primary_keys d ->
  invariants.category_deleted (Category.id c) d (orm.delete_category d c).
Proof.
  intros Hpk. unfold orm.delete_category, orm.recommendations_of.
  destruct (fold_delete_recommendation
              (List.filter (fun r => (Recommendation.category_id r =? Category.id c)%Z)
                           (orm.recommendations d)) d Hpk) as (_ & Hc & Hrm).
  split.
  - intros x. simpl. rewrite Hc, filter_In.
    destruct (Z.eqb_spec (Category.id x) (Category.id c)); simpl; split;
      try tauto; intros [? ?]; try discriminate; auto.
  - destruct Hrm as (A1 & A2 & A3 & A4 & A5 & A6).
    unfold invariants.cascade_removed. simpl. auto 10.
Qed.

Lemma find_in_some {A} (p : A -> bool) l x :
  In x l -> p x = true -> exists y, find p l = Some y /\ In y l /\ p y = true.
Proof.
  intros Hin Hp. destruct (find p l) as [y|] eqn:E.
  - exists y. apply find_some in E. tauto.
  - apply (find_none _ _ E) in Hin. congruence.
Qed.

(** C8.  Deleting a Category removes the category and all Recommendations
    belonging to it, and with them all their Likes and Comments; deleting a
    Recommendation removes it and all its Likes and Comments; no other row
    is removed. *)
Theorem deleting_cascades :
  (forall st category_id uid user profile category,
      invariants.primary_keys (routes.db st) ->
      session.user_id (routes.sess st) = Some uid ->
      orm.get_user (routes.db st) uid = Some user ->
      routes.profile_of_user (routes.db st) (User.id user) = Some profile ->
      In category (orm.categories (routes.db st)) ->
      Category.id category = category_id ->
      Category.profile_id category = Profile.id profile ->
      invariants.category_deleted
        category_id (routes.db st)
        (routes.db (fst (routes.delete_category st category_id))))
  /\ (forall st rec_id uid user profile category recommendation,
         invariants.primary_keys (routes.db st) ->
         session.user_id (routes.sess st) = Some uid ->
         orm.get_user (routes.db st) uid = Some user ->
         routes.profile_of_user (routes.db st) (User.id user) = Some profile ->
         In category (orm.categories (routes.db st)) ->
         Category.profile_id category = Profile.id profile ->
         In recommendation (orm.recommendations (routes.db st)) ->
         Recommendation.category_id recommendation = Category.id category ->
         Recommendation.id recommendation = rec_id ->
         invariants.recommendation_deleted
           rec_id (routes.db st)
           (routes.db (fst (routes.delete_recommendation st rec_id)))).
Proof.
  split.
  - intros st category_id uid user profile category Hpk Hs Hu Hp Hin Hid Hown.
    unfold routes.delete_category, routes.login_required, routes.attr_of,
      routes.first_or_404.
    rewrite Hs, Hu, Hp.
    destruct (find_in_some
                (fun c => (Category.id c =? category_id)%Z
                          && (Category.profile_id c =? Profile.id profile)%Z)
                _ category Hin) as (c & -> & _ & Hc).
    { now rewrite Hid, Hown, !Z.eqb_refl. }
    apply andb_prop in Hc as [Hc _]. apply Z.eqb_eq in Hc. subst category_id.
    simpl. rewrite <- Hc. now apply delete_category_removed.
  - intros st rec_id uid user profile category recommendation
           Hpk Hs Hu Hp Hcat Hown Hin Hrc Hid.
    unfold routes.delete_recommendation, routes.login_required, routes.attr_of,
      routes.first_or_404, routes.recommendation_of_profile.
    rewrite Hs, Hu, Hp.
    match goal with
    | |- context [find ?p (orm.recommendations (routes.db st))] =>
        destruct (find_in_some p _ recommendation Hin) as (r & -> & _ & Hr)
    end.
    { rewrite Hid, Z.eqb_refl. simpl. apply existsb_exists.
      exists category. split; [assumption|]. now rewrite Hrc, Hown, !Z.eqb_refl. }
    apply andb_prop in Hr as [Hr _]. apply Z.eqb_eq in Hr.
    simpl. destruct (delete_recommendation_removed (routes.db st) r Hpk)
      as (_ & Hc & Hrm).
    split; [assumption|]. now rewrite <- Hr.
Qed.

Lemma deleting_cascades_witness :
  invariants.category_deleted
    1 (scenario.database true)
    (routes.db (fst (routes.delete_category (scenario.signed_in scenario.alice true) 1))).
Proof.
  apply (proj1 deleting_cascades (scenario.signed_in scenario.alice true) 1%Z 1%Z
               scenario.alice (scenario.alice_profile true) scenario.food);
    try reflexivity.
  - repeat split; apply NoDup_singleton.
  - now left.
Defined.

Example delete_category_run :
  routes.db (fst (routes.delete_category (scenario.signed_in scenario.alice true) 1))
  = orm.mkDB [scenario.alice; scenario.bob; scenario.carol]
             [scenario.alice_profile true] [] [] [scenario.bob_follows_alice] [] [].
Proof. vm_compute. reflexivity. Qed.

(* ===================================================================== *)
(** * The collision loop of the slugs                                     *)
(* ===================================================================== *)

Lemma str_of_nat_inj n m : str_of_nat n = str_of_nat m -> n = m.
Proof.
  unfold str_of_nat. intros H. apply s2l_inj in H.
  apply Unsigned.to_uint_inj.
  pose proof (NilEmpty.usu (Nat.to_uint n)) as Hn.
  pose proof (NilEmpty.usu (Nat.to_uint m)) as Hm.
  rewrite H in Hn. congruence.
Qed.

Lemma candidate_inj original j k :
  1 <= j -> 1 <= k ->
  invariants.candidate original j = invariants.candidate original k -> j = k.
Proof.
  destruct j as [|j], k as [|k]; try lia. intros _ _ H.
  unfold invariants.candidate in H. apply l2s_inj, app_inv_head in H.
  injection H as H. now apply str_of_nat_inj.
Qed.

Lemma slug_loop_candidate original taken fuel counter :
  utils.slug_loop taken original fuel
                  (l2s (s2l original ++ ["-"%char] ++ str_of_nat (S counter)))
                  (S counter + 1)
  = utils.slug_loop taken original fuel
                    (invariants.candidate original (S counter)) (S (S counter)).
Proof. unfold invariants.candidate. now rewrite Nat.add_1_r. Qed.

Lemma slug_loop_unfold taken original fuel slug counter :
  utils.slug_loop taken original fuel slug counter
  = if taken slug then
      match fuel with
      | O => None
      | S fuel' =>
          utils.slug_loop taken original fuel'
            (l2s (s2l original ++ ["-"%char] ++ str_of_nat counter)) (counter + 1)
      end
    else Some slug.
Proof. destruct fuel; reflexivity. Qed.

(** When the loop returns, it returns the first free candidate. *)
Lemma slug_loop_some taken original fuel k s :
  utils.slug_loop taken original fuel (invariants.candidate original k) (S k) = Some s ->
  exists k', k <= k'
             /\ s = invariants.candidate original k'
             /\ taken s = false
             /\ forall j, k <= j < k' -> taken (invariants.candidate original j) = true.
Proof.
  revert k. induction fuel as [|fuel IH]; intros k; rewrite slug_loop_unfold.
  - destruct (taken (invariants.candidate original k)) eqn:E; [discriminate|].
    intros [= <-]. exists k. repeat split; auto. intros j Hj. lia.
  - destruct (taken (invariants.candidate original k)) eqn:E.
    + rewrite slug_loop_candidate. intros H. apply IH in H as (k' & Hk & -> & Hfree & Hall).
      exists k'. repeat split; auto; [lia|].
      intros j Hj. destruct (Nat.eq_dec j k) as [->|]; [assumption|]. apply Hall. lia.
    + intros [= <-]. exists k. repeat split; auto. intros j Hj. lia.
Qed.

(** When the bound is reached, every candidate tried was taken. *)
Lemma slug_loop_none taken original fuel k :
  utils.slug_loop taken original fuel (invariants.candidate original k) (S k) = None ->
  forall j, k <= j <= k + fuel -> taken (invariants.candidate original j) = true.
Proof.
  revert k. induction fuel as [|fuel IH]; intros k; rewrite slug_loop_unfold.
  - destruct (taken (invariants.candidate original k)) eqn:E; [|discriminate].
    intros _ j Hj. now replace j with k by lia.
  - destruct (taken (invariants.candidate original k)) eqn:E; [|discriminate].
    rewrite slug_loop_candidate. intros H j Hj.
    destruct (Nat.eq_dec j k) as [->|]; [assumption|].
    apply (IH _ H). lia.
Qed.

(** The loop terminates within one more iteration than there are rows: the
    suffixed candidates are pairwise different, so they cannot all be among
    the slugs in use. *)
Lemma slug_loop_terminates taken original (used : list string) :
  (forall s, taken s = true -> In s used) ->
  exists s, utils.slug_loop taken original (S (length used)) original 1 = Some s.
Proof.
  intros Hused.
  destruct (utils.slug_loop taken original (S (length used)) original 1) as [s|] eqn:E;
    [eauto|exfalso].
  change original with (invariants.candidate original 0) in E at 2.
  pose proof (slug_loop_none _ _ _ _ E) as Hall.
  assert (Hsub : invariants.candidate original <$> seq 1 (S (length used)) ⊆+ used).
  { apply NoDup_submseteq.
    - apply NoDup_fmap_2_strong; [|apply NoDup_seq].
      intros x y Hx Hy. apply elem_of_seq in Hx, Hy. apply candidate_inj; lia.
    - intros x Hx. apply list_elem_of_fmap in Hx as (j & -> & Hj).
      apply elem_of_seq in Hj. apply list_elem_of_In, Hused, Hall. lia. }
  apply submseteq_length in Hsub. rewrite length_fmap, length_seq in Hsub. lia.
Qed.



(** ** The length of a candidate *)

Lemma length_string_of_uint d :
  length (s2l (NilEmpty.string_of_uint d)) = Decimal.nb_digits d.
Proof. induction d; simpl; congruence. Qed.

Lemma to_lu_small r : r < 10 -> Decimal.nb_digits (Unsigned.to_lu r) = 1.
Proof. intros H. do 10 (destruct r as [|r]; [reflexivity|]). lia. Qed.

Lemma to_lu_digit q r :
  q <> 0 -> r < 10 ->
  Decimal.nb_digits (Unsigned.to_lu (r + 10 * q))
  = S (Decimal.nb_digits (Unsigned.to_lu q)).
Proof.
  intros Hq Hr. pose proof (Unsigned.to_lu_tenfold q Hq) as E.
  remember (10 * q) as t eqn:Ht. clear Ht.
  do 10 (destruct r as [|r];
         [cbn [Nat.add]; rewrite ?Unsigned.to_lu_succ, E; reflexivity|]).
  lia.
Qed.

(** A number below 10^m has at most m decimal digits. *)
Lemma nb_digits_bound m n :
  (Z.of_nat n < 10 ^ Z.of_nat (S m))%Z ->
  Decimal.nb_digits (Unsigned.to_lu n) <= S m.
Proof.
  revert n. induction m as [|m IH]; intros n Hn.
  - rewrite to_lu_small; [lia|]. change (10 ^ Z.of_nat 1)%Z with 10%Z in Hn. lia.
  - rewrite (Nat.div_mod_eq n 10), Nat.add_comm.
    pose proof (Nat.mod_upper_bound n 10 ltac:(lia)) as Hr.
    destruct (Nat.eq_dec (n / 10) 0) as [E|E].
    + rewrite E, Nat.mul_0_r, Nat.add_0_r, to_lu_small by assumption. lia.
    + rewrite to_lu_digit by assumption. apply le_n_S, IH.
      rewrite Nat2Z.inj_div. apply Z.div_lt_upper_bound; [lia|].
      rewrite Nat2Z.inj_succ, Z.pow_succ_r in Hn by lia. exact Hn.
Qed.

Lemma length_str_of_nat m n :
  (Z.of_nat n < 10 ^ Z.of_nat (S m))%Z -> length (str_of_nat n) <= S m.
Proof.
  intros Hn. unfold str_of_nat.
  rewrite length_string_of_uint, Unsigned.to_uint_alt, DecimalFacts.nb_digits_rev.
  now apply nb_digits_bound.
Qed.

Lemma length_candidate original k :
  length (s2l (invariants.candidate original k))
  <= length (s2l original) + 1 + length (str_of_nat k).
Proof.
  destruct k as [|k]; simpl invariants.candidate; [lia|].
  rewrite s2l_l2s, !length_app. simpl. lia.
Qed.

(** The candidates tried before the first free one are different slugs in
    use, so there are at most as many as rows. *)
Lemma first_free_bound original (used : list string) k :
  (forall j, j < k -> In (invariants.candidate original j) used) ->
  k <= S (length used).
Proof.
  intros Hall.
  assert (Hsub : invariants.candidate original <$> seq 1 (k - 1) ⊆+ used).
  { apply NoDup_submseteq.
    - apply NoDup_fmap_2_strong; [|apply NoDup_seq].
      intros x y Hx Hy. apply elem_of_seq in Hx, Hy. apply candidate_inj; lia.
    - intros x Hx. apply list_elem_of_fmap in Hx as (j & -> & Hj).
      apply elem_of_seq in Hj. apply list_elem_of_In, Hall. lia. }
  apply submseteq_length in Hsub. rewrite length_fmap, length_seq in Hsub. lia.
Qed.
(* ===================================================================== *)
(** * Category slugs and the default categories                           *)
(* ===================================================================== *)

(** The query of the collision loop of a category slug. *)
Lemma category_taken_in_map profile_id (rows : list Category.t) s :
  existsb (fun c => Z.eqb (Category.profile_id c) profile_id
                    && String.eqb (Category.slug c) s) rows = true ->
  In s (map Category.slug rows).
Proof.
  intros H. apply existsb_exists in H as (c & Hc & E).
  apply andb_prop in E as [_ E]. apply String.eqb_eq in E. subst s. now apply in_map.
Qed.

Lemma category_taken_iff profile_id (rows : list Category.t) s :
  existsb (fun c => Z.eqb (Category.profile_id c) profile_id
                    && String.eqb (Category.slug c) s) rows = true
  <-> In (profile_id, s) (map (fun c => (Category.profile_id c, Category.slug c)) rows).
Proof.
  rewrite existsb_exists, in_map_iff. split.
  - intros (c & Hc & E). apply andb_prop in E as [E1 E2].
    apply Z.eqb_eq in E1. apply String.eqb_eq in E2. exists c. split; congruence.
  - intros (c & [= E1 E2] & Hc). exists c. split; [assumption|].
    now rewrite E1, E2, Z.eqb_refl, String.eqb_refl.
Qed.

(** The loop of a category slug returns the first candidate that no
    category of the profile has; it has tried at most one candidate more
    than there are rows. *)
Lemma category_slug_loop profile_id (rows : list Category.t) base :
  exists k,
    utils.slug_loop
      (fun s => existsb (fun c => Z.eqb (Category.profile_id c) profile_id
                                  && String.eqb (Category.slug c) s) rows)
      base (S (length rows)) base 1
    = Some (invariants.candidate base k)
    /\ ~ In (profile_id, invariants.candidate base k)
            (map (fun c => (Category.profile_id c, Category.slug c)) rows)
    /\ (forall j, j < k ->
                  In (profile_id, invariants.candidate base j)
                     (map (fun c => (Category.profile_id c, Category.slug c)) rows))
    /\ k <= S (length rows).
Proof.
  set (taken := fun s => existsb _ rows).
  destruct (slug_loop_terminates taken base (map Category.slug rows)) as (slug & Hslug).
  { intros s Hs. now apply (category_taken_in_map profile_id). }
  rewrite length_map in Hslug. rewrite Hslug.
  change base with (invariants.candidate base 0) in Hslug at 2.
  apply slug_loop_some in Hslug as (k & _ & -> & Hfree & Hall).
  exists k. split; [reflexivity|]. split; [|split].
  - intros Hin. apply category_taken_iff in Hin. subst taken. simpl in Hfree. congruence.
  - intros j Hj. apply category_taken_iff. apply Hall. lia.
  - rewrite <- (length_map Category.slug). apply (first_free_bound base).
    intros j Hj. apply (category_taken_in_map profile_id). apply Hall. lia.
Qed.

(** A category whose slug is free in its profile is stored when its name
    and slug fit their columns, and refused otherwise. *)
Lemma add_category_stored d name description slug profile_id :
  ~ In (profile_id, slug)
       (map (fun c => (Category.profile_id c, Category.slug c)) (orm.categories d)) ->
  length (s2l name) <= 100 ->
  length (s2l slug) <= 100 ->
  orm.add_category d name description slug profile_id
  = let c := Category.mk (orm.next_id (map Category.id (orm.categories d))) name
                         description slug profile_id in
    Some (orm.with_categories d (orm.categories d ++ [c]), c).
Proof.
  intros Hfree Hn Hs. unfold orm.add_category, orm.category_columns, orm.varchar.
  destruct (existsb _ (orm.categories d)) eqn:Hex.
  { exfalso. apply Hfree. now apply category_taken_iff. }
  apply Nat.leb_le in Hn, Hs. now rewrite Hn, Hs.
Qed.


Lemma with_categories_app d l1 l2 :
  orm.with_categories (orm.with_categories d (orm.categories d ++ l1))
                      ((orm.categories d ++ l1) ++ l2)
  = orm.with_categories d (orm.categories d ++ l1 ++ l2).
Proof. destruct d. cbn. now rewrite <- app_assoc. Qed.

Lemma with_categories_nil d : orm.with_categories d (orm.categories d ++ []) = d.
Proof. destruct d. cbn. now rewrite app_nil_r. Qed.

Lemma filter_none {A} (f : A -> bool) l : forallb (fun x => negb (f x)) l = true ->
                                          List.filter f l = [].
Proof.
  induction l as [|x l IH]; simpl; [reflexivity|].
  destruct (f x); simpl; [discriminate | exact IH].
Qed.

(** The default names are short, and so are their slugs. *)
Lemma default_names_short :
  Forall (fun entry => length (s2l (fst entry)) <= 100
                       /\ length (s2l (utils.slugify (fst entry))) <= 16)
         utils.default_categories.
Proof. repeat constructor; vm_compute; lia. Qed.

(** A slug of at most 16 characters with a suffix below 10^83 fits the
    column. *)
Lemma short_candidate_fits base k :
  length (s2l base) <= 16 ->
  (Z.of_nat k < 10 ^ 83)%Z ->
  length (s2l (invariants.candidate base k)) <= 100.
Proof.
  intros Hb Hk. pose proof (length_candidate base k) as Hc.
  pose proof (length_str_of_nat 82 k Hk) as Hd. lia.
Qed.

(** The loop of [create_default_categories] over a list of defaults, with
    the names found before the loop: in a table of realistic size it adds
    one category of the profile for each default whose name was not found,
    in order. *)
Lemma default_categories_loop (existing_names : list string) profile_id defaults d :
  Forall (fun entry => length (s2l (fst entry)) <= 100
                       /\ length (s2l (utils.slugify (fst entry))) <= 16) defaults ->
  (Z.of_nat (length (orm.categories d) + length defaults) < 10 ^ 83)%Z ->
  exists added,
    fold_left
      (fun acc '(name, description) =>
         match acc with
         | None => None
         | Some d =>
             if bool_decide (name ∈ existing_names) then Some d
             else
               let slug := utils.slugify name in
               match utils.slug_loop
                       (fun s => existsb
                                   (fun c => Z.eqb (Category.profile_id c) profile_id
                                             && String.eqb (Category.slug c) s)
                                   (orm.categories d))
                       slug (S (length (orm.categories d))) slug 1 with
               | None => None
               | Some slug =>
                   match orm.add_category d name description slug profile_id with
                   | Some (d', _) => Some d'
                   | None => None
                   end
               end
         end)
      defaults (Some d)
    = Some (orm.with_categories d (orm.categories d ++ added))
    /\ map Category.name added
       = List.filter (fun name => negb (bool_decide (name ∈ existing_names)))
                     (map fst defaults)
    /\ Forall (fun c => Category.profile_id c = profile_id) added
    /\ (invariants.category_slugs_unique d ->
        invariants.category_slugs_unique
          (orm.with_categories d (orm.categories d ++ added))).
Proof.
  match goal with |- context [fold_left ?f _ _] => set (step := f) end.
  revert d. induction defaults as [|[name description] l IH]; intros d Hshort Hsize;
    cbn [fold_left].
  - exists []. rewrite with_categories_nil. repeat split; auto.
  - cbn [map fst List.filter].
    apply Forall_cons in Hshort as [[Hname Hslug] Hshort]. cbn [fst] in Hname, Hslug.
    cbn [length] in Hsize.
    destruct (bool_decide (name ∈ existing_names)) eqn:Hn; cbn [negb].
    { replace (step (Some d) (name, description)) with (Some d)
        by (subst step; cbn beta iota; now rewrite Hn).
      apply IH; [assumption | lia]. }
    destruct (category_slug_loop profile_id (orm.categories d) (utils.slugify name))
      as (k & Hloop & Hfree & _ & Hk).
    assert (Hfits : length (s2l (invariants.candidate (utils.slugify name) k)) <= 100)
      by (apply short_candidate_fits; [assumption | lia]).
    set (c := Category.mk (orm.next_id (map Category.id (orm.categories d))) name
                          description (invariants.candidate (utils.slugify name) k)
                          profile_id).
    replace (step (Some d) (name, description))
      with (Some (orm.with_categories d (orm.categories d ++ [c])))
      by (subst step; cbn beta iota zeta;
          now rewrite Hn, Hloop, (add_category_stored _ _ _ _ _ Hfree Hname Hfits)).
    destruct (IH (orm.with_categories d (orm.categories d ++ [c])) Hshort)
      as (added & -> & Hnames & Hprof & Huniq).
    { cbn [orm.categories orm.with_categories]. rewrite length_app. cbn [length]. lia. }
    exists (c :: added). cbn [orm.categories orm.with_categories].
    split; [f_equal; apply (with_categories_app d [c] added)|].
    split; [cbn; now rewrite Hnames|].
    split; [constructor; [reflexivity | assumption]|].
    intros Hu.
    replace (orm.with_categories d (orm.categories d ++ c :: added))
      with (orm.with_categories
              (orm.with_categories d (orm.categories d ++ [c]))
              (orm.categories (orm.with_categories d (orm.categories d ++ [c])) ++ added))
      by apply (with_categories_app d [c] added).
    apply Huniq. unfold invariants.category_slugs_unique.
    cbn [orm.categories orm.with_categories].
    apply NoDup_map_snoc; assumption.
Qed.

(** [create_default_categories] in a table of fewer than 10^80 categories:
    it succeeds and appends one category of the profile for each default
    name that no category of the profile has. *)
Lemma create_default_categories_added d profile :
  (Z.of_nat (length (orm.categories d)) < 10 ^ 80)%Z ->
  exists added,
    utils.create_default_categories d profile
    = Some (orm.with_categories d (orm.categories d ++ added))
    /\ map Category.name added
       = List.filter
           (fun name =>
              negb (bool_decide
                      (name ∈ map Category.name
                                  (routes.categories_of d (Profile.id profile)))))
           (map fst utils.default_categories)
    /\ Forall (fun c => Category.profile_id c = Profile.id profile) added
    /\ (invariants.category_slugs_unique d ->
        invariants.category_slugs_unique
          (orm.with_categories d (orm.categories d ++ added))).
Proof.
  intros Hsize. unfold utils.create_default_categories, routes.categories_of.
  apply default_categories_loop; [apply default_names_short|].
  change (length utils.default_categories) with 6. lia.
Qed.

(** When every default name is there, nothing is added, whatever the size
    of the table. *)
Lemma create_default_categories_nothing_missing d profile :
  (forall name, In name (map fst utils.default_categories) ->
                In name (map Category.name
                             (routes.categories_of d (Profile.id profile)))) ->
  utils.create_default_categories d profile = Some d.
Proof.
  intros Hall. unfold utils.create_default_categories.
  fold (routes.categories_of d (Profile.id profile)).
  set (names := map Category.name (routes.categories_of d (Profile.id profile))) in *.
  assert (Hin : forall entry, In entry utils.default_categories ->
                              bool_decide (fst entry ∈ names) = true).
  { intros entry Hentry. apply bool_decide_eq_true, list_elem_of_In, Hall.
    now apply in_map. }
  revert Hin. generalize utils.default_categories. intros l.
  match goal with |- context [fold_left ?f _ _] => set (step := f) end.
  induction l as [|[name description] l IH]; intros Hin; cbn [fold_left];
    [reflexivity|].
  pose proof (Hin (name, description) ltac:(now left)) as E. cbn [fst] in E.
  replace (step (Some d) (name, description)) with (Some d)
    by (subst step; cbn beta iota; now rewrite E).
  apply IH. intros entry Hentry. apply Hin. now right.
Qed.
(* ===================================================================== *)
(** * Profile slugs                                                       *)
(* ===================================================================== *)






Example second_alice_gets_suffix :
  map Profile.slug
      (orm.profiles
         (routes.db (fst (routes.dashboard_profile
                            (scenario.signed_in scenario.bob true) routes.POST
                            (forms.mkProfileForm "Alice" "" "" "" "" "" true)))))
  = ["alice"; "alice-1"].
Proof. vm_compute. reflexivity. Qed.

(* ===================================================================== *)
(** * Registration and verification                                      *)
(* ===================================================================== *)

Lemma next_id_fresh ids : ~ In (orm.next_id ids) ids.
Proof.
  assert (H : forall x, In x ids -> (x <= fold_right Z.max 0 ids)%Z).
  { induction ids as [|y ids IH]; simpl; [tauto|].
    intros x [->|Hx]; [lia|]. specialize (IH x Hx). lia. }
  intros Hin. apply H in Hin. unfold orm.next_id in Hin. lia.
Qed.







Example registration_run :
  let registered :=
    fst (routes.register (fun _ => true) (fun p => p) scenario.anonymous routes.POST
           (forms.mkRegisterForm "dave" "dave@example.com" "secret1" "secret1")
           1000 (fun i => 3 * i + 1)) in
  option_map session.verification_code (session.pending (routes.sess registered))
  = Some "147036"
  /\ option_map session.expires_at (session.pending (routes.sess registered))
     = Some 600001000%Z
  /\ map User.username
         (orm.users (routes.db (fst (routes.verify_registration
                                       registered routes.POST " 147036 " 600001000))))
     = ["alice"; "bob"; "carol"; "dave"]
  /\ map User.username
         (orm.users (routes.db (fst (routes.verify_registration
                                       registered routes.POST "147036" 600001001))))
     = ["alice"; "bob"; "carol"].
Proof. vm_compute. repeat split. Qed.

(* ===================================================================== *)
(** * Tag filtering: LIKE over the serialized lists                       *)
(* ===================================================================== *)

(** ** [LIKE] *)

Lemma like_percent_unfold p s :
  like ("%"%char :: p) s
  = like p s || match s with [] => false | _ :: s' => like ("%"%char :: p) s' end.
Proof. destruct s; reflexivity. Qed.

Lemma like_percent p s :
  like ("%"%char :: p) s = true <-> exists pre suf, s = pre ++ suf /\ like p suf = true.
Proof.
  split.
  - induction s as [|c s IH]; rewrite like_percent_unfold; intros H.
    + rewrite orb_false_r in H. exists [], []. now split.
    + apply orb_prop in H as [H|H].
      * exists [], (c :: s). now split.
      * apply IH in H as (pre & suf & -> & H). exists (c :: pre), suf. now split.
  - intros (pre & suf & -> & H). induction pre as [|c pre IH]; simpl app.
    + rewrite like_percent_unfold, H. reflexivity.
    + rewrite like_percent_unfold, IH. apply orb_true_r.
Qed.

Lemma like_literal_cons c p s :
  like_special c = false ->
  like (c :: p) s = match s with [] => false | d :: s' => Ascii.eqb c d && like p s' end.
Proof.
  unfold like_special. intros H.
  apply orb_false_elim in H as [H H3]. apply orb_false_elim in H as [H1 H2].
  destruct s; simpl; rewrite H1, H2, H3; reflexivity.
Qed.

Lemma like_literal x p s :
  forallb (fun c => negb (like_special c)) x = true ->
  like (x ++ p) s = true <-> exists s', s = x ++ s' /\ like p s' = true.
Proof.
  intros Hx. revert s. induction x as [|c x IH]; intros s; simpl app.
  - split; [eauto | now intros (s' & -> & H)].
  - simpl in Hx. apply andb_prop in Hx as [Hc Hx]. apply negb_true_iff in Hc.
    rewrite like_literal_cons by assumption. destruct s as [|d s].
    + split; [discriminate | intros (s' & [=] & _)].
    + rewrite andb_true_iff, (IH Hx), Ascii.eqb_eq. split.
      * intros [-> (s' & -> & H)]. eauto.
      * intros (s' & [= -> ->] & H). eauto.
Qed.

Lemma like_any s : like ["%"%char] s = true.
Proof. apply like_percent. exists s, []. split; [now rewrite app_nil_r | reflexivity]. Qed.

(** [column LIKE '%x%'] for a literal [x] is substring containment. *)
Lemma like_contains x s :
  forallb (fun c => negb (like_special c)) x = true ->
  like ("%"%char :: x ++ ["%"%char]) s = true <-> infix x s.
Proof.
  intros Hx. rewrite like_percent. unfold infix. split.
  - intros (pre & suf & -> & H). apply (like_literal x) in H as (post & -> & _); eauto.
  - intros (pre & post & ->). exists pre, (x ++ post). split; [reflexivity|].
    apply like_literal; [assumption|]. exists post. split; [reflexivity | apply like_any].
Qed.

(** ** Slugs inside the serialized list *)

Lemma slug_char_plain c :
  invariants.slug_char c = true ->
  json_escape_char c = [c] /\ c <> dquote /\ c <> ","%char
  /\ like_special c = false.
Proof. by_cases_on_char c; repeat split; discriminate. Qed.

Lemma json_string_slug e :
  forallb invariants.slug_char e = true -> json_string e = dquote :: e ++ [dquote].
Proof.
  intros H. unfold json_string. f_equal. f_equal.
  induction e as [|c e IH]; [reflexivity|]. simpl in *.
  apply andb_prop in H as [Hc He].
  destruct (slug_char_plain c Hc) as (-> & _). simpl. now rewrite IH.
Qed.

Lemma slug_no_quote e :
  forallb invariants.slug_char e = true -> ~ In dquote e.
Proof.
  intros H Hin. rewrite forallb_forall in H. apply H in Hin. discriminate.
Qed.

Lemma quoted_slug_literal e :
  forallb invariants.slug_char e = true ->
  forallb (fun c => negb (like_special c)) (dquote :: e ++ [dquote]) = true.
Proof.
  intros H. simpl. rewrite forallb_app. simpl. rewrite andb_true_r.
  apply forallb_forall. intros c Hc. rewrite forallb_forall in H.
  destruct (slug_char_plain c (H c Hc)) as (_ & _ & _ & ->). reflexivity.
Qed.

(** ** [split] at the quotes *)

Lemma split_nonempty sep s : split sep s <> [].
Proof.
  destruct s as [|c s]; simpl; [discriminate|].
  destruct (Ascii.eqb c sep); [discriminate|]. destruct (split sep s); discriminate.
Qed.

Lemma split_app_sep sep a b :
  split sep (a ++ sep :: b) = split sep a ++ split sep b.
Proof.
  induction a as [|c a IH]; simpl.
  - now rewrite Ascii.eqb_refl.
  - destruct (Ascii.eqb c sep); [now rewrite IH|].
    rewrite IH. pose proof (split_nonempty sep a).
    destruct (split sep a); [congruence | reflexivity].
Qed.

Lemma split_no_sep sep a : ~ In sep a -> split sep a = [a].
Proof.
  induction a as [|c a IH]; simpl; [reflexivity|]. intros H.
  destruct (Ascii.eqb_spec c sep) as [->|_]; [tauto|]. rewrite IH; tauto.
Qed.

Lemma join_cons sep x rest :
  join sep (x :: rest) = x ++ flat_map (fun y => sep ++ y) rest.
Proof.
  revert x. induction rest as [|y rest IH]; intros x.
  - simpl. now rewrite app_nil_r.
  - change (join sep (x :: y :: rest)) with (x ++ sep ++ join sep (y :: rest)).
    rewrite IH. simpl. now rewrite <- app_assoc.
Qed.

Lemma quoted_inside {A} (q : A) (sep e F closing : list A) :
  ((sep ++ q :: e ++ [q]) ++ F) ++ closing = sep ++ q :: e ++ q :: F ++ closing.
Proof. rewrite <- !app_assoc. simpl. now rewrite <- app_assoc. Qed.

(** The pieces between the quotes of a serialized list of slugs: the
    bracket, then the slugs separated by the comma-and-space, then the
    bracket. *)
Lemma split_tail_of_dumps l closing :
  Forall (fun e => forallb invariants.slug_char e = true) l ->
  ~ In dquote closing ->
  split dquote (flat_map (fun y => s2l ", " ++ y) (map json_string l) ++ closing)
  = flat_map (fun e => [s2l ", "; e]) l ++ [closing].
Proof.
  intros Hl Hc. induction Hl as [|e l He Hl IH]; cbn [map flat_map].
  - now apply split_no_sep.
  - rewrite (json_string_slug e He), quoted_inside.
    rewrite !split_app_sep, IH.
    rewrite (split_no_sep dquote e) by now apply slug_no_quote.
    rewrite (split_no_sep dquote (s2l ", ")); [reflexivity|].
    intros [E|[E|[]]]; discriminate.
Qed.

Lemma split_dumps e l :
  Forall (fun e => forallb invariants.slug_char e = true) (e :: l) ->
  split dquote (json_dumps_list (e :: l))
  = s2l "[" :: (e :: flat_map (fun e => [s2l ", "; e]) l) ++ [s2l "]"].
Proof.
  intros H. inversion H as [|? ? He Hl]; subst.
  unfold json_dumps_list. rewrite map_cons, join_cons, (json_string_slug e He).
  set (F := flat_map _ (map json_string l)).
  replace ("["%char :: ((dquote :: e ++ [dquote]) ++ F) ++ ["]"%char])
    with (((["["%char] ++ dquote :: e ++ [dquote]) ++ F) ++ ["]"%char])
    by reflexivity.
  subst F.
  rewrite quoted_inside, !split_app_sep, split_tail_of_dumps; [|assumption|].
  - rewrite (split_no_sep dquote e) by now apply slug_no_quote. reflexivity.
  - intros [E|[]]. discriminate.
Qed.

Lemma interior_member {A} (a b : list A) x h body t :
  a <> [] -> b <> [] -> a ++ x :: b = h :: body ++ [t] -> In x body.
Proof.
  intros Ha Hb E. destruct a as [|a0 a]; [congruence|].
  destruct (exists_last Hb) as (b' & b0 & ->).
  simpl in E. injection E as _ E.
  change (a ++ x :: b' ++ [b0]) with (a ++ (x :: b') ++ [b0]) in E.
  rewrite app_assoc in E. apply app_inj_tail in E as [<- _].
  apply in_or_app. right. now left.
Qed.

Lemma infix_app_r x p s : infix x s -> infix x (p ++ s).
Proof.
  intros (pre & post & ->). exists (p ++ pre), post. now rewrite <- app_assoc.
Qed.

Lemma infix_app_l x s q : infix x s -> infix x (s ++ q).
Proof.
  intros (pre & post & ->). exists pre, (post ++ q). now rewrite <- !app_assoc.
Qed.

Lemma infix_flat_map sep y ys :
  In y ys -> infix y (flat_map (fun y => sep ++ y) ys).
Proof.
  induction ys as [|z ys IH]; [intros []|]. cbn [flat_map].
  intros [->|Hin].
  - exists sep, (flat_map (fun y => sep ++ y) ys). now rewrite <- app_assoc.
  - now apply infix_app_r, IH.
Qed.

(** A quoted slug is a substring of the serialized list exactly when the
    slug is an element of the list. *)
Lemma quoted_slug_in_dumps x l :
  forallb invariants.slug_char x = true ->
  Forall (fun e => forallb invariants.slug_char e = true) l ->
  infix (dquote :: x ++ [dquote]) (json_dumps_list l) <-> In x l.
Proof.
  intros Hx Hl. split.
  - intros (pre & post & E).
    assert (Hs : split dquote (json_dumps_list l)
                 = split dquote pre ++ x :: split dquote post).
    { rewrite E.
      replace (pre ++ (dquote :: x ++ [dquote]) ++ post)
        with (pre ++ dquote :: x ++ dquote :: post)
        by (simpl; now rewrite <- app_assoc).
      rewrite !split_app_sep, (split_no_sep dquote x) by now apply slug_no_quote.
      reflexivity. }
    destruct l as [|e l].
    + exfalso. apply (f_equal (@length _)) in Hs.
      rewrite length_app in Hs. cbn [length] in Hs.
      change (length (split dquote (json_dumps_list []))) with 1 in Hs.
      pose proof (split_nonempty dquote pre). pose proof (split_nonempty dquote post).
      destruct (split dquote pre), (split dquote post); simpl in Hs;
        try congruence; lia.
    + rewrite split_dumps in Hs by assumption. symmetry in Hs.
      apply interior_member in Hs; try apply split_nonempty.
      destruct Hs as [<-|Hs]; [now left|]. right.
      apply in_flat_map in Hs as (e' & He' & [<-|[<-|[]]]); [|assumption].
      exfalso. rewrite forallb_forall in Hx.
      destruct (slug_char_plain ","%char) as (_ & _ & Hcomma & _);
        [apply Hx; now left | congruence].
  - intros Hin. unfold json_dumps_list.
    rewrite <- (json_string_slug x Hx).
    apply (infix_app_r _ ["["%char]), infix_app_l.
    destruct l as [|e l]; [destruct Hin|]. rewrite map_cons, join_cons.
    destruct Hin as [->|Hin].
    + exists [], (flat_map (fun y => s2l ", " ++ y) (map json_string l)). reflexivity.
    + apply infix_app_r, infix_flat_map. now apply in_map.
Qed.


(** ** The filter of [get_recommendations_by_tags] *)

Lemma sql_or_true a b :
  sql_true (sql_or a b) = true <-> a = Some true \/ b = Some true.
Proof.
  destruct a as [[]|], b as [[]|]; simpl; split; try tauto;
    try (intros [H|H]; discriminate); discriminate.
Qed.

Lemma sql_and_true a b :
  sql_true (sql_and a b) = true <-> a = Some true /\ b = Some true.
Proof.
  destruct a as [[]|], b as [[]|]; simpl; split; try tauto;
    try (intros [H1 H2]; discriminate); discriminate.
Qed.

Lemma sql_true_some a : sql_true a = true <-> a = Some true.
Proof. destruct a as [[]|]; simpl; split; try tauto; discriminate. Qed.

Lemma tag_pattern_shape tag_slug :
  routes_tagging.tag_pattern tag_slug
  = "%"%char :: (dquote :: s2l tag_slug ++ [dquote]) ++ ["%"%char].
Proof.
  unfold routes_tagging.tag_pattern. simpl. now rewrite <- app_assoc.
Qed.

Lemma slugify_slug_chars text :
  forallb invariants.slug_char (s2l (models.slugify text)) = true.
Proof. apply slugify_normalized. Qed.

Lemma like_tag_pattern tags key text0 :
  routes_tagging.sql_like (routes_tagging.json_field tags key)
                          (routes_tagging.tag_pattern (models.slugify text0))
  = Some true
  <-> exists text, routes_tagging.json_field tags key = Some text
                   /\ infix (dquote :: s2l (models.slugify text0) ++ [dquote]) text.
Proof.
  unfold routes_tagging.sql_like.
  destruct (routes_tagging.json_field tags key) as [text|].
  - rewrite tag_pattern_shape. split.
    + intros H.
      match type of H with Some ?t = _ => assert (H' : t = true) by congruence end.
      exists text. split; [reflexivity|].
      apply like_contains in H'; [assumption|].
      apply quoted_slug_literal, slugify_slug_chars.
    + intros (text' & Ht & H). assert (text' = text) by congruence. subst text'.
      f_equal.
      apply like_contains; [|assumption].
      apply quoted_slug_literal, slugify_slug_chars.
  - split; [discriminate | intros (text & [=] & _)].
Qed.

Lemma in_get_tags r x :
  In x (models.get_tags r)
  <-> exists d key l, Recommendation.tags r = Some d
                      /\ (key = "categories" \/ key = "collections")
                      /\ d !! key = Some l /\ In x l.
Proof.
  unfold models.get_tags, models.tags_truthy.
  destruct (Recommendation.tags r) as [d|];
    [|split; [intros [] | intros (d & k & l & [=] & _)]].
  case_bool_decide as He; simpl.
  - subst d. split; [intros []|].
    intros (d & k & l & [= <-] & _ & H & _). now rewrite lookup_empty in H.
  - split.
    + intros H.
      destruct (d !! "categories") as [l1|] eqn:E1;
        destruct (d !! "collections") as [l2|] eqn:E2; simpl in H.
      * apply in_app_or in H as [H|H];
          [exists d, "categories", l1 | exists d, "collections", l2]; auto.
      * exists d, "categories", l1; auto.
      * exists d, "collections", l2; auto.
      * destruct H.
    + intros (d' & k & l & [= <-] & [->| ->] & E & H); rewrite E.
      * destruct (d !! "collections"); simpl; [apply in_or_app|]; auto.
      * destruct (d !! "categories"); simpl; [apply in_or_app|]; auto.
Qed.

Lemma in_insert_desc r x l :
  In x (routes_tagging.insert_desc r l) <-> x = r \/ In x l.
Proof.
  induction l as [|y l IH]; simpl; [intuition|].
  destruct (Recommendation.created_at y <? Recommendation.created_at r)%Z; simpl;
    [intuition | rewrite IH; intuition].
Qed.

Lemma in_order_by_created_desc x l :
  In x (routes_tagging.order_by_created_desc l) <-> In x l.
Proof.
  induction l as [|y l IH]; simpl; [tauto|].
  rewrite in_insert_desc, IH. intuition.
Qed.

Lemma all_conditions_true tag_list r :
  sql_true (routes_tagging.all_conditions tag_list r) = true
  <-> forall tag, In tag tag_list ->
                  sql_true (routes_tagging.tag_condition tag r) = true.
Proof.
  induction tag_list as [|t l IH]; simpl.
  - split; [intros _ tag [] | reflexivity].
  - rewrite sql_and_true, <- !sql_true_some, IH. split.
    + intros [H1 H2] tag [<-|H]; auto.
    + intros H. split; [apply H; now left | intros tag Ht; apply H; now right].
Qed.

(** C1, the counterexample: the slug "art" is a literal substring of the
    serialized list of a recommendation that carries only "smart-art", yet
    the recommendation does not match the requested tag "art". *)
Lemma art_does_not_match_smart_art :
  models.get_tags scenario.gallery = ["smart-art"]
  /\ infix (s2l (models.slugify (Some "art")))
           (json_dumps_list (map s2l (models.get_tags scenario.gallery)))
  /\ sql_true (routes_tagging.tag_condition (s2l "art") scenario.gallery) = false
  /\ routes_tagging.select_by_tags scenario.anonymous "art" = []
  /\ routes_tagging.select_by_tags scenario.anonymous "smart-art" = [scenario.gallery].
Proof.
  split; [reflexivity|]. split; [|repeat split; vm_compute; reflexivity].
  exists ("["%char :: dquote :: s2l "smart-"), [dquote; "]"%char].
  vm_compute. reflexivity.
Qed.

(** C1, amended.  A visible recommendation matches a requested tag exactly
    when the slug of the tag, enclosed in double quotes, is a literal
    substring of the serialized categories list or of the serialized
    collections list; the requested tags are combined by AND.  On tags made
    of normalized slugs this is exact element membership, so a slug that is
    a proper substring of a stored slug does not match. *)
Theorem tag_filter_matches_quoted_slug :
  (forall tag r,
      sql_true (routes_tagging.tag_condition tag r) = true
      <-> exists key text,
            (key = "categories" \/ key = "collections")
            /\ routes_tagging.json_field (Recommendation.tags r) key = Some text
            /\ infix (dquote :: s2l (models.slugify (Some (l2s tag))) ++ [dquote]) text)
  /\ (forall tag_list r,
         sql_true (routes_tagging.all_conditions tag_list r) = true
         <-> forall tag, In tag tag_list ->
                         sql_true (routes_tagging.tag_condition tag r) = true)
  /\ (forall st tags_param r,
         In r (routes_tagging.select_by_tags st tags_param) ->
         In r (routes_tagging.visible st)
         /\ forall tag, In tag (routes_tagging.parse_tags tags_param) ->
                        sql_true (routes_tagging.tag_condition tag r) = true)
  /\ (forall tag r,
         invariants.slugs_normalized (Recommendation.tags r) ->
         (sql_true (routes_tagging.tag_condition tag r) = true
          <-> In (models.slugify (Some (l2s tag))) (models.get_tags r))).
Proof.
  assert (A : forall tag r,
             sql_true (routes_tagging.tag_condition tag r) = true
             <-> exists key text,
                   (key = "categories" \/ key = "collections")
                   /\ routes_tagging.json_field (Recommendation.tags r) key = Some text
                   /\ infix (dquote :: s2l (models.slugify (Some (l2s tag))) ++ [dquote])
                            text).
  { intros tag r. unfold routes_tagging.tag_condition.
    rewrite sql_or_true, !like_tag_pattern. split.
    - intros [(text & H1 & H2)|(text & H1 & H2)]; eauto 6.
    - intros (key & text & [->| ->] & H1 & H2); eauto. }
  split; [exact A|]. split; [exact all_conditions_true|]. split.
  - intros st tags_param r Hin. unfold routes_tagging.select_by_tags in Hin.
    apply in_take in Hin. apply (proj1 (in_order_by_created_desc _ _)) in Hin.
    destruct (routes_tagging.parse_tags tags_param) as [|t l] eqn:E.
    + split; [assumption | intros tag []].
    + apply filter_In in Hin as [Hv Hc]. split; [assumption|].
      now apply all_conditions_true.
  - intros tag r Hnorm. rewrite A, in_get_tags. split.
    + intros (key & text & Hkey & Hf & Hinf).
      unfold routes_tagging.json_field in Hf.
      destruct (Recommendation.tags r) as [d|] eqn:Ht; [|discriminate].
      destruct (d !! key) as [l|] eqn:El; [|discriminate].
      injection Hf as <-. exists d, key, l. repeat split; auto.
      apply quoted_slug_in_dumps in Hinf.
      * apply in_map_iff in Hinf as (y & Hy & Hin). apply s2l_inj in Hy. now subst y.
      * apply slugify_slug_chars.
      * apply Forall_map. eapply Forall_impl; [exact (Hnorm d key l eq_refl El)|].
        intros e He. apply He.
    + intros (d & key & l & Ht & Hkey & El & Hin).
      exists key, (json_dumps_list (map s2l l)). split; [assumption|].
      unfold routes_tagging.json_field. rewrite Ht, El. split; [reflexivity|].
      apply quoted_slug_in_dumps.
      * apply slugify_slug_chars.
      * apply Forall_map. eapply Forall_impl; [exact (Hnorm d key l Ht El)|].
        intros e He. apply He.
      * now apply in_map.
Qed.

Lemma tag_filter_witness :
  sql_true (routes_tagging.tag_condition (s2l "Smart Art") scenario.gallery) = true.
Proof.
  apply (proj2 (proj2 (proj2 tag_filter_matches_quoted_slug))
               (s2l "Smart Art") scenario.gallery).
  - intros d k l [= <-] H.
    apply lookup_insert_Some in H as [[<- <-]|[_ H]];
      [|now rewrite lookup_empty in H].
    constructor; [|constructor]. split; [reflexivity | simpl; lia].
  - left. reflexivity.
Defined.

(* ===================================================================== *)
(** * Further properties: the slug functions applied twice                *)
(* ===================================================================== *)

Lemma single_hyphens_cons a s :
  invariants.single_hyphens (a :: s)
  = negb (is_hyphen a && starts_with is_hyphen s) && invariants.single_hyphens s.
Proof. destruct s; simpl; [now rewrite andb_false_r|reflexivity]. Qed.

Lemma starts_with_app_l p a b :
  starts_with p (a ++ b) = false -> starts_with p a = false.
Proof. destruct a; simpl; auto. Qed.

Lemma single_hyphens_app_l a b :
  invariants.single_hyphens (a ++ b) = true -> invariants.single_hyphens a = true.
Proof.
  induction a as [|x a IH]; [reflexivity|]. simpl app.
  rewrite !single_hyphens_cons. intros H. apply andb_prop in H as [H1 H2].
  rewrite (IH H2), andb_true_r.
  destruct (is_hyphen x); [|reflexivity]. simpl in *.
  apply negb_true_iff in H1. apply negb_true_iff.
  now apply starts_with_app_l in H1.
Qed.

Lemma single_hyphens_app_r a b :
  invariants.single_hyphens (a ++ b) = true -> invariants.single_hyphens b = true.
Proof.
  induction a as [|x a IH]; [auto|]. simpl app.
  rewrite single_hyphens_cons. intros H. apply andb_prop in H as [_ H]. auto.
Qed.

Lemma lstrip_starts p s : starts_with p (lstrip p s) = false.
Proof.
  induction s as [|c s IH]; [reflexivity|]. simpl.
  destruct (p c) eqn:E; [exact IH | simpl; exact E].
Qed.

Lemma strip_starts p s : starts_with p (strip p s) = false.
Proof.
  unfold strip. destruct (rstrip_split p (lstrip p s)) as (w & _ & E).
  apply (starts_with_app_l p _ w). rewrite <- E. apply lstrip_starts.
Qed.

Lemma take_prefix {A} n (l : list A) : exists w, l = take n l ++ w.
Proof. exists (drop n l). now rewrite take_drop. Qed.

(** The output of the run substitution never has two hyphens in a row, and
    does not start with one when the scan starts inside a run. *)
Lemma sub_runs_single_hyphens p b u :
  (forall c, is_hyphen c = true -> p c = true) ->
  invariants.single_hyphens (sub_runs_from p ["-"%char] b u) = true
  /\ (b = true -> starts_with is_hyphen (sub_runs_from p ["-"%char] b u) = false).
Proof.
  intros Hp. revert b. induction u as [|c u IH]; intros b; simpl; [auto|].
  destruct (p c) eqn:Hc.
  - destruct b; [apply IH|]. simpl app. rewrite single_hyphens_cons.
    destruct (IH true) as [H1 H2]. rewrite H1, (H2 eq_refl), andb_false_r.
    split; [reflexivity | discriminate].
  - assert (Hh : is_hyphen c = false).
    { destruct (is_hyphen c) eqn:E; [|reflexivity]. apply Hp in E. congruence. }
    rewrite single_hyphens_cons, Hh. simpl. destruct (IH false) as [H1 _].
    rewrite H1. auto.
Qed.

(** A text of single hyphens and characters outside the class is a fixed
    point of the run substitution. *)
Lemma sub_runs_fixed p s :
  forallb (fun c => Bool.eqb (p c) (is_hyphen c)) s = true ->
  invariants.single_hyphens s = true ->
  sub_runs_from p ["-"%char] false s = s
  /\ (starts_with is_hyphen s = false -> sub_runs_from p ["-"%char] true s = s).
Proof.
  induction s as [|c s IH]; [auto|]. intros Hall Hs.
  simpl in Hall. apply andb_prop in Hall as [Hc Hall]. apply eqb_prop in Hc.
  rewrite single_hyphens_cons in Hs. apply andb_prop in Hs as [Hcs Hs].
  destruct (IH Hall Hs) as [IH1 IH2]. simpl. rewrite Hc.
  destruct (is_hyphen c) eqn:Hh.
  - simpl in Hcs. apply negb_true_iff in Hcs.
    apply is_hyphen_eq in Hh. subst c. rewrite (IH2 Hcs).
    split; [reflexivity | discriminate].
  - rewrite IH1. auto.
Qed.

Lemma strip_none p s : forallb (fun c => negb (p c)) s = true -> strip p s = s.
Proof.
  intros H. destruct s as [|c s]; [reflexivity|].
  assert (Hn : forall x, In x (c :: s) -> p x = false).
  { intros x Hx. rewrite forallb_forall in H. apply H in Hx.
    now apply negb_true_iff in Hx. }
  unfold strip. rewrite lstrip_head by (apply Hn; now left).
  pose proof (app_removelast_last (l := c :: s) c ltac:(discriminate)) as E.
  rewrite E. apply rstrip_last. apply Hn. rewrite E at 2.
  apply in_or_app. right. now left.
Qed.

Lemma slug_char_fixed c :
  invariants.slug_char c = true ->
  lower_char c = c /\ isspace c = false
  /\ Bool.eqb (non_alnum c) (is_hyphen c) = true.
Proof. by_cases_on_char c; repeat split; discriminate. Qed.

Lemma map_fixed {A} (f : A -> A) l : (forall x, In x l -> f x = x) -> map f l = l.
Proof.
  induction l as [|x l IH]; simpl; [reflexivity|]. intros H.
  rewrite H by now left. rewrite IH; [reflexivity|]. intros y Hy. apply H. now right.
Qed.

Lemma length_lstrip p s : length (lstrip p s) <= length s.
Proof.
  induction s as [|c s IH]; simpl; [lia|]. destruct (p c); simpl; lia.
Qed.

Lemma length_rstrip p s : length (rstrip p s) <= length s.
Proof.
  unfold rstrip. rewrite length_rev.
  pose proof (length_lstrip p (rev s)). rewrite length_rev in H. exact H.
Qed.

(** The shape of a tag slug: slug characters, no two hyphens in a row, no
    hyphen in front, at most 50 characters. *)
Lemma slugify_chars_shape t :
  forallb invariants.slug_char (models.slugify_chars t) = true
  /\ invariants.single_hyphens (models.slugify_chars t) = true
  /\ starts_with is_hyphen (models.slugify_chars t) = false
  /\ length (models.slugify_chars t) <= 50.
Proof.
  split; [apply slugify_chars_normalized|].
  unfold models.slugify_chars.
  set (h := sub_runs non_alnum ["-"%char] (strip isspace (lower t))).
  assert (Hh : invariants.single_hyphens h = true).
  { apply sub_runs_single_hyphens. intros c Hc. unfold non_alnum.
    now rewrite hyphen_not_alnum. }
  destruct (take_prefix 50 (strip is_hyphen h)) as (w & Ew).
  split; [|split; [|apply length_take_le]].
  - apply (single_hyphens_app_l _ w). rewrite <- Ew.
    destruct (strip_split is_hyphen h) as (w1 & w2 & _ & _ & E).
    rewrite E in Hh. now apply single_hyphens_app_r, single_hyphens_app_l in Hh.
  - apply (starts_with_app_l _ _ w). rewrite <- Ew. apply strip_starts.
Qed.

(** Re-slugifying a tag slug only strips a hyphen that the 50-character
    cap left at its end. *)
Lemma slugify_chars_twice t :
  models.slugify_chars (models.slugify_chars t)
  = rstrip is_hyphen (models.slugify_chars t).
Proof.
  destruct (slugify_chars_shape t) as (Hc & Hs & Hst & Hlen).
  remember (models.slugify_chars t) as s eqn:Hdef. clear Hdef t.
  unfold models.slugify_chars.
  assert (Hl : lower s = s).
  { apply map_fixed. intros x Hx. rewrite forallb_forall in Hc.
    now destruct (slug_char_fixed x (Hc x Hx)). }
  rewrite Hl.
  rewrite (strip_none isspace).
  2:{ apply forallb_forall. intros x Hx. rewrite forallb_forall in Hc.
      destruct (slug_char_fixed x (Hc x Hx)) as (_ & -> & _). reflexivity. }
  unfold sub_runs.
  destruct (sub_runs_fixed non_alnum s) as [-> _]; [|assumption|].
  { apply forallb_forall. intros x Hx. rewrite forallb_forall in Hc.
    now destruct (slug_char_fixed x (Hc x Hx)). }
  assert (Hls : lstrip is_hyphen s = s).
  { destruct s as [|c s]; [reflexivity|]. simpl in Hst. simpl. now rewrite Hst. }
  unfold strip. rewrite Hls. apply take_ge.
  pose proof (length_rstrip is_hyphen s). lia.
Qed.

Lemma lstrip_idem p s : lstrip p (lstrip p s) = lstrip p s.
Proof.
  pose proof (lstrip_starts p s) as H.
  destruct (lstrip p s) as [|c r]; [reflexivity|]. simpl in *. now rewrite H.
Qed.

Lemma rstrip_idem p s : rstrip p (rstrip p s) = rstrip p s.
Proof. unfold rstrip. now rewrite rev_involutive, lstrip_idem. Qed.

Lemma take_short {A} n (l : list A) : length (take n l) < n -> take n l = l.
Proof. rewrite length_take. intros H. apply take_ge. lia. Qed.

(** X1.  Slugifying a tag slug again only strips the hyphen that the
    50-character cap may have left at its end; so [slugify] is idempotent on
    every text whose slug is shorter than 50 characters, but not on all
    texts. *)
Theorem tag_slugify_twice :
  (forall text : option string,
      models.slugify (Some (models.slugify text))
      = l2s (rstrip is_hyphen (s2l (models.slugify text))))
  /\ (forall text : option string,
         length (s2l (models.slugify text)) < 50 ->
         models.slugify (Some (models.slugify text)) = models.slugify text)
  /\ (exists text : string,
         models.slugify (Some (models.slugify (Some text)))
         <> models.slugify (Some text)).
Proof.
  assert (A : forall text : option string,
             models.slugify (Some (models.slugify text))
             = l2s (rstrip is_hyphen (s2l (models.slugify text)))).
  { intros [t|]; [|reflexivity].
    assert (E : models.slugify (Some t)
                = if truthy (s2l t) then l2s (models.slugify_chars (s2l t)) else "")
      by reflexivity.
    rewrite E. destruct (truthy (s2l t)); [|reflexivity].
    unfold models.slugify. rewrite s2l_l2s.
    destruct (models.slugify_chars (s2l t)) eqn:E2; [reflexivity|].
    simpl truthy. cbv iota. rewrite <- E2. now rewrite slugify_chars_twice. }
  split; [exact A|]. split.
  - intros text Hlen. rewrite A. rewrite <- (l2s_s2l (models.slugify text)) at 2.
    f_equal. revert Hlen. unfold models.slugify.
    destruct text as [t|]; [|reflexivity].
    destruct (truthy (s2l t)); [|reflexivity].
    rewrite s2l_l2s. unfold models.slugify_chars. intros Hlen.
    rewrite (take_short _ _ Hlen). unfold strip. apply rstrip_idem.
  - exists "aaaaaaaaaaaaaaaaaaaaaaaaaaaaaaaaaaaaaaaaaaaaaaaaa b".
    vm_compute. discriminate.
Qed.

Lemma tag_slugify_twice_witness :
  models.slugify (Some (models.slugify (Some "Summer 2025")))
  = models.slugify (Some "Summer 2025").
Proof.
  apply (proj1 (proj2 tag_slugify_twice) (Some "Summer 2025")).
  vm_compute. lia.
Defined.

(** ** utils.slugify *)

Lemma nfkd_ascii_is_ascii c : forallb (fun x => Nat.ltb (ord x) 128) (utils.nfkd_ascii c) = true.
Proof. by_cases_on_char c. Qed.

Lemma kept_lowered_is_name_slug_char c :
  Nat.ltb (ord c) 128 = true ->
  negb (negb (is_word c || isspace c || is_hyphen c)) = true ->
  (is_hyphen (lower_char c) || isspace (lower_char c)) = false ->
  invariants.name_slug_char (lower_char c) = true.
Proof. by_cases_on_char c. Qed.

Lemma name_slug_char_fixed c :
  invariants.name_slug_char c = true ->
  utils.nfkd_ascii c = [c]
  /\ negb (negb (is_word c || isspace c || is_hyphen c)) = true
  /\ isspace c = false
  /\ lower_char c = c
  /\ Bool.eqb (is_hyphen c || isspace c) (is_hyphen c) = true.
Proof. by_cases_on_char c; repeat split; discriminate. Qed.

Lemma utils_slugify_chars_shape t :
  forallb invariants.name_slug_char (utils.slugify_chars t) = true
  /\ invariants.single_hyphens (utils.slugify_chars t) = true.
Proof.
  unfold utils.slugify_chars. split.
  - apply forallb_forall. intros x Hx. unfold sub_runs in Hx.
    apply in_sub_runs in Hx as [[<-|[]]|[Hx Hcls]]; [reflexivity|].
    unfold lower in Hx. apply in_map_iff in Hx as (y & <- & Hy).
    apply in_strip in Hy. unfold sub_delete in Hy.
    apply filter_In in Hy as [Hy Hkept].
    apply in_flat_map in Hy as (z & _ & Hy).
    pose proof (nfkd_ascii_is_ascii z) as Hz. rewrite forallb_forall in Hz.
    apply kept_lowered_is_name_slug_char; auto.
  - apply sub_runs_single_hyphens. intros c Hc. now rewrite Hc.
Qed.

(** X2.  The slug of a profile or category name consists only of lowercase
    ASCII letters, digits, underscores and hyphens, never has two hyphens in
    a row, and slugifying it again returns it unchanged. *)
Theorem name_slugify_url_safe_and_idempotent :
  forall text : string,
    forallb invariants.name_slug_char (s2l (utils.slugify text)) = true
    /\ invariants.single_hyphens (s2l (utils.slugify text)) = true
    /\ utils.slugify (utils.slugify text) = utils.slugify text.
Proof.
  intros text. unfold utils.slugify. rewrite !s2l_l2s.
  destruct (utils_slugify_chars_shape (s2l text)) as [Hc Hs].
  split; [assumption|]. split; [assumption|]. f_equal.
  remember (utils.slugify_chars (s2l text)) as s eqn:Hdef. clear Hdef.
  assert (Hfix : forall x, In x s ->
            utils.nfkd_ascii x = [x]
            /\ negb (negb (is_word x || isspace x || is_hyphen x)) = true
            /\ isspace x = false /\ lower_char x = x
            /\ Bool.eqb (is_hyphen x || isspace x) (is_hyphen x) = true).
  { intros x Hx. apply name_slug_char_fixed. rewrite forallb_forall in Hc. auto. }
  unfold utils.slugify_chars.
  assert (E1 : flat_map utils.nfkd_ascii s = s).
  { clear Hs Hc. induction s as [|c s IH]; [reflexivity|]. simpl.
    destruct (Hfix c ltac:(now left)) as (-> & _). simpl. f_equal.
    apply IH. intros x Hx. apply Hfix. now right. }
  rewrite E1.
  assert (E2 : sub_delete (fun c => negb (is_word c || isspace c || is_hyphen c)) s = s).
  { apply filter_all, forallb_forall. intros x Hx. now destruct (Hfix x Hx) as (_ & -> & _). }
  rewrite E2.
  rewrite (strip_none isspace).
  2:{ apply forallb_forall. intros x Hx.
      destruct (Hfix x Hx) as (_ & _ & -> & _). reflexivity. }
  assert (E3 : lower s = s).
  { apply map_fixed. intros x Hx. now destruct (Hfix x Hx) as (_ & _ & _ & -> & _). }
  rewrite E3. unfold sub_runs.
  apply sub_runs_fixed; [|assumption].
  apply forallb_forall. intros x Hx. now destruct (Hfix x Hx) as (_ & _ & _ & _ & ->).
Qed.

(* ===================================================================== *)
(** * Further properties: the text helpers of utils.py                    *)
(* ===================================================================== *)

Lemma startswith_app p s : startswith p (p ++ s) = true.
Proof. induction p as [|c p IH]; simpl; [reflexivity|]. now rewrite Ascii.eqb_refl. Qed.

(** X3.  [format_url] returns a missing URL and the empty URL as they are,
    leaves every URL that starts with http:// or https:// as it is, puts
    https:// in front of any other, and applying it twice is the same as
    applying it once. *)
Theorem format_url_adds_scheme_once :
  (forall url, utils.format_url
                 (utils.format_url url) = utils.format_url url)
  /\ utils.format_url None = None
  /\ utils.format_url (Some "") = Some ""
  /\ (forall u,
         exists r, utils.format_url (Some u) = Some r
                   /\ (r = u \/ r = l2s (s2l "https://" ++ s2l u))
                   /\ (u <> "" ->
                       startswith (s2l "http://") (s2l r)
                       || startswith (s2l "https://") (s2l r) = true)
                   /\ (startswith (s2l "http://") (s2l u)
                       || startswith (s2l "https://") (s2l u) = true -> r = u)).
Proof.
  assert (Hpre : forall u, startswith (s2l "https://") (s2l (l2s (s2l "https://" ++ s2l u)))
                           = true).
  { intros u. rewrite s2l_l2s. apply startswith_app. }
  assert (Hempty : forall u, truthy (s2l u) = false -> u = "").
  { intros u H. apply s2l_inj. destruct (s2l u); [reflexivity | discriminate]. }
  split; [|split; [reflexivity|split; [reflexivity|]]].
  - intros [u|]; [|reflexivity]. unfold utils.format_url.
    destruct (truthy (s2l u)) eqn:Et; cbn [negb].
    + destruct (startswith (s2l "http://") (s2l u) || startswith (s2l "https://") (s2l u))
        eqn:E; cbn [negb].
      * now rewrite Et, E.
      * rewrite Hpre, orb_true_r. cbn [negb].
        now destruct (negb (truthy (s2l (l2s (s2l "https://" ++ s2l u))))).
    + now rewrite Et.
  - intros u. unfold utils.format_url.
    destruct (truthy (s2l u)) eqn:Et; cbn [negb].
    + destruct (startswith (s2l "http://") (s2l u) || startswith (s2l "https://") (s2l u))
        eqn:E; cbn [negb].
      * exists u. repeat split; auto.
      * eexists. split; [reflexivity|]. split; [now right|].
        split; [intros _; now rewrite Hpre, orb_true_r | discriminate].
    + exists u. repeat split; auto; intros Hne; exfalso; now apply Hne, Hempty.
Qed.

Lemma length_slice_to stop (s : chars) :
  Z.of_nat (length (slice_to stop s))
  = Z.min (Z.of_nat (length s))
          (if Z.ltb stop 0 then Z.max 0 (Z.of_nat (length s) + stop) else stop).
Proof.
  unfold slice_to. destruct (Z.ltb_spec stop 0); rewrite length_take; lia.
Qed.

Lemma format_url_adds_scheme_once_witness :
  exists r, utils.format_url (Some "example.com") = Some r
            /\ startswith (s2l "http://") (s2l r)
               || startswith (s2l "https://") (s2l r) = true.
Proof.
  destruct (proj2 (proj2 (proj2 format_url_adds_scheme_once)) "example.com")
    as (r & E & _ & H & _).
  exists r. split; [exact E|]. apply H. discriminate.
Defined.

(** X4.  [truncate_text] returns a text that fits as it is; with
    [max_length] at least 3 a longer text is cut to its first
    [max_length - 3] characters followed by three dots, so the result never
    exceeds [max_length]; with [max_length] below 3 the result of a longer
    text exceeds [max_length]. *)
Theorem truncate_text_bounds :
  forall (t : string) (max_length : Z),
    utils.truncate_text None max_length = ""
    /\ (Z.of_nat (length (s2l t)) <= max_length ->
        utils.truncate_text (Some t) max_length = t)%Z
    /\ (3 <= max_length ->
        Z.of_nat (length (s2l (utils.truncate_text (Some t) max_length))) <= max_length)%Z
    /\ (3 <= max_length < Z.of_nat (length (s2l t)) ->
        utils.truncate_text (Some t) max_length
        = l2s (take (Z.to_nat (max_length - 3)) (s2l t) ++ s2l "..."))%Z
    /\ (max_length < 3 -> max_length < Z.of_nat (length (s2l t)) -> t <> "" ->
        max_length
        < Z.of_nat (length (s2l (utils.truncate_text (Some t) max_length))))%Z.
Proof.
  intros t max_length. unfold utils.truncate_text.
  split; [reflexivity|].
  destruct (s2l t) as [|c s] eqn:Et.
  - assert (t = "") by (apply s2l_inj; now rewrite Et). subst t.
    simpl. repeat split; intros; try reflexivity; try lia; try congruence.
  - simpl truthy. simpl negb. cbv iota.
    destruct (Z.leb_spec (Z.of_nat (length (c :: s))) max_length) as [Hle|Hgt].
    + repeat split; intros; try reflexivity; try lia; try (now rewrite Et).
    + split; [lia|]. split; [|split].
      * intros H3. rewrite s2l_l2s, length_app, Nat2Z.inj_add, length_slice_to.
        destruct (Z.ltb_spec (max_length - 3) 0); simpl length; lia.
      * intros [H3 _]. f_equal. f_equal. unfold slice_to.
        destruct (Z.ltb_spec (max_length - 3) 0); [lia | reflexivity].
      * intros Hsmall _ _. rewrite s2l_l2s, length_app, Nat2Z.inj_add.
        simpl (length (s2l "...")). lia.
Qed.

Lemma truncate_text_bounds_witness :
  (Z.of_nat (length (s2l (utils.truncate_text (Some "recommendation") 10))) <= 10)%Z.
Proof.
  apply (proj1 (proj2 (proj2 (truncate_text_bounds "recommendation" 10)))). lia.
Defined.

Example truncate_text_runs :
  utils.truncate_text (Some "recommendation") 10 = "recomme..."
  /\ utils.truncate_text (Some "recommendation") 2 = "recommendatio...".
Proof. split; reflexivity. Qed.

(* ===================================================================== *)
(** * Further properties: removing and testing tags                       *)
(* ===================================================================== *)

Lemma list_remove_absent x l : ~ In x l -> list_remove x l = l.
Proof.
  induction l as [|y l IH]; simpl; [reflexivity|]. intros H.
  destruct (String.eqb_spec x y) as [->|_]; [tauto|]. rewrite IH; tauto.
Qed.

Lemma list_remove_snoc x l : ~ In x l -> list_remove x (l ++ [x]) = l.
Proof.
  induction l as [|y l IH]; simpl; [now rewrite String.eqb_refl|]. intros H.
  destruct (String.eqb_spec x y) as [->|_]; [tauto|]. rewrite IH; tauto.
Qed.

Lemma in_list_remove x y l : In y (list_remove x l) -> In y l.
Proof.
  induction l as [|z l IH]; simpl; [tauto|].
  destruct (String.eqb x z); simpl; tauto.
Qed.

Lemma NoDup_list_remove x l :
  NoDup l -> NoDup (list_remove x l) /\ ~ In x (list_remove x l).
Proof.
  induction l as [|z l IH]; simpl; intros H.
  - split; [constructor | tauto].
  - apply NoDup_cons in H as [Hz Hl]. rewrite list_elem_of_In in Hz.
    destruct (String.eqb_spec x z) as [->|Hne]; [tauto|].
    destruct (IH Hl) as [H1 H2]. split.
    + apply NoDup_cons. split; [|assumption]. rewrite list_elem_of_In.
      intros Hin. now apply in_list_remove in Hin.
    + simpl. intros [E|Hin]; [congruence | tauto].
Qed.

Lemma lookup_remove_under key key' tag_slug (d : tagdict) :
  models.remove_under key tag_slug d !! key'
  = if bool_decide (key = key') then list_remove tag_slug <$> d !! key
    else d !! key'.
Proof.
  unfold models.remove_under.
  destruct (d !! key) as [l|] eqn:E.
  - case_bool_decide as Hin.
    + case_bool_decide as Hk.
      * subst key'. now rewrite lookup_insert_eq.
      * now rewrite lookup_insert_ne.
    + case_bool_decide as Hk; [|reflexivity]. subst key'. rewrite E. simpl.
      rewrite list_remove_absent; [reflexivity|]. now rewrite <- list_elem_of_In.
  - case_bool_decide as Hk; [|reflexivity]. subst key'. now rewrite E.
Qed.

(** The dict [remove_tag] stores, when it stores one. *)
Lemma remove_tag_tags self tag_name tag_type d :
  Recommendation.tags self = Some d ->
  models.tags_truthy (Some d) = true ->
  exists d',
    Recommendation.tags (models.remove_tag self tag_name tag_type) = Some d'
    /\ forall key,
        d' !! key
        = if bool_decide
               ((key = "categories"
                 /\ (tag_type = None \/ tag_type = Some "category"))
                \/ (key = "collections"
                    /\ (tag_type = None \/ tag_type = Some "collection")))
          then list_remove (models.slugify (Some tag_name)) <$> d !! key
          else d !! key.
Proof.
  intros Ht Htr. unfold models.remove_tag. rewrite Ht, Htr.
  eexists. split; [reflexivity|]. intros key.
  destruct tag_type as [t|].
  - destruct (String.eqb_spec t "category") as [Hc|Hc];
      destruct (String.eqb_spec t "collection") as [Hl|Hl];
      try (subst; discriminate); rewrite ?lookup_remove_under;
      repeat case_bool_decide; try (subst; reflexivity); exfalso;
      first [ solve [subst; match goal with H : ~ _ |- _ => apply H end; auto 6]
            | solve [intuition (subst; congruence)] ].
  - rewrite !lookup_remove_under.
    repeat case_bool_decide; try (subst; reflexivity); try (subst; discriminate);
      exfalso; first [ solve [subst; match goal with H : ~ _ |- _ => apply H end; auto 6]
            | solve [intuition (subst; congruence)] ].
Qed.

Lemma remove_tag_falsy self tag_name tag_type :
  models.tags_truthy (Recommendation.tags self) = false ->
  models.remove_tag self tag_name tag_type = self.
Proof.
  unfold models.remove_tag. destruct (Recommendation.tags self) as [d|]; [|reflexivity].
  now intros ->.
Qed.

Lemma get_tags_lists r :
  models.get_tags r
  = match Recommendation.tags r with
    | Some d => default [] (d !! "categories") ++ default [] (d !! "collections")
    | None => []
    end.
Proof.
  unfold models.get_tags, models.tags_truthy.
  destruct (Recommendation.tags r) as [d|]; [|reflexivity].
  case_bool_decide as He; simpl.
  - subst d. now rewrite !lookup_empty.
  - destruct (d !! "categories"), (d !! "collections"); simpl;
      rewrite ?app_nil_r; reflexivity.
Qed.

Lemma has_tag_lists r tag_name :
  models.has_tag r tag_name = true
  <-> In (models.slugify (Some tag_name)) (models.get_tags r).
Proof.
  rewrite get_tags_lists. unfold models.has_tag, models.tags_truthy.
  destruct (Recommendation.tags r) as [d|]; [|split; [discriminate | intros []]].
  case_bool_decide as He; simpl.
  - subst d. rewrite !lookup_empty. split; [discriminate | intros []].
  - rewrite orb_true_iff, !bool_decide_eq_true, in_app_iff, !list_elem_of_In.
    reflexivity.
Qed.

(** X5.  On a recommendation whose tag lists hold no slug twice,
    [remove_tag] without a type removes the tag from both lists: afterwards
    [has_tag] is false and the tag is not among [get_tags].  [remove_tag]
    keeps the tags invariant. *)
Theorem remove_tag_removes :
  forall self tag_name,
    invariants.lists_deduplicated (Recommendation.tags self) ->
    models.has_tag (models.remove_tag self tag_name None) tag_name = false
    /\ ~ In (models.slugify (Some tag_name))
            (models.get_tags (models.remove_tag self tag_name None))
    /\ (forall tag_type,
           invariants.tags_invariant (Recommendation.tags self) ->
           invariants.tags_invariant
             (Recommendation.tags (models.remove_tag self tag_name tag_type))).
Proof.
  intros self tag_name Hd.
  assert (Hnot : ~ In (models.slugify (Some tag_name))
                      (models.get_tags (models.remove_tag self tag_name None))).
  { destruct (models.tags_truthy (Recommendation.tags self)) eqn:Htr.
    - destruct (Recommendation.tags self) as [d|] eqn:Ht; [|discriminate].
      destruct (remove_tag_tags self tag_name None d Ht Htr) as (d' & Hd' & Hl).
      rewrite get_tags_lists, Hd', !Hl.
      rewrite !bool_decide_eq_true_2 by (auto 6).
      intros Hin. apply in_app_or in Hin as [Hin|Hin].
      + destruct (d !! "categories") as [l|] eqn:El; [|destruct Hin]. simpl in Hin.
        now apply (NoDup_list_remove _ l (Hd d _ l eq_refl El)) in Hin.
      + destruct (d !! "collections") as [l|] eqn:El; [|destruct Hin]. simpl in Hin.
        now apply (NoDup_list_remove _ l (Hd d _ l eq_refl El)) in Hin.
    - rewrite remove_tag_falsy by assumption. rewrite get_tags_lists.
      destruct (Recommendation.tags self) as [d|]; [|tauto].
      unfold models.tags_truthy in Htr. apply negb_false_iff in Htr.
      apply bool_decide_eq_true in Htr. subst d. now rewrite !lookup_empty. }
  split; [|split; [exact Hnot|]].
  - destruct (models.has_tag _ tag_name) eqn:E; [|reflexivity].
    apply has_tag_lists in E. tauto.
  - intros tag_type (Hk & Hn & Hdd).
    destruct (models.tags_truthy (Recommendation.tags self)) eqn:Htr.
    + destruct (Recommendation.tags self) as [d|] eqn:Ht; [|discriminate].
      destruct (remove_tag_tags self tag_name tag_type d Ht Htr) as (d' & -> & Hl).
      assert (Hsrc : forall k l', d' !! k = Some l' ->
                exists l, d !! k = Some l
                          /\ (l' = l \/ l' = list_remove (models.slugify (Some tag_name)) l)).
      { intros k l' H. rewrite Hl in H. case_bool_decide.
        - destruct (d !! k) as [l|]; [|discriminate]. injection H as <-. eauto.
        - eauto. }
      repeat split; intros d0 k l' [= <-] H; apply Hsrc in H as (l & El & Hll).
      * eapply Hk; eauto.
      * specialize (Hn d k l eq_refl El). destruct Hll as [->| ->]; [assumption|].
        rewrite Forall_forall in *. intros x Hx. apply Hn.
        apply list_elem_of_In. apply list_elem_of_In in Hx.
        eapply in_list_remove; eauto.
      * specialize (Hdd d k l eq_refl El). destruct Hll as [->| ->]; [assumption|].
        now apply NoDup_list_remove.
    + rewrite remove_tag_falsy by assumption. repeat split; assumption.
Qed.

Lemma remove_tag_removes_witness :
  models.has_tag (models.remove_tag scenario.gallery "Smart Art" None) "Smart Art" = false.
Proof.
  apply (proj1 (remove_tag_removes scenario.gallery "Smart Art"
                  ltac:(intros d k l [= <-] H;
                        apply lookup_insert_Some in H as [[<- <-]|[_ H]];
                        [apply NoDup_singleton | now rewrite lookup_empty in H]))).
Defined.

Lemma add_under_lookup key tag_slug (d : tagdict) :
  ~ In tag_slug (default [] (d !! key)) ->
  models.add_under key tag_slug d !! key = Some (default [] (d !! key) ++ [tag_slug]).
Proof.
  intros Hnot. unfold models.add_under.
  rewrite bool_decide_eq_false_2 by now rewrite list_elem_of_In.
  rewrite lookup_insert_eq. f_equal. f_equal.
  case_bool_decide as Hs; [reflexivity|].
  rewrite lookup_insert_eq. simpl.
  destruct (d !! key) eqn:E; [exfalso; apply Hs; eauto | reflexivity].
Qed.

(** X6.  [add_tag] followed by [remove_tag] without a type restores the
    tag lists of a recommendation that did not carry the tag.  With every
    type other than "category", [add_tag] does what it does with
    "collection": it files the tag under the collections, and not under the
    categories.  With a type that is neither "category" nor "collection",
    [remove_tag] then removes nothing. *)
Theorem add_then_remove_tag :
  (forall self tag_name tag_type,
      ~ In (models.slugify (Some tag_name)) (models.get_tags self) ->
      models.get_tags
        (models.remove_tag (models.add_tag self tag_name tag_type) tag_name None)
      = models.get_tags self)
  /\ (forall self tag_name tag_type,
         tag_type <> "category" -> tag_type <> "collection" ->
         models.remove_tag (models.add_tag self tag_name tag_type) tag_name
                           (Some tag_type)
         = models.add_tag self tag_name tag_type
         /\ models.has_tag (models.add_tag self tag_name tag_type) tag_name = true)
  /\ (forall self tag_name tag_type,
         tag_type <> "category" ->
         models.add_tag self tag_name tag_type
         = models.add_tag self tag_name "collection"
         /\ exists d,
             Recommendation.tags (models.add_tag self tag_name tag_type) = Some d
             /\ In (models.slugify (Some tag_name)) (default [] (d !! "collections"))
             /\ (~ In (models.slugify (Some tag_name)) (models.get_tags self) ->
                 ~ In (models.slugify (Some tag_name))
                      (default [] (d !! "categories")))).
Proof.
  assert (Hhas : forall self tag_name tag_type,
             models.has_tag (models.add_tag self tag_name tag_type) tag_name = true).
  { intros self tag_name tag_type. apply has_tag_lists. rewrite get_tags_lists.
    destruct (add_tag_tags self tag_name tag_type) as (d0 & -> & _).
    set (key := if String.eqb tag_type "category" then "categories" else "collections").
    pose proof (add_under_member key (models.slugify (Some tag_name)) d0) as Hm.
    apply list_elem_of_In in Hm. apply in_or_app.
    subst key. destruct (String.eqb tag_type "category"); auto. }
  split; [|split].
  - intros self tag_name tag_type Hnot.
    set (slug := models.slugify (Some tag_name)) in *.
    destruct (add_tag_tags self tag_name tag_type) as (d0 & Hadd & Ht & Hf).
    fold slug in Hadd.
    set (key := if String.eqb tag_type "category" then "categories" else "collections") in *.
    assert (Hkey : key = "categories" \/ key = "collections")
      by (subst key; destruct (String.eqb tag_type "category"); auto).
    (* the lists of the dict [add_tag] starts from are those of [self] *)
    assert (H0 : models.get_tags self
                 = default [] (d0 !! "categories") ++ default [] (d0 !! "collections")).
    { rewrite get_tags_lists.
      destruct (models.tags_truthy (Recommendation.tags self)) eqn:Htr.
      - now rewrite (Ht eq_refl).
      - rewrite (Hf eq_refl).
        destruct (Recommendation.tags self) as [d|]; [|reflexivity].
        unfold models.tags_truthy in Htr. apply negb_false_iff in Htr.
        apply bool_decide_eq_true in Htr. subst d. now rewrite !lookup_empty. }
    rewrite H0 in Hnot.
    assert (Hn1 : ~ In slug (default [] (d0 !! "categories")))
      by (intros H; apply Hnot, in_or_app; auto).
    assert (Hn2 : ~ In slug (default [] (d0 !! "collections")))
      by (intros H; apply Hnot, in_or_app; auto).
    destruct (remove_tag_tags (models.add_tag self tag_name tag_type) tag_name None
                _ Hadd (tags_truthy_add_under _ _ _)) as (d' & Hd' & Hl).
    fold slug in Hl.
    rewrite get_tags_lists, Hd', !Hl, H0.
    rewrite !bool_decide_eq_true_2 by (auto 6).
    assert (Hlist : forall k, k = "categories" \/ k = "collections" ->
              ~ In slug (default [] (d0 !! k)) ->
              default [] (list_remove slug <$> models.add_under key slug d0 !! k)
              = default [] (d0 !! k)).
    { intros k Hk Hnk. destruct (decide (key = k)) as [<-|Hne].
      - rewrite add_under_lookup by assumption. simpl. now apply list_remove_snoc.
      - rewrite add_under_other by assumption.
        destruct (d0 !! k) as [l|]; [|reflexivity]. simpl in *.
        now rewrite list_remove_absent. }
    rewrite !Hlist by auto. reflexivity.
  - intros self tag_name tag_type Hc Hl. split; [|apply Hhas].
    apply String.eqb_neq in Hc, Hl.
    unfold models.remove_tag. rewrite Hc, Hl.
    generalize (models.add_tag self tag_name tag_type). intros r.
    destruct r as [i t de ra co lo tg cr ca]; cbn.
    destruct tg as [d|]; [|reflexivity].
    destruct (negb _); reflexivity.
  - intros self tag_name tag_type Hc. apply String.eqb_neq in Hc.
    split; [unfold models.add_tag; now rewrite Hc|].
    destruct (add_tag_tags self tag_name tag_type) as (d0 & Hadd & Ht & Hf).
    rewrite Hc in Hadd. eexists. split; [exact Hadd|]. split.
    + apply list_elem_of_In, add_under_member.
    + intros Hnot. rewrite add_under_other by discriminate.
      intros Hin. apply Hnot. rewrite get_tags_lists.
      destruct (models.tags_truthy (Recommendation.tags self)) eqn:Htr.
      * rewrite (Ht eq_refl). apply in_or_app. now left.
      * rewrite (Hf eq_refl) in Hin. rewrite lookup_insert_eq in Hin. destruct Hin.
Qed.

Lemma add_then_remove_tag_witness :
  models.get_tags
    (models.remove_tag (models.add_tag scenario.gallery "Date Night" "category")
                       "Date Night" None)
  = models.get_tags scenario.gallery
  /\ models.remove_tag (models.add_tag scenario.gallery "Date Night" "place")
                       "Date Night" (Some "place")
     = models.add_tag scenario.gallery "Date Night" "place".
Proof.
  split.
  - apply (proj1 add_then_remove_tag scenario.gallery "Date Night" "category").
    vm_compute. intros [H|[]]. discriminate.
  - apply (proj1 (proj2 add_then_remove_tag) scenario.gallery "Date Night" "place");
      discriminate.
Defined.

(** The filter condition on normalized tags is membership in [get_tags]. *)
Lemma tag_condition_member tag r :
  invariants.slugs_normalized (Recommendation.tags r) ->
  sql_true (routes_tagging.tag_condition tag r) = true
  <-> In (models.slugify (Some (l2s tag))) (models.get_tags r).
Proof.
  intros Hnorm. unfold routes_tagging.tag_condition.
  rewrite sql_or_true, !like_tag_pattern, in_get_tags.
  assert (Hkey : forall key,
             (exists text, routes_tagging.json_field (Recommendation.tags r) key = Some text
                           /\ infix (dquote :: s2l (models.slugify (Some (l2s tag)))
                                            ++ [dquote]) text)
             <-> exists d l, Recommendation.tags r = Some d /\ d !! key = Some l
                             /\ In (models.slugify (Some (l2s tag))) l).
  { intros key. unfold routes_tagging.json_field.
    destruct (Recommendation.tags r) as [d|] eqn:Ht.
    2:{ split; [intros (text & [=] & _) | intros (d & l & [=] & _)]. }
    destruct (d !! key) as [l|] eqn:El.
    2:{ split; [intros (text & [=] & _) | intros (d' & l & [= <-] & H & _); congruence]. }
    assert (Hl : Forall (fun e => forallb invariants.slug_char e = true) (map s2l l)).
    { apply Forall_map. eapply Forall_impl; [exact (Hnorm d key l eq_refl El)|].
      intros e He. apply He. }
    split.
    - intros (text & [= <-] & Hinf). exists d, l. repeat split; auto.
      apply quoted_slug_in_dumps in Hinf; [|apply slugify_slug_chars|assumption].
      apply in_map_iff in Hinf as (y & Hy & Hin). apply s2l_inj in Hy. now subst y.
    - intros (d' & l' & [= <-] & El' & Hin). rewrite El in El'. injection El' as <-.
      eexists. split; [reflexivity|].
      apply quoted_slug_in_dumps; [apply slugify_slug_chars|assumption|].
      now apply in_map. }
  rewrite !Hkey. split.
  - intros [(d & l & H1 & H2 & H3)|(d & l & H1 & H2 & H3)]; eauto 10.
  - intros (d & key & l & H1 & [->| ->] & H2 & H3); eauto 10.
Qed.

(** X7.  [has_tag] says whether the slug of the name is among [get_tags];
    a tag just added with [add_tag] is found by [has_tag]; and on
    normalized tags the search filter of the API selects a recommendation
    for a tag exactly when [has_tag] holds for it. *)
Theorem has_tag_agrees_with_search :
  forall r tag_name,
    (models.has_tag r tag_name = true
     <-> In (models.slugify (Some tag_name)) (models.get_tags r))
    /\ (forall tag_type, models.has_tag (models.add_tag r tag_name tag_type) tag_name = true)
    /\ (invariants.slugs_normalized (Recommendation.tags r) ->
        (sql_true (routes_tagging.tag_condition (s2l tag_name) r) = true
         <-> models.has_tag r tag_name = true)).
Proof.
  intros r tag_name. split; [apply has_tag_lists|]. split.
  - intros tag_type. apply has_tag_lists. rewrite get_tags_lists.
    destruct (add_tag_tags r tag_name tag_type) as (d0 & -> & _).
    set (key := if String.eqb tag_type "category" then "categories" else "collections").
    pose proof (add_under_member key (models.slugify (Some tag_name)) d0) as Hm.
    apply list_elem_of_In in Hm. apply in_or_app.
    subst key. destruct (String.eqb tag_type "category"); auto.
  - intros Hnorm. rewrite tag_condition_member by assumption.
    rewrite l2s_s2l. symmetry. apply has_tag_lists.
Qed.

Lemma has_tag_agrees_with_search_witness :
  sql_true (routes_tagging.tag_condition (s2l "Smart Art") scenario.gallery) = true
  <-> models.has_tag scenario.gallery "Smart Art" = true.
Proof.
  apply (proj2 (proj2 (has_tag_agrees_with_search scenario.gallery "Smart Art"))).
  intros d k l [= <-] H.
  apply lookup_insert_Some in H as [[<- <-]|[_ H]];
    [|now rewrite lookup_empty in H].
  constructor; [|constructor]. split; [reflexivity | simpl; lia].
Defined.
(* ===================================================================== *)
(** * Following, unfollowing and the like toggle                          *)
(* ===================================================================== *)

Lemma find_snoc_none {A} (p : A -> bool) l y :
  find p l = None -> find p (l ++ [y]) = if p y then Some y else None.
Proof.
  induction l as [|x l IH]; simpl; [reflexivity|].
  destruct (p x); [discriminate | exact IH].
Qed.

Lemma filter_snoc_fresh {A} (key : A -> Z) l y :
  ~ In (key y) (map key l) ->
  List.filter (fun x => negb (Z.eqb (key x) (key y))) (l ++ [y]) = l.
Proof.
  intros Hfresh. rewrite List.filter_app. simpl. rewrite Z.eqb_refl. simpl.
  rewrite app_nil_r. apply filter_all. apply forallb_forall. intros x Hx.
  apply negb_true_iff, Z.eqb_neq. intros E. apply Hfresh. rewrite <- E.
  now apply in_map.
Qed.

Lemma with_follows_follows d l :
  orm.with_follows (orm.with_follows d l) (orm.follows d) = d.
Proof. now destruct d. Qed.

Lemma with_likes_likes d l :
  orm.with_likes (orm.with_likes d l) (orm.likes d) = d.
Proof. now destruct d. Qed.

Lemma with_db_db st d : routes.with_db (routes.with_db st d) (routes.db st) = st.
Proof. now destruct st. Qed.

(** X8.  A follow request that is served (it flashes "You are now
    following") adds one Follow row from the signed-in user to the target,
    and an unfollow request for the same target right after it is served
    too and gives back the state before the follow. *)
Theorem follow_then_unfollow st user_id referrer referrer' :
  routes.flashed (snd (routes.follow_user st user_id referrer))
  = ["You are now following"] ->
  let st1 := fst (routes.follow_user st user_id referrer) in
  (exists f, orm.follows (routes.db st1) = orm.follows (routes.db st) ++ [f]
             /\ session.user_id (routes.sess st) = Some (Follow.follower_id f)
             /\ Follow.followed_id f = user_id)
  /\ fst (routes.unfollow_user st1 user_id referrer') = st
  /\ routes.flashed (snd (routes.unfollow_user st1 user_id referrer'))
     = ["You have unfollowed"].
Proof.
  cbv zeta.
  unfold routes.follow_user, routes.login_required, routes.first_or_404,
    routes.attr_of.
  destruct (session.user_id (routes.sess st)) as [uid|] eqn:Hs; [|discriminate].
  destruct (orm.get_user (routes.db st) user_id) as [target|] eqn:Ht; [|discriminate].
  destruct (orm.get_user (routes.db st) uid) as [cur|] eqn:Hc; [|discriminate].
  destruct (models.is_following (routes.db st) cur target) eqn:Hfol; [discriminate|].
  unfold orm.add_follow.
  destruct (existsb _ (orm.follows (routes.db st))) eqn:Hex; [discriminate|].
  intros _. cbn [fst snd].
  set (f := Follow.mk _ _ _).
  destruct (get_user_some _ _ _ Ht) as [_ Htid].
  destruct (get_user_some _ _ _ Hc) as [_ Hcid].
  split; [exists f; cbn; rewrite Hcid, Htid; auto|].
  unfold routes.unfollow_user, routes.login_required, routes.first_or_404,
    routes.attr_of.
  cbn [routes.sess routes.with_db routes.db]. rewrite Hs.
  change (orm.get_user (orm.with_follows (routes.db st) (orm.follows (routes.db st) ++ [f])))
    with (orm.get_user (routes.db st)).
  rewrite Ht, Hc.
  cbn [orm.follows orm.with_follows].
  unfold models.is_following in Hfol.
  destruct (find _ (orm.follows (routes.db st))) eqn:Hfind; [discriminate|].
  rewrite (find_snoc_none _ _ f Hfind).
  cbn [Follow.follower_id Follow.followed_id f]. rewrite !Z.eqb_refl.
  cbn [andb fst snd routes.flashed]. split; [|reflexivity].
  unfold orm.delete_follow. cbn [orm.follows orm.with_follows].
  rewrite (filter_snoc_fresh Follow.id) by apply next_id_fresh.
  rewrite with_follows_follows. now destruct st.
Qed.

Lemma follow_then_unfollow_witness :
  fst (routes.unfollow_user
         (fst (routes.follow_user (scenario.signed_in scenario.carol true) 1 None))
         1 None)
  = scenario.signed_in scenario.carol true.
Proof.
  apply (follow_then_unfollow (scenario.signed_in scenario.carol true) 1 None None).
  reflexivity.
Defined.

(** X9.  With unique Follow pairs and keys, an unfollow request of a
    signed-in user for an existing user leaves exactly the Follow rows of
    the other pairs; the other tables and the session are as before. *)
Theorem unfollow_removes_the_pair st user_id referrer uid :
  invariants.follow_pairs_unique (routes.db st) ->
  NoDup (map Follow.id (orm.follows (routes.db st))) ->
  session.user_id (routes.sess st) = Some uid ->
  is_Some (orm.get_user (routes.db st) uid) ->
  is_Some (orm.get_user (routes.db st) user_id) ->
  let st' := fst (routes.unfollow_user st user_id referrer) in
  (forall f, In f (orm.follows (routes.db st'))
             <-> In f (orm.follows (routes.db st))
                 /\ ~ (Follow.follower_id f = uid /\ Follow.followed_id f = user_id))
  /\ orm.with_follows (routes.db st') (orm.follows (routes.db st)) = routes.db st
  /\ routes.sess st' = routes.sess st.
Proof.
  intros Hpairs Hkeys Hs [cur Hc] [target Ht]. cbv zeta.
  unfold routes.unfollow_user, routes.login_required, routes.first_or_404,
    routes.attr_of.
  rewrite Hs, Ht, Hc.
  destruct (get_user_some _ _ _ Ht) as [_ Htid].
  destruct (get_user_some _ _ _ Hc) as [_ Hcid].
  rewrite Htid, Hcid.
  destruct (find _ (orm.follows (routes.db st))) as [follow|] eqn:Hfind; cbn [fst].
  - split; [|split; [apply with_follows_follows | reflexivity]].
    apply find_some in Hfind as [Hin Hp].
    apply andb_prop in Hp as [P1 P2]. apply Z.eqb_eq in P1, P2.
    intros f. cbn [routes.db routes.with_db orm.delete_follow orm.follows orm.with_follows].
    rewrite filter_In, negb_true_iff, Z.eqb_neq.
    split; intros [Hf Hne]; (split; [assumption|]).
    + intros [E1 E2]. apply Hne. f_equal.
      apply (NoDup_map_inj_in
               (fun f => (Follow.follower_id f, Follow.followed_id f))
               (orm.follows (routes.db st))); auto.
      cbn. congruence.
    + intros E. apply Hne.
      assert (f = follow)
        by (apply (NoDup_map_inj_in Follow.id (orm.follows (routes.db st))); auto).
      subst f. auto.
  - split; [|split; [now destruct st as [[] ?] | reflexivity]].
    intros f. split; [|tauto]. intros Hin. split; [assumption|].
    intros [E1 E2]. apply (find_none _ _ Hfind) in Hin.
    now rewrite E1, E2, !Z.eqb_refl in Hin.
Qed.

Lemma unfollow_removes_the_pair_witness :
  In scenario.bob_follows_alice
     (orm.follows
        (routes.db (fst (routes.unfollow_user (scenario.signed_in scenario.bob true)
                                              1 None))))
  <-> In scenario.bob_follows_alice
         (orm.follows (routes.db (scenario.signed_in scenario.bob true)))
      /\ ~ (Follow.follower_id scenario.bob_follows_alice = 2%Z
            /\ Follow.followed_id scenario.bob_follows_alice = 1%Z).
Proof.
  apply (unfollow_removes_the_pair (scenario.signed_in scenario.bob true) 1 None 2).
  - apply NoDup_singleton.
  - apply NoDup_singleton.
  - reflexivity.
  - eexists; reflexivity.
  - eexists; reflexivity.
Defined.

(** X10.  The like button is a toggle: when a like request answers
    "liked", the same request sent again answers "unliked" and gives back
    the state before the first; the first answer reports the user as
    liking and a count one above the count reported by the second. *)
Theorem like_twice_restores st profile_slug category_slug rec_id like_count is_liked :
  routes.resp (snd (routes.like_recommendation st profile_slug category_slug rec_id))
  = routes.jsonify_like "liked" like_count is_liked ->
  let st1 := fst (routes.like_recommendation st profile_slug category_slug rec_id) in
  is_liked = true
  /\ fst (routes.like_recommendation st1 profile_slug category_slug rec_id) = st
  /\ exists n, like_count = S n
               /\ routes.resp (snd (routes.like_recommendation st1 profile_slug
                                                               category_slug rec_id))
                  = routes.jsonify_like "unliked" n false.
Proof.
  cbv zeta.
  unfold routes.like_recommendation, routes.login_required, routes.first_or_404,
    routes.attr_of.
  destruct (session.user_id (routes.sess st)) as [uid|] eqn:Hs; [|discriminate].
  destruct (routes.public_profile (routes.db st) profile_slug) as [profile|] eqn:Hp;
    [|discriminate].
  destruct (routes.category_by_slug (routes.db st) (Profile.id profile) category_slug)
    as [category|] eqn:Hcat; [|discriminate].
  destruct (routes.recommendation_in (routes.db st) (Category.id category) rec_id)
    as [recommendation|] eqn:Hr; [|discriminate].
  destruct (orm.get_user (routes.db st) uid) as [user|] eqn:Hu; [|discriminate].
  destruct (find _ (orm.likes (routes.db st))) as [existing|] eqn:Hfind;
    [discriminate|].
  unfold orm.add_like.
  destruct (existsb _ (orm.likes (routes.db st))) eqn:Hex; [discriminate|].
  set (l := Like.mk _ _ _).
  cbn [fst snd routes.resp routes.sess routes.with_db routes.db].
  rewrite Hs.
  change (routes.public_profile (orm.with_likes (routes.db st) (orm.likes (routes.db st) ++ [l])))
    with (routes.public_profile (routes.db st)).
  change (routes.category_by_slug (orm.with_likes (routes.db st) (orm.likes (routes.db st) ++ [l])))
    with (routes.category_by_slug (routes.db st)).
  change (routes.recommendation_in (orm.with_likes (routes.db st) (orm.likes (routes.db st) ++ [l])))
    with (routes.recommendation_in (routes.db st)).
  change (orm.get_user (orm.with_likes (routes.db st) (orm.likes (routes.db st) ++ [l])))
    with (orm.get_user (routes.db st)).
  rewrite Hp, Hcat, Hr, Hu.
  cbn [orm.likes orm.with_likes].
  rewrite (find_snoc_none _ _ l Hfind).
  cbn [Like.user_id Like.recommendation_id l]. rewrite !Z.eqb_refl.
  cbn [andb fst snd routes.resp].
  assert (Hdel : orm.delete_like
                   (orm.with_likes (routes.db st) (orm.likes (routes.db st) ++ [l])) l
                 = routes.db st).
  { unfold orm.delete_like. cbn [orm.likes orm.with_likes].
    rewrite (filter_snoc_fresh Like.id) by apply next_id_fresh.
    apply with_likes_likes. }
  rewrite Hdel.
  unfold models.get_like_count, models.is_liked_by, orm.likes_of.
  cbn [orm.likes orm.with_likes].
  rewrite List.filter_app. cbn [List.filter Like.recommendation_id l].
  rewrite Z.eqb_refl, existsb_app, length_app.
  cbn [existsb Like.user_id l length]. rewrite Z.eqb_refl, orb_true_r.
  intros [= <- <-]. split; [reflexivity|]. split; [now destruct st|].
  exists (length (List.filter
                    (fun l0 => Z.eqb (Like.recommendation_id l0)
                                     (Recommendation.id recommendation))
                    (orm.likes (routes.db st)))).
  split; [lia|]. f_equal.
  apply not_true_iff_false. intros Hliked.
  apply existsb_exists in Hliked as (x & Hx & Hxu).
  apply filter_In in Hx as [Hx Hxr].
  apply (find_none _ _ Hfind) in Hx. now rewrite Hxu, Hxr in Hx.
Qed.

Lemma like_twice_restores_witness :
  fst (routes.like_recommendation
         (fst (routes.like_recommendation (scenario.signed_in scenario.carol true)
                                          "alice" "food" 1))
         "alice" "food" 1)
  = scenario.signed_in scenario.carol true.
Proof.
  apply (like_twice_restores (scenario.signed_in scenario.carol true)
                             "alice" "food" 1 2 true).
  reflexivity.
Defined.

(** X24.  A follow request that is served makes [is_following] true for
    the pair, where it was false before, and raises the follower count of
    the followed user by one when that user has a profile; the follower
    count of every other user is as before, and that of a user without a
    profile is 0. *)
Theorem follow_counts st user_id referrer :
  routes.flashed (snd (routes.follow_user st user_id referrer))
  = ["You are now following"] ->
  let d := routes.db st in
  let d1 := routes.db (fst (routes.follow_user st user_id referrer)) in
  (exists uid current_user user_to_follow,
      session.user_id (routes.sess st) = Some uid
      /\ orm.get_user d uid = Some current_user
      /\ orm.get_user d user_id = Some user_to_follow
      /\ models.is_following d current_user user_to_follow = false
      /\ models.is_following d1 current_user user_to_follow = true)
  /\ forall u,
      models.get_follower_count d1 u
      = match routes.profile_of_user d (User.id u) with
        | Some _ =>
            if Z.eqb (User.id u) user_id
            then S (models.get_follower_count d u)
            else models.get_follower_count d u
        | None => 0
        end.
Proof.
  cbv zeta.
  unfold routes.follow_user, routes.login_required, routes.first_or_404,
    routes.attr_of.
  destruct (session.user_id (routes.sess st)) as [uid|] eqn:Hs; [|discriminate].
  destruct (orm.get_user (routes.db st) user_id) as [target|] eqn:Ht; [|discriminate].
  destruct (orm.get_user (routes.db st) uid) as [cur|] eqn:Hc; [|discriminate].
  destruct (models.is_following (routes.db st) cur target) eqn:Hfol; [discriminate|].
  unfold orm.add_follow.
  destruct (existsb _ (orm.follows (routes.db st))) eqn:Hex; [discriminate|].
  intros _. cbn [fst snd routes.db routes.with_db].
  set (f := Follow.mk _ _ _).
  destruct (get_user_some _ _ _ Ht) as [_ Htid]. split.
  - exists uid, cur, target. repeat split; auto.
    unfold models.is_following in *. cbn [orm.follows orm.with_follows].
    destruct (find _ (orm.follows (routes.db st))) eqn:Hfind; [discriminate|].
    rewrite (find_snoc_none _ _ f Hfind).
    cbn [Follow.follower_id Follow.followed_id f]. now rewrite !Z.eqb_refl.
  - intros u. unfold models.get_follower_count, routes.profile_of_user.
    cbn [orm.profiles orm.follows orm.with_follows].
    destruct (find _ (orm.profiles (routes.db st))); [|reflexivity].
    rewrite List.filter_app, length_app.
    cbn [List.filter Follow.followed_id f]. rewrite Htid, (Z.eqb_sym user_id).
    destruct (Z.eqb (User.id u) user_id); cbn [length]; lia.
Qed.

Lemma follow_counts_witness :
  models.get_follower_count
    (routes.db (fst (routes.follow_user (scenario.signed_in scenario.carol true) 1 None)))
    scenario.alice
  = 2.
Proof.
  destruct (follow_counts (scenario.signed_in scenario.carol true) 1 None eq_refl)
    as [_ H].
  rewrite H. reflexivity.
Defined.
(* ===================================================================== *)
(** * Registration, logout and login together                             *)
(* ===================================================================== *)

Lemma lstrip_not_starting p s : starts_with p s = false -> lstrip p s = s.
Proof. destruct s as [|c s]; [reflexivity|]. simpl. now intros ->. Qed.

Lemma strip_idem p s : strip p (strip p s) = strip p s.
Proof.
  unfold strip at 1. rewrite lstrip_not_starting by apply strip_starts.
  unfold strip. apply rstrip_idem.
Qed.

Lemma find_app_some {A} (p : A -> bool) l l' x :
  find p l = Some x -> find p (l ++ l') = Some x.
Proof.
  induction l as [|y l IH]; simpl; [discriminate|].
  destruct (p y); [auto | exact IH].
Qed.

(** X11.  Registration, verification, logout and login compose as follows,
    for a password hashing library whose check accepts exactly the hashed
    password.  When a registration is accepted and then verified, the new
    account is signed in.  After a logout, a login request signs into that
    account exactly when the submitted username and password, stripped of
    surrounding whitespace, are the registered ones; so an account
    registered with a username or a password that has surrounding
    whitespace can never be signed into. *)
Theorem register_logout_login
        (Email : string -> bool) (generate_password_hash : string -> string)
        (check_password_hash : string -> string -> bool) :
  (forall p q, check_password_hash (generate_password_hash p) q = true <-> p = q) ->
  forall st form now rand verification_code later,
    let registered := routes.register Email generate_password_hash st routes.POST
                                      form now rand in
    let verified := routes.verify_registration (fst registered) routes.POST
                                               verification_code later in
    routes.resp (snd registered) = routes.redirect "verify_registration" ->
    routes.resp (snd verified) = routes.redirect "dashboard" ->
    let new_id := orm.next_id (map User.id (orm.users (routes.db st))) in
    session.user_id (routes.sess (fst verified)) = Some new_id
    /\ session.user_id (routes.sess (fst (routes.logout (fst verified)))) = None
    /\ forall username password,
        session.user_id
          (routes.sess (fst (routes.login check_password_hash
                                          (fst (routes.logout (fst verified)))
                                          routes.POST username password)))
        = Some new_id
        <-> l2s (strip isspace (s2l username)) = forms.username form
            /\ l2s (strip isspace (s2l password)) = forms.password form.
Proof.
  intros Hlib st form now rand code later. cbv zeta.
  unfold routes.register.
  destruct (routes.is_post routes.POST && forms.RegisterForm_validate Email form);
    [|discriminate].
  destruct (existsb _ (orm.users (routes.db st))); [discriminate|].
  destruct (existsb _ (orm.users (routes.db st))); [discriminate|].
  intros _. cbn [fst snd].
  unfold routes.verify_registration.
  cbn [routes.with_sess routes.sess routes.db session.pending session.expires_at
       session.verification_code session.username session.email
       session.password_hash session.user_id].
  destruct (Z.ltb _ later); [discriminate|].
  cbn [routes.is_post].
  destruct (String.eqb _ _); [|discriminate].
  unfold orm.add_user.
  destruct (existsb _ (orm.users (routes.db st))) eqn:Hclash; [discriminate|].
  destruct (negb _); [discriminate|].
  intros _.
  cbn [fst snd routes.sess routes.db session.user_id User.id routes.logout
       routes.with_sess session.pending].
  split; [reflexivity|]. split; [reflexivity|].
  intros username password.
  set (new_id := orm.next_id (map User.id (orm.users (routes.db st)))).
  set (user := User.mk new_id (forms.username form) (forms.email form)
                       (generate_password_hash (forms.password form)) false true).
  unfold routes.login, routes.logout, routes.with_sess.
  cbn [fst snd routes.is_post routes.db routes.sess orm.users orm.with_users].
  set (u := l2s (strip isspace (s2l username))).
  set (p := l2s (strip isspace (s2l password))).
  assert (Hfree : forall x, In x (orm.users (routes.db st)) ->
                            User.username x <> forms.username form).
  { intros x Hx E. apply not_true_iff_false in Hclash. apply Hclash.
    apply existsb_exists. exists x. split; [assumption|].
    apply orb_true_iff. left. now apply String.eqb_eq. }
  assert (Hold : forall x, In x (orm.users (routes.db st)) -> User.id x <> new_id).
  { intros x Hx E. apply (next_id_fresh (map User.id (orm.users (routes.db st)))).
    fold new_id. rewrite <- E. now apply in_map. }
  destruct (find (fun x => String.eqb (User.username x) u) (orm.users (routes.db st)))
    as [x|] eqn:Hfind.
  - rewrite (find_app_some _ _ [user] _ Hfind).
    apply find_some in Hfind as [Hx Hxu]. apply String.eqb_eq in Hxu.
    split.
    + destruct (check_password_hash (User.password_hash x) p && User.is_verified x);
        [|destruct (negb (User.is_verified x));
          [|destruct (negb (check_password_hash (User.password_hash x) p))]];
        cbn; try discriminate.
      intros [= E]. now apply Hold in E.
    + intros [E _]. exfalso. apply (Hfree x Hx). congruence.
  - rewrite (find_snoc_none _ _ user Hfind).
    cbn [User.username user].
    destruct (String.eqb_spec (forms.username form) u) as [Eu|Eu].
    + cbn [User.password_hash User.is_verified user negb].
      rewrite andb_true_r.
      destruct (check_password_hash (generate_password_hash (forms.password form)) p)
        eqn:Hcheck; cbn.
      * apply Hlib in Hcheck. split; [auto|reflexivity].
      * split; [discriminate|]. intros [_ Ep]. symmetry in Ep.
        apply Hlib in Ep. congruence.
    + cbn. split; [discriminate|]. intros [E _]. congruence.
Qed.

Lemma register_logout_login_witness :
  let form := forms.mkRegisterForm "dave" "dave@example.com" " secret1" " secret1" in
  let registered := routes.register (fun _ => true) (fun p => p) scenario.anonymous
                                    routes.POST form 0 (fun i => i) in
  let verified := routes.verify_registration (fst registered) routes.POST "012345" 5 in
  session.user_id (routes.sess (fst verified)) = Some 4%Z
  /\ session.user_id
       (routes.sess (fst (routes.login String.eqb (fst (routes.logout (fst verified)))
                                       routes.POST "dave" " secret1")))
     <> Some 4%Z.
Proof.
  cbv zeta.
  destruct (register_logout_login (fun _ => true) (fun p => p) String.eqb
              ltac:(intros p q; apply String.eqb_eq)
              scenario.anonymous
              (forms.mkRegisterForm "dave" "dave@example.com" " secret1" " secret1")
              0%Z (fun i => i) "012345" 5%Z eq_refl eq_refl) as (H1 & _ & H3).
  split; [exact H1|].
  intros H. apply H3 in H as [_ H]. vm_compute in H. discriminate.
Defined.
(* ===================================================================== *)
(** * Who may see and change what                                         *)
(* ===================================================================== *)

Lemma public_profile_hidden d slug :
  (forall p, In p (orm.profiles d) -> Profile.slug p = slug ->
             Profile.is_public p = false) ->
  routes.public_profile d slug = None.
Proof.
  intros H. unfold routes.public_profile.
  destruct (find _ (orm.profiles d)) as [p|] eqn:E; [|reflexivity].
  apply find_some in E as [Hin Hp]. apply andb_prop in Hp as [Hs Hpub].
  apply String.eqb_eq in Hs. rewrite (H p Hin Hs) in Hpub. discriminate.
Qed.

(** X12.  A profile that is not public is served to nobody, its owner
    included: the profile page, its category and recommendation pages, a
    comment posted there, the like button and the deletion of a comment
    all answer 404 and leave the database and the session as they are. *)
Theorem hidden_profile_is_not_served st profile_slug :
  (forall p, In p (orm.profiles (routes.db st)) -> Profile.slug p = profile_slug ->
             Profile.is_public p = false) ->
  let not_found := (st, routes.mk_reply [] (routes.abort 404)) in
  routes.view_profile st profile_slug = not_found
  /\ (forall category_slug,
         routes.view_category st profile_slug category_slug = not_found)
  /\ (forall category_slug rec_id m comment_form now,
         routes.view_recommendation st profile_slug category_slug rec_id m
                                    comment_form now = not_found)
  /\ (is_Some (session.user_id (routes.sess st)) ->
      (forall category_slug rec_id,
          routes.like_recommendation st profile_slug category_slug rec_id = not_found)
      /\ (forall category_slug rec_id comment_id,
             routes.delete_comment st profile_slug category_slug rec_id comment_id
             = not_found)).
Proof.
  intros H. apply public_profile_hidden in H. cbv zeta.
  unfold routes.view_profile, routes.view_category, routes.view_recommendation,
    routes.like_recommendation, routes.delete_comment, routes.login_required.
  rewrite H. cbn [routes.first_or_404].
  repeat split; intros; try reflexivity;
    match goal with Hs : is_Some _ |- _ => destruct Hs as [uid ->] end; reflexivity.
Qed.

Lemma hidden_profile_is_not_served_witness :
  routes.like_recommendation (scenario.signed_in scenario.alice false) "alice" "food" 1
  = (scenario.signed_in scenario.alice false,
     routes.mk_reply [] (routes.abort 404)).
Proof.
  apply (hidden_profile_is_not_served (scenario.signed_in scenario.alice false) "alice").
  - intros p [<-|[]] _. reflexivity.
  - eexists; reflexivity.
Defined.

(** X13.  A request without a signed-in user changes nothing.  The
    dashboard handlers that write (the profile form, the categories page,
    creating, editing and deleting a category or a recommendation) and
    every follow, unfollow, like and comment-deletion request are turned
    away to the login page; the three writing endpoints of the tag API
    answer 401; and a comment posted on a recommendation page is not
    stored. *)
Theorem anonymous_requests_change_nothing st :
  session.user_id (routes.sess st) = None ->
  let denied := (st, routes.mk_reply ["auth:access_denied"] (routes.redirect "login")) in
  let unauthorized := (st, routes_tagging.json_error 401 "Authentication required") in
  (forall m form, routes.dashboard_profile st m form = denied)
  /\ routes.dashboard_categories st = denied
  /\ (forall m form, routes.new_category st m form = denied)
  /\ (forall id m form, routes.edit_category st id m form = denied)
  /\ (forall id, routes.delete_category st id = denied)
  /\ (forall m form now, routes.new_recommendation st m form now = denied)
  /\ (forall id m form, routes.edit_recommendation st id m form = denied)
  /\ (forall id, routes.delete_recommendation st id = denied)
  /\ (forall id referrer, routes.follow_user st id referrer = denied)
  /\ (forall id referrer, routes.unfollow_user st id referrer = denied)
  /\ (forall ps cs id, routes.like_recommendation st ps cs id = denied)
  /\ (forall ps cs id cid, routes.delete_comment st ps cs id cid = denied)
  /\ (forall id data, routes_tagging.add_tag_to_recommendation st id data = unauthorized)
  /\ (forall id data,
         routes_tagging.remove_tag_from_recommendation st id data = unauthorized)
  /\ (forall id data, routes_tagging.set_recommendation_tags st id data = unauthorized)
  /\ (forall ps cs id m comment_form now,
         fst (routes.view_recommendation st ps cs id m comment_form now) = st).
Proof.
  intros Hs. cbv zeta.
  unfold routes.dashboard_profile, routes.dashboard_categories, routes.new_category,
    routes.edit_category, routes.delete_category, routes.new_recommendation,
    routes.edit_recommendation, routes.delete_recommendation, routes.follow_user,
    routes.unfollow_user, routes.like_recommendation, routes.delete_comment,
    routes_tagging.add_tag_to_recommendation,
    routes_tagging.remove_tag_from_recommendation,
    routes_tagging.set_recommendation_tags,
    routes.login_required, routes_tagging.login_required_api.
  rewrite Hs.
  repeat (split; [intros; reflexivity|]).
  intros ps cs id m comment_form now.
  unfold routes.view_recommendation, routes.first_or_404. rewrite Hs.
  destruct (routes.public_profile (routes.db st) ps) as [profile|]; [|reflexivity].
  destruct (routes.category_by_slug _ _ _) as [category|]; [|reflexivity].
  destruct (routes.recommendation_in _ _ _) as [recommendation|]; reflexivity.
Qed.

Lemma anonymous_requests_change_nothing_witness :
  routes.delete_category scenario.anonymous 1
  = (scenario.anonymous,
     routes.mk_reply ["auth:access_denied"] (routes.redirect "login")).
Proof.
  apply (anonymous_requests_change_nothing scenario.anonymous). reflexivity.
Defined.

Lemma profile_of_user_id d uid p :
  routes.profile_of_user d uid = Some p -> In p (orm.profiles d) /\ Profile.user_id p = uid.
Proof.
  unfold routes.profile_of_user. intros H. apply find_some in H as [Hin Hid].
  split; [assumption | now apply Z.eqb_eq].
Qed.

(** X14.  The dashboard edits and deletes only rows of the signed-in user's
    own profile.  For a category id that no category of that profile has,
    editing and deleting answer 404 and change nothing; likewise for a
    recommendation id that no recommendation in a category of that profile
    has. *)
Theorem foreign_rows_are_not_found st uid user profile :
  session.user_id (routes.sess st) = Some uid ->
  orm.get_user (routes.db st) uid = Some user ->
  routes.profile_of_user (routes.db st) uid = Some profile ->
  let not_found := (st, routes.mk_reply [] (routes.abort 404)) in
  (forall category_id,
      (forall c, In c (orm.categories (routes.db st)) -> Category.id c = category_id ->
                 Category.profile_id c <> Profile.id profile) ->
      routes.delete_category st category_id = not_found
      /\ forall m form, routes.edit_category st category_id m form = not_found)
  /\ (forall rec_id,
         (forall r c, In r (orm.recommendations (routes.db st)) ->
                      Recommendation.id r = rec_id ->
                      In c (orm.categories (routes.db st)) ->
                      Category.id c = Recommendation.category_id r ->
                      Category.profile_id c <> Profile.id profile) ->
         routes.delete_recommendation st rec_id = not_found
         /\ forall m form, routes.edit_recommendation st rec_id m form = not_found).
Proof.
  intros Hs Hu Hp. cbv zeta.
  destruct (get_user_some _ _ _ Hu) as [_ Huid].
  split.
  - intros category_id Hforeign.
    assert (Hnone : find (fun c => Z.eqb (Category.id c) category_id
                                   && Z.eqb (Category.profile_id c) (Profile.id profile))
                         (orm.categories (routes.db st)) = None).
    { destruct (find _ (orm.categories (routes.db st))) as [c|] eqn:E; [|reflexivity].
      apply find_some in E as [Hin Hc]. apply andb_prop in Hc as [H1 H2].
      apply Z.eqb_eq in H1, H2. now apply Hforeign in Hin. }
    unfold routes.delete_category, routes.edit_category, routes.login_required,
      routes.attr_of.
    rewrite Hs, Hu, Huid, Hp, Hnone. split; reflexivity.
  - intros rec_id Hforeign.
    assert (Hnone : routes.recommendation_of_profile (routes.db st) rec_id
                                                     (Profile.id profile) = None).
    { unfold routes.recommendation_of_profile.
      destruct (find _ (orm.recommendations (routes.db st))) as [r|] eqn:E;
        [|reflexivity].
      apply find_some in E as [Hin Hr]. apply andb_prop in Hr as [H1 H2].
      apply Z.eqb_eq in H1. apply existsb_exists in H2 as (c & Hc & Hcc).
      apply andb_prop in Hcc as [H3 H4]. apply Z.eqb_eq in H3, H4.
      now apply (Hforeign r c) in Hin. }
    unfold routes.delete_recommendation, routes.edit_recommendation,
      routes.login_required, routes.attr_of.
    rewrite Hs, Hu, Huid, Hp, Hnone. split; reflexivity.
Qed.

Lemma foreign_rows_are_not_found_witness :
  routes.delete_category
    (routes.mk_state
       (orm.with_profiles (scenario.database true)
                          [scenario.alice_profile true;
                           Profile.mk 2 "Bob" "" "bob" true "" "" "" "" 2])
       (session.mk (Some 2%Z) None)) 1
  = (routes.mk_state
       (orm.with_profiles (scenario.database true)
                          [scenario.alice_profile true;
                           Profile.mk 2 "Bob" "" "bob" true "" "" "" "" 2])
       (session.mk (Some 2%Z) None),
     routes.mk_reply [] (routes.abort 404)).
Proof.
  apply (foreign_rows_are_not_found
           (routes.mk_state
              (orm.with_profiles (scenario.database true)
                                 [scenario.alice_profile true;
                                  Profile.mk 2 "Bob" "" "bob" true "" "" "" "" 2])
              (session.mk (Some 2%Z) None))
           2 scenario.bob (Profile.mk 2 "Bob" "" "bob" true "" "" "" "" 2)
           eq_refl eq_refl eq_refl).
  intros c [<-|[]] _. discriminate.
Defined.

(** X15.  A recommendation is only ever filed under a category of the
    signed-in user's own profile: after the creation form or the edit form
    is handled, every recommendation that was not in the table before
    carries the id of one of that user's categories. *)
Theorem recommendations_go_to_own_categories st uid :
  session.user_id (routes.sess st) = Some uid ->
  (forall m form now r,
      In r (orm.recommendations
              (routes.db (fst (routes.new_recommendation st m form now)))) ->
      In r (orm.recommendations (routes.db st))
      \/ exists c, In c (orm.categories (routes.db st))
                   /\ Category.id c = Recommendation.category_id r
                   /\ invariants.own_category (routes.db st) uid c)
  /\ (forall rec_id m form r,
         In r (orm.recommendations
                 (routes.db (fst (routes.edit_recommendation st rec_id m form)))) ->
         In r (orm.recommendations (routes.db st))
         \/ exists c, In c (orm.categories (routes.db st))
                      /\ Category.id c = Recommendation.category_id r
                      /\ invariants.own_category (routes.db st) uid c).
Proof.
  intros Hs.
  assert (Hchoice : forall profile form,
             routes.profile_of_user (routes.db st) uid = Some profile ->
             forms.RecommendationForm_validate
               (map Category.id
                    (List.filter (fun c => Z.eqb (Category.profile_id c) (Profile.id profile))
                                 (orm.categories (routes.db st)))) form = true ->
             exists c, In c (orm.categories (routes.db st))
                       /\ Category.id c = forms.category_id form
                       /\ invariants.own_category (routes.db st) uid c).
  { intros profile form Hp Hv. unfold forms.RecommendationForm_validate in Hv.
    repeat (apply andb_prop in Hv as [Hv _]).
    apply bool_decide_eq_true in Hv. apply list_elem_of_In, in_map_iff in Hv.
    destruct Hv as (c & Hid & Hc). apply filter_In in Hc as [Hin Hown].
    apply Z.eqb_eq in Hown. exists c. repeat split; auto. now exists profile. }
  split.
  - intros m form now r.
    unfold routes.new_recommendation, routes.login_required, routes.attr_of.
    rewrite Hs.
    destruct (orm.get_user (routes.db st) uid) as [user|] eqn:Hu; [|cbn; auto].
    destruct (get_user_some _ _ _ Hu) as [_ ->].
    destruct (routes.profile_of_user (routes.db st) uid) as [profile|] eqn:Hp;
      [|cbn; auto].
    destruct (List.filter _ (orm.categories (routes.db st))) as [|c0 cs] eqn:Hcs;
      [cbn; auto|].
    rewrite <- Hcs.
    destruct (routes.is_post m && _) eqn:Hv; [|cbn; auto].
    apply andb_prop in Hv as [_ Hv].
    cbn [fst routes.db routes.with_db orm.add_recommendation orm.recommendations
         orm.with_recommendations].
    intros Hin. apply in_app_or in Hin as [Hin|[<-|[]]]; [auto|right].
    cbn [Recommendation.category_id]. now apply (Hchoice profile).
  - intros rec_id m form r.
    unfold routes.edit_recommendation, routes.login_required, routes.attr_of,
      routes.first_or_404.
    rewrite Hs.
    destruct (orm.get_user (routes.db st) uid) as [user|] eqn:Hu; [|cbn; auto].
    destruct (get_user_some _ _ _ Hu) as [_ ->].
    destruct (routes.profile_of_user (routes.db st) uid) as [profile|] eqn:Hp;
      [|cbn; auto].
    destruct (routes.recommendation_of_profile _ _ _) as [recommendation|];
      [|cbn; auto].
    destruct (routes.is_post m && _) eqn:Hv; [|cbn; auto].
    apply andb_prop in Hv as [_ Hv].
    cbn [fst routes.db routes.with_db orm.recommendations orm.with_recommendations].
    intros Hin. apply in_map_iff in Hin as (x & Hx & Hin).
    destruct (Z.eqb (Recommendation.id x) (Recommendation.id recommendation));
      [|subst x; auto].
    right. subst r. cbn [Recommendation.category_id]. now apply (Hchoice profile).
Qed.

Lemma recommendations_go_to_own_categories_witness :
  let r := Recommendation.mk 2 "Beach bar" "" 5 "$" ""
                             (Some (routes.process_tags scenario.beach_form)) 7 1 in
  In r (orm.recommendations (scenario.database true))
  \/ exists c, In c (orm.categories (scenario.database true))
               /\ Category.id c = Recommendation.category_id r
               /\ invariants.own_category (scenario.database true) 1 c.
Proof.
  cbv zeta.
  apply (proj1 (recommendations_go_to_own_categories
                  (scenario.signed_in scenario.alice true) 1 eq_refl)
               routes.POST scenario.beach_form 7%Z).
  right. left. reflexivity.
Defined.
(* ===================================================================== *)
(** * The writing endpoints of the tag API                                *)
(* ===================================================================== *)

Lemma with_tags_back r t :
  Recommendation.with_tags (Recommendation.with_tags r t) (Recommendation.tags r) = r.
Proof. now destruct r. Qed.

Lemma remove_tag_with_tags r tag_name tag_type :
  exists t, models.remove_tag r tag_name tag_type = Recommendation.with_tags r t.
Proof.
  unfold models.remove_tag.
  destruct (Recommendation.tags r) as [d|] eqn:E.
  - destruct (models.tags_truthy (Some d)); [eexists; reflexivity|].
    exists (Some d). rewrite <- E. now destruct r.
  - exists None. rewrite <- E. now destruct r.
Qed.

Lemma find_saved rec_id rec' l :
  Recommendation.id rec' = rec_id ->
  is_Some (find (fun r => Z.eqb (Recommendation.id r) rec_id) l) ->
  find (fun r => Z.eqb (Recommendation.id r) rec_id)
       (map (fun x => if Z.eqb (Recommendation.id x) rec_id then rec' else x) l)
  = Some rec'.
Proof.
  intros Hid. induction l as [|x l IH]; simpl; [intros [? [=]]|].
  destruct (Z.eqb (Recommendation.id x) rec_id) eqn:E.
  - intros _. now rewrite Hid, Z.eqb_refl.
  - rewrite E. exact IH.
Qed.

(** Writing back a row that differs from the stored one in its tags. *)
Lemma save_tags_edited st rec_id rec user owner t :
  session.user_id (routes.sess st) = Some (User.id user) ->
  orm.get_recommendation (routes.db st) rec_id = Some rec ->
  routes_tagging.owner_id (routes.db st) rec = Some owner ->
  negb (Z.eqb owner (User.id user)) = false ->
  invariants.tags_edited_by_owner
    rec_id st
    (routes.with_db st (routes_tagging.save (routes.db st)
                                            (Recommendation.with_tags rec t))).
Proof.
  intros Hs Hr Ho Hown. right.
  apply negb_false_iff, Z.eqb_eq in Hown. subst owner.
  pose proof Hr as Hfound. unfold orm.get_recommendation in Hfound.
  apply find_some in Hfound as [_ Hid]. apply Z.eqb_eq in Hid.
  split; [exists rec; split; [exact Hr | now rewrite Hs, Ho]|].
  split; [reflexivity|].
  split; [now destruct st as [[] ?]|].
  unfold routes_tagging.save.
  cbn [routes.db routes.with_db orm.recommendations orm.with_recommendations
       Recommendation.with_tags Recommendation.id].
  rewrite Hid. split.
  - induction (orm.recommendations (routes.db st)) as [|x l IH]; simpl; constructor;
      [|exact IH].
    destruct (Z.eqb (Recommendation.id x) rec_id); [exact Hid | reflexivity].
  - exists rec, (Recommendation.with_tags rec t).
    split; [exact Hr|]. split; [|apply with_tags_back].
    unfold orm.get_recommendation.
    cbn [orm.recommendations orm.with_recommendations].
    apply find_saved; [exact Hid|]. unfold orm.get_recommendation in Hr. eauto.
Qed.

(** X16.  The three writing endpoints of the tag API change nothing
    unless the requester is signed in as the owner of the recommendation;
    for the owner they change the tags of that recommendation and nothing
    else.  A signed-in user who is not the owner is answered 403. *)
Theorem tag_api_edits_only_the_owners_tags st rec_id :
  (forall data,
      invariants.tags_edited_by_owner
        rec_id st (fst (routes_tagging.add_tag_to_recommendation st rec_id data)))
  /\ (forall data,
         invariants.tags_edited_by_owner
           rec_id st (fst (routes_tagging.remove_tag_from_recommendation st rec_id data)))
  /\ (forall data,
         invariants.tags_edited_by_owner
           rec_id st (fst (routes_tagging.set_recommendation_tags st rec_id data)))
  /\ (forall uid rec owner,
         session.user_id (routes.sess st) = Some uid ->
         is_Some (orm.get_user (routes.db st) uid) ->
         orm.get_recommendation (routes.db st) rec_id = Some rec ->
         routes_tagging.owner_id (routes.db st) rec = Some owner ->
         owner <> uid ->
         let forbidden :=
           (st, routes_tagging.json_error 403 "You can only edit your own recommendations") in
         (forall data, routes_tagging.add_tag_to_recommendation st rec_id data = forbidden)
         /\ (forall data,
                routes_tagging.remove_tag_from_recommendation st rec_id data = forbidden)
         /\ (forall data, routes_tagging.set_recommendation_tags st rec_id data = forbidden)).
Proof.
  unfold routes_tagging.add_tag_to_recommendation,
    routes_tagging.remove_tag_from_recommendation,
    routes_tagging.set_recommendation_tags,
    routes_tagging.login_required_api, routes_tagging.attr_of.
  destruct (session.user_id (routes.sess st)) as [uid|] eqn:Hs.
  2:{ split; [|split; [|split]]; try (intros; now left). intros; discriminate. }
  destruct (orm.get_recommendation (routes.db st) rec_id) as [rec|] eqn:Hr.
  2:{ split; [|split; [|split]]; try (intros; now left). intros; discriminate. }
  destruct (routes_tagging.owner_id (routes.db st) rec) as [owner|] eqn:Ho.
  2:{ split; [|split; [|split]]; try (intros; now left). intros; congruence. }
  destruct (orm.get_user (routes.db st) uid) as [user|] eqn:Hu.
  2:{ split; [|split; [|split]]; try (intros; now left).
      intros ? ? ? [= <-] [? Hsome]. rewrite Hu in Hsome. discriminate. }
  destruct (get_user_some _ _ _ Hu) as [_ Huid]. rewrite <- Huid in Hs.
  destruct (negb (Z.eqb owner (User.id user))) eqn:Hown.
  - split; [|split; [|split]]; try (intros; now left).
    intros; repeat split; reflexivity.
  - split; [|split; [|split]].
    + intros data. destruct (routes_tagging.tag data) as [t|]; [|now left].
      destruct (negb (truthy _)); [now left|]. cbn [fst].
      now apply save_tags_edited with (user := user) (owner := owner).
    + intros data. destruct (routes_tagging.tag data) as [t|]; [|now left].
      cbn [fst].
      destruct (remove_tag_with_tags rec (l2s (strip isspace (s2l t)))
                                     (routes_tagging.type data)) as [t' ->].
      now apply save_tags_edited with (user := user) (owner := owner).
    + intros data. destruct (negb (models.tags_truthy data)); [now left|].
      cbn [fst].
      now apply save_tags_edited with (user := user) (owner := owner).
    + intros uid' rec' owner' Hs' _ Hr' Ho' Hne. exfalso.
      apply negb_false_iff, Z.eqb_eq in Hown. congruence.
Qed.

Lemma tag_api_edits_only_the_owners_tags_witness :
  routes_tagging.add_tag_to_recommendation
    (scenario.signed_in scenario.bob true) 1
    (routes_tagging.mk_tag_request (Some "mine") None)
  = (scenario.signed_in scenario.bob true,
     routes_tagging.json_error 403 "You can only edit your own recommendations").
Proof.
  apply (proj2 (proj2 (proj2 (tag_api_edits_only_the_owners_tags
                                (scenario.signed_in scenario.bob true) 1)))
               2%Z scenario.gallery 1%Z eq_refl ltac:(eexists; reflexivity)
               eq_refl eq_refl ltac:(discriminate)).
Defined.
(* ===================================================================== *)
(** * Categories: slugs within a profile and the default categories       *)
(* ===================================================================== *)




Example second_food_gets_suffix :
  map Category.slug
      (orm.categories
         (routes.db (fst (routes.new_category (scenario.signed_in scenario.alice true)
                                              routes.POST
                                              (forms.mkCategoryForm "Food" "")))))
  = ["food"; "food-1"].
Proof. reflexivity. Qed.

(** A valid name of 51 times the character U+00BC (one quarter) slugifies
    to 102 characters, which the column refuses. *)
Example long_category_slug_is_refused :
  let name := l2s (List.repeat (ascii_of_nat 188) 51) in
  let form := forms.mkCategoryForm name "" in
  forms.CategoryForm_validate form = true
  /\ length (s2l (utils.slugify name)) = 102
  /\ routes.new_category (scenario.signed_in scenario.alice true) routes.POST form
     = (scenario.signed_in scenario.alice true,
        routes.mk_reply [] routes.server_error).
Proof. cbv zeta. vm_compute. repeat split. Qed.




Example food_is_renamed :
  map Category.slug
      (orm.categories
         (routes.db (fst (routes.edit_category (scenario.signed_in scenario.alice true)
                                               1 routes.POST
                                               (forms.mkCategoryForm "Fine Food" "")))))
  = ["fine-food"].
Proof. reflexivity. Qed.

(** ** The default categories *)

(** X19.  In a table of fewer than 10^80 categories,
    [create_default_categories] succeeds.  It appends exactly one category
    of the profile for each of the six default names (Books, YouTube
    Channels, Food, Where To Stay, Apps, Products) that no category of the
    profile has, in that order, and touches nothing else; afterwards the
    profile has a category of every default name, slugs are still unique
    within each profile, and running it again adds nothing. *)
Theorem create_default_categories_completes d profile :
  (Z.of_nat (length (orm.categories d)) < 10 ^ 80)%Z ->
  let existing_names :=
    map Category.name (routes.categories_of d (Profile.id profile)) in
  exists d' added,
    utils.create_default_categories d profile = Some d'
    /\ d' = orm.with_categories d (orm.categories d ++ added)
    /\ map Category.name added
       = List.filter (fun name => negb (bool_decide (name ∈ existing_names)))
                     ["Books"; "YouTube Channels"; "Food"; "Where To Stay"; "Apps";
                      "Products"]
    /\ NoDup (map Category.name added)
    /\ Forall (fun c => Category.profile_id c = Profile.id profile) added
    /\ (forall name,
           In name ["Books"; "YouTube Channels"; "Food"; "Where To Stay"; "Apps";
                    "Products"] ->
           In name (map Category.name
                        (routes.categories_of d' (Profile.id profile))))
    /\ (invariants.category_slugs_unique d -> invariants.category_slugs_unique d')
    /\ utils.create_default_categories d' profile = Some d'.
Proof.
  intros Hsize. cbv zeta.
  set (existing_names := map Category.name
                             (routes.categories_of d (Profile.id profile))).
  destruct (create_default_categories_added d profile Hsize)
    as (added & Hrun & Hnames & Hprof & Huniq).
  fold existing_names in Hnames.
  change (map fst utils.default_categories)
    with ["Books"; "YouTube Channels"; "Food"; "Where To Stay"; "Apps"; "Products"]
    in Hnames.
  exists (orm.with_categories d (orm.categories d ++ added)), added.
  split; [exact Hrun|]. split; [reflexivity|]. split; [exact Hnames|].
  assert (Hall : forall name,
             In name ["Books"; "YouTube Channels"; "Food"; "Where To Stay"; "Apps";
                      "Products"] ->
             In name (map Category.name
                          (routes.categories_of
                             (orm.with_categories d (orm.categories d ++ added))
                             (Profile.id profile)))).
  { intros name Hname. unfold routes.categories_of.
    cbn [orm.categories orm.with_categories].
    rewrite List.filter_app, map_app. apply in_or_app.
    destruct (decide (name ∈ existing_names)) as [Hin|Hnot].
    - left. now apply list_elem_of_In.
    - right.
      assert (Hn : In name (map Category.name added)).
      { rewrite Hnames. apply filter_In. split; [assumption|].
        now apply negb_true_iff, bool_decide_eq_false. }
      apply in_map_iff in Hn as (c & <- & Hc). apply in_map, filter_In.
      split; [assumption|]. rewrite Forall_forall in Hprof.
      apply Z.eqb_eq. apply Hprof. now apply list_elem_of_In. }
  split.
  { rewrite Hnames. apply NoDup_ListNoDup, List.NoDup_filter, NoDup_ListNoDup.
    repeat (apply NoDup_cons; split;
            [rewrite list_elem_of_In; cbn; intuition discriminate|]).
    apply NoDup_nil_2. }
  split; [exact Hprof|]. split; [exact Hall|]. split; [exact Huniq|].
  now apply create_default_categories_nothing_missing.
Qed.

Lemma create_default_categories_completes_witness :
  exists d',
    utils.create_default_categories (scenario.database true)
                                    (scenario.alice_profile true) = Some d'
    /\ invariants.category_slugs_unique d'.
Proof.
  destruct (create_default_categories_completes (scenario.database true)
                                                (scenario.alice_profile true))
    as (d' & added & Hrun & _ & _ & _ & _ & _ & Huniq & _).
  - vm_compute. reflexivity.
  - exists d'. split; [exact Hrun|]. apply Huniq. apply NoDup_singleton.
Defined.

Example default_categories_of_alice :
  option_map (fun d => map Category.slug (orm.categories d))
             (utils.create_default_categories (scenario.database true)
                                              (scenario.alice_profile true))
  = Some ["food"; "books"; "youtube-channels"; "where-to-stay"; "apps"; "products"].
Proof. reflexivity. Qed.

Lemma missing_count (existing_names : list string) :
  ~ In "I Recommend Following" existing_names ->
  length (List.filter (fun name => negb (bool_decide (name ∈ existing_names)))
                      routes.default_category_names)
  = S (length (List.filter (fun name => negb (bool_decide (name ∈ existing_names)))
                           (map fst utils.default_categories))).
Proof.
  intros Hnot. unfold routes.default_category_names, utils.default_categories.
  cbn [map fst List.filter].
  rewrite (bool_decide_eq_false_2 ("I Recommend Following" ∈ existing_names))
    by now rewrite list_elem_of_In.
  cbn [negb].
  repeat (destruct (negb (bool_decide _))); reflexivity.
Qed.

(** X20.  The categories page announces one default category too many.
    Its list of default names has "I Recommend Following", which
    [create_default_categories] does not create; so for a signed-in user
    whose profile has no category of that name, every visit of the page (in
    a table of fewer than 10^80 categories) flashes "Added n default
    categories" with n one above the number of categories it added, and
    when the six other defaults exist it adds nothing and still announces
    one. *)
Theorem categories_page_announces_one_too_many st uid user profile :
  session.user_id (routes.sess st) = Some uid ->
  orm.get_user (routes.db st) uid = Some user ->
  routes.profile_of_user (routes.db st) (User.id user) = Some profile ->
  let names := map Category.name
                   (routes.categories_of (routes.db st) (Profile.id profile)) in
  ~ In "I Recommend Following" names ->
  let result := routes.dashboard_categories st in
  ((Z.of_nat (length (orm.categories (routes.db st))) < 10 ^ 80)%Z ->
   exists added,
     orm.categories (routes.db (fst result)) = orm.categories (routes.db st) ++ added
     /\ routes.flashed (snd result)
        = [l2s (s2l "Added " ++ str_of_nat (S (length added))
                ++ s2l " default categories to your profile!")])
  /\ ((forall name, In name (map fst utils.default_categories) -> In name names) ->
      result = (st, routes.mk_reply ["Added 1 default categories to your profile!"]
                      (routes.render_template "dashboard/categories.html"))).
Proof.
  intros Hs Hu Hp. cbv zeta. intros Hnot.
  unfold routes.dashboard_categories, routes.login_required, routes.attr_of.
  rewrite Hs, Hu, Hp.
  set (names := map Category.name
                    (routes.categories_of (routes.db st) (Profile.id profile))) in *.
  pose proof (missing_count names Hnot) as Hcount.
  destruct (List.filter _ routes.default_category_names) as [|n0 missing] eqn:Hmissing;
    [discriminate|].
  rewrite Hcount. clear Hmissing n0 missing Hcount.
  split.
  - intros Hsize.
    destruct (create_default_categories_added (routes.db st) profile Hsize)
      as (added & -> & Hnames & _).
    fold names in Hnames. rewrite <- Hnames, length_map.
    cbn [fst snd routes.db routes.with_db routes.flashed orm.categories
         orm.with_categories].
    exists added; split; reflexivity.
  - intros Hall.
    rewrite (create_default_categories_nothing_missing _ _ Hall).
    rewrite filter_none.
    + now destruct st.
    + apply forallb_forall. intros name Hname. rewrite negb_involutive.
      apply bool_decide_eq_true, list_elem_of_In. now apply Hall.
Qed.

Lemma categories_page_announces_one_too_many_witness :
  let d := default (scenario.database true)
                   (utils.create_default_categories (scenario.database true)
                                                    (scenario.alice_profile true)) in
  let st := routes.mk_state d (session.mk (Some 1%Z) None) in
  routes.dashboard_categories st
  = (st, routes.mk_reply ["Added 1 default categories to your profile!"]
           (routes.render_template "dashboard/categories.html")).
Proof.
  cbv zeta.
  apply (categories_page_announces_one_too_many
           (routes.mk_state
              (default (scenario.database true)
                       (utils.create_default_categories (scenario.database true)
                                                        (scenario.alice_profile true)))
              (session.mk (Some 1%Z) None))
           1 scenario.alice (scenario.alice_profile true) eq_refl eq_refl eq_refl).
  - vm_compute. intros H. repeat (destruct H as [H|H]; [discriminate|]). exact H.
  - vm_compute. intros name H.
    repeat (destruct H as [<-|H]; [tauto|]). destruct H.
Defined.
(* ===================================================================== *)
(** * Comments                                                            *)
(* ===================================================================== *)

Lemma with_comments_comments d l :
  orm.with_comments (orm.with_comments d l) (orm.comments d) = d.
Proof. now destruct d. Qed.

Lemma find_fresh_id {A} (key : A -> Z) (q : A -> bool) l k :
  ~ In k (map key l) -> find (fun x => Z.eqb (key x) k && q x) l = None.
Proof.
  intros Hfresh. destruct (find _ l) as [x|] eqn:E; [|reflexivity].
  apply find_some in E as [Hin Hx]. apply andb_prop in Hx as [Hx _].
  apply Z.eqb_eq in Hx. exfalso. apply Hfresh. rewrite <- Hx. now apply in_map.
Qed.

(** X21.  A comment form that is accepted (the page flashes "Comment added
    successfully!") appends one comment, written by the signed-in user on
    the recommendation of the page, with the text of the form; and when its
    author then asks to delete that comment, it is deleted and the state is
    again the one before the comment was posted. *)
Theorem comment_then_delete st profile_slug category_slug rec_id comment_form now :
  routes.flashed (snd (routes.view_recommendation st profile_slug category_slug rec_id
                                                  routes.POST comment_form now))
  = ["Comment added successfully!"] ->
  let st1 := fst (routes.view_recommendation st profile_slug category_slug rec_id
                                             routes.POST comment_form now) in
  let comment_id := orm.next_id (map Comment.id (orm.comments (routes.db st))) in
  forms.CommentForm_validate comment_form = true
  /\ (exists uid,
         session.user_id (routes.sess st) = Some uid
         /\ orm.comments (routes.db st1)
            = orm.comments (routes.db st)
              ++ [Comment.mk comment_id (forms.content comment_form) uid rec_id now])
  /\ fst (routes.delete_comment st1 profile_slug category_slug rec_id comment_id) = st
  /\ routes.flashed (snd (routes.delete_comment st1 profile_slug category_slug rec_id
                                                comment_id))
     = ["Comment deleted successfully!"].
Proof.
  cbv zeta.
  unfold routes.view_recommendation, routes.first_or_404.
  destruct (routes.public_profile (routes.db st) profile_slug) as [profile|] eqn:Hp;
    [|discriminate].
  destruct (routes.category_by_slug (routes.db st) (Profile.id profile) category_slug)
    as [category|] eqn:Hcat; [|discriminate].
  destruct (routes.recommendation_in (routes.db st) (Category.id category) rec_id)
    as [recommendation|] eqn:Hr; [|discriminate].
  destruct (session.user_id (routes.sess st)) as [uid|] eqn:Hs; [|discriminate].
  destruct (orm.get_user (routes.db st) uid) as [user|] eqn:Hu; [|discriminate].
  cbn [routes.is_post andb].
  destruct (forms.CommentForm_validate comment_form); [|discriminate].
  intros _. split; [reflexivity|].
  destruct (get_user_some _ _ _ Hu) as [_ Huid].
  pose proof Hr as Hrid. unfold routes.recommendation_in in Hrid.
  apply find_some in Hrid as [_ Hrid]. apply andb_prop in Hrid as [_ Hrid].
  apply Z.eqb_eq in Hrid.
  unfold orm.add_comment. rewrite Huid, Hrid.
  set (c := Comment.mk _ _ _ _ _).
  cbn [fst snd routes.db routes.with_db orm.comments orm.with_comments].
  split; [exists uid; split; reflexivity|].
  unfold routes.delete_comment, routes.login_required, routes.first_or_404,
    routes.attr_of.
  cbn [routes.sess routes.with_db routes.db]. rewrite Hs.
  change (routes.public_profile
            (orm.with_comments (routes.db st) (orm.comments (routes.db st) ++ [c])))
    with (routes.public_profile (routes.db st)).
  change (routes.category_by_slug
            (orm.with_comments (routes.db st) (orm.comments (routes.db st) ++ [c])))
    with (routes.category_by_slug (routes.db st)).
  change (routes.recommendation_in
            (orm.with_comments (routes.db st) (orm.comments (routes.db st) ++ [c])))
    with (routes.recommendation_in (routes.db st)).
  change (orm.get_user
            (orm.with_comments (routes.db st) (orm.comments (routes.db st) ++ [c])))
    with (orm.get_user (routes.db st)).
  rewrite Hp, Hcat, Hr, Hu.
  cbn [orm.comments orm.with_comments].
  rewrite find_snoc_none
    by (apply (find_fresh_id Comment.id); apply next_id_fresh).
  cbn [Comment.id Comment.recommendation_id c].
  rewrite Hrid, !Z.eqb_refl. cbn [andb].
  cbn [Comment.user_id c]. rewrite Huid, Z.eqb_refl.
  cbn [fst snd routes.flashed].
  split; [|reflexivity].
  unfold orm.delete_comment. cbn [orm.comments orm.with_comments].
  rewrite (filter_snoc_fresh Comment.id) by apply next_id_fresh.
  rewrite with_comments_comments. now destruct st.
Qed.

Lemma comment_then_delete_witness :
  fst (routes.delete_comment
         (fst (routes.view_recommendation (scenario.signed_in scenario.carol true)
                                          "alice" "food" 1 routes.POST
                                          (forms.mkCommentForm "Lovely") 9))
         "alice" "food" 1 2)
  = scenario.signed_in scenario.carol true.
Proof.
  apply (comment_then_delete (scenario.signed_in scenario.carol true)
                             "alice" "food" 1 (forms.mkCommentForm "Lovely") 9).
  reflexivity.
Defined.
(* ===================================================================== *)
(** * The search of the tag API                                           *)
(* ===================================================================== *)

Lemma in_joined d cond r :
  In r (routes_tagging.joined d cond)
  <-> In r (orm.recommendations d)
      /\ exists c p, In c (orm.categories d) /\ In p (orm.profiles d)
                     /\ Category.id c = Recommendation.category_id r
                     /\ Profile.id p = Category.profile_id c
                     /\ cond p = true.
Proof.
  unfold routes_tagging.joined. rewrite in_flat_map. split.
  - intros (r' & Hr & Hin). apply in_flat_map in Hin as (c & Hc & Hin).
    destruct (Z.eqb_spec (Category.id c) (Recommendation.category_id r')) as [E|];
      [|destruct Hin].
    apply in_flat_map in Hin as (p & Hp & Hin).
    destruct (Z.eqb (Profile.id p) (Category.profile_id c) && cond p) eqn:E2;
      [|destruct Hin].
    destruct Hin as [<-|[]]. apply andb_prop in E2 as [E2 E3]. apply Z.eqb_eq in E2.
    split; [assumption|]. exists c, p. auto.
  - intros (Hr & c & p & Hc & Hp & E1 & E2 & E3). exists r. split; [assumption|].
    apply in_flat_map. exists c. split; [assumption|].
    rewrite E1, Z.eqb_refl. apply in_flat_map. exists p. split; [assumption|].
    rewrite E2, Z.eqb_refl, E3. now left.
Qed.

Lemma in_visible st r :
  In r (routes_tagging.visible st)
  <-> In r (orm.recommendations (routes.db st)) /\ invariants.may_see st r.
Proof.
  unfold routes_tagging.visible, invariants.may_see.
  destruct (session.user_id (routes.sess st)) as [uid|].
  - destruct (Z.eqb_spec uid 0) as [->|Hne]; rewrite in_joined.
    + split; intros (Hr & c & p & Hc & Hp & E1 & E2 & E3);
        (split; [assumption|]); exists c, p; repeat split; auto.
      destruct E3 as [E3|[[= E3] E4]]; [assumption | congruence].
    + split; intros (Hr & c & p & Hc & Hp & E1 & E2 & E3);
        (split; [assumption|]); exists c, p; repeat split; auto.
      * apply orb_true_iff in E3 as [E3|E3]; [now left | right].
        apply Z.eqb_eq in E3. split; congruence.
      * apply orb_true_iff. destruct E3 as [E3|[[= E3] _]]; [now left | right].
        now apply Z.eqb_eq.
  - rewrite in_joined.
    split; intros (Hr & c & p & Hc & Hp & E1 & E2 & E3);
      (split; [assumption|]); exists c, p; repeat split; auto.
    destruct E3 as [E3|[[=] _]]. assumption.
Qed.

Lemma length_insert_desc r l :
  length (routes_tagging.insert_desc r l) = S (length l).
Proof.
  induction l as [|x l IH]; simpl; [reflexivity|].
  destruct (Z.ltb _ _); simpl; [reflexivity | now rewrite IH].
Qed.

Lemma length_order_by_created_desc l :
  length (routes_tagging.order_by_created_desc l) = length l.
Proof.
  induction l as [|x l IH]; simpl; [reflexivity|].
  now rewrite length_insert_desc, IH.
Qed.

Lemma newest_first_insert r l :
  invariants.newest_first l -> invariants.newest_first (routes_tagging.insert_desc r l).
Proof.
  induction l as [|x l IH]; simpl; [intros _; split; [constructor | exact I]|].
  intros [Hx Hl].
  destruct (Z.ltb_spec (Recommendation.created_at x) (Recommendation.created_at r))
    as [Hlt|Hge]; simpl.
  - split; [|split; assumption].
    constructor; [lia|]. eapply Forall_impl; [exact Hx|]. simpl. intros y Hy. lia.
  - split; [|now apply IH].
    apply Forall_forall. intros y Hy. apply list_elem_of_In, in_insert_desc in Hy.
    destruct Hy as [->|Hy]; [lia|].
    rewrite Forall_forall in Hx. apply Hx. now apply list_elem_of_In.
Qed.

Lemma newest_first_order l :
  invariants.newest_first (routes_tagging.order_by_created_desc l).
Proof.
  induction l as [|x l IH]; simpl; [exact I|]. now apply newest_first_insert.
Qed.

Lemma newest_first_take n l :
  invariants.newest_first l -> invariants.newest_first (take n l).
Proof.
  revert n. induction l as [|x l IH]; intros [|n]; simpl; auto.
  intros [Hx Hl]. split; [|now apply IH].
  apply Forall_forall. intros y Hy. apply list_elem_of_In, in_take in Hy.
  rewrite Forall_forall in Hx. apply Hx. now apply list_elem_of_In.
Qed.

(** X22.  The search of the tag API answers with at most 50
    recommendations, from the newest to the oldest.  Each of them is one
    the requester may see: its category belongs to a profile that is
    public or is the signed-in user's own.  When at most 50 recommendations
    are visible to the requester, every visible recommendation that matches
    all the requested tags is in the answer. *)
Theorem search_results st tags_param :
  let result := routes_tagging.select_by_tags st tags_param in
  length result <= 50
  /\ invariants.newest_first result
  /\ (forall r, In r result ->
                In r (orm.recommendations (routes.db st)) /\ invariants.may_see st r)
  /\ (length (routes_tagging.visible st) <= 50 ->
      forall r,
        In r (orm.recommendations (routes.db st)) ->
        invariants.may_see st r ->
        (forall tag, In tag (routes_tagging.parse_tags tags_param) ->
                     sql_true (routes_tagging.tag_condition tag r) = true) ->
        In r result)
  /\ snd (routes_tagging.get_recommendations_by_tags st tags_param)
     = routes_tagging.json_recs
         (map (fun r => routes_tagging.mk_rec_dict (Recommendation.id r)
                                                   (Recommendation.title r)
                                                   (models.get_tags r))
              result)
  /\ fst (routes_tagging.get_recommendations_by_tags st tags_param) = st.
Proof.
  cbv zeta. unfold routes_tagging.select_by_tags.
  set (query := match routes_tagging.parse_tags tags_param with
                | [] => routes_tagging.visible st
                | _ => List.filter _ (routes_tagging.visible st)
                end).
  assert (Hq : forall r,
             In r query
             <-> In r (routes_tagging.visible st)
                 /\ forall tag, In tag (routes_tagging.parse_tags tags_param) ->
                                sql_true (routes_tagging.tag_condition tag r) = true).
  { intros r. subst query.
    destruct (routes_tagging.parse_tags tags_param) as [|t l] eqn:E.
    - split; [intros H; split; [assumption | intros tag []] | tauto].
    - rewrite filter_In, all_conditions_true. tauto. }
  assert (Hlen : length query <= length (routes_tagging.visible st)).
  { subst query. destruct (routes_tagging.parse_tags tags_param);
      [lia | apply List.filter_length_le]. }
  split; [apply length_take_le|].
  split; [apply newest_first_take, newest_first_order|].
  split; [|split; [|split; reflexivity]].
  - intros r Hin. apply in_take, in_order_by_created_desc, Hq in Hin.
    now apply in_visible.
  - intros Hfew r Hr Hsee Htags.
    rewrite take_ge by (rewrite length_order_by_created_desc; lia).
    apply in_order_by_created_desc, Hq. split; [|assumption].
    now apply in_visible.
Qed.

Lemma search_results_witness :
  In scenario.gallery
     (routes_tagging.select_by_tags scenario.anonymous "Smart Art").
Proof.
  apply (proj1 (proj2 (proj2 (proj2 (search_results scenario.anonymous "Smart Art"))))).
  - vm_compute. lia.
  - left. reflexivity.
  - exists scenario.food, (scenario.alice_profile true).
    repeat split; try (left; reflexivity).
  - intros tag [<-|[]]. reflexivity.
Defined.

Example hidden_profile_is_not_searched :
  routes_tagging.select_by_tags
    (routes.mk_state (scenario.database false) session.empty) ""
  = []
  /\ routes_tagging.select_by_tags (scenario.signed_in scenario.alice false) ""
     = [scenario.gallery]
  /\ routes_tagging.select_by_tags (scenario.signed_in scenario.bob false) ""
     = [].
Proof. repeat split; reflexivity. Qed.
(* ===================================================================== *)
(** * The list of all tags                                                *)
(* ===================================================================== *)

Lemma string_ltb_lt x y : String.ltb x y = true <-> String.compare x y = Lt.
Proof. unfold String.ltb. destruct (String.compare x y); split; congruence. Qed.

Lemma string_ltb_trans x y z :
  String.ltb x y = true -> String.ltb y z = true -> String.ltb x z = true.
Proof.
  rewrite !string_ltb_lt.
  intros H1 H2.
  apply (proj1 (OrderedTypeEx.String_as_OT.cmp_lt x y)) in H1.
  apply (proj1 (OrderedTypeEx.String_as_OT.cmp_lt y z)) in H2.
  apply (proj2 (OrderedTypeEx.String_as_OT.cmp_lt x z)).
  eapply OrderedTypeEx.String_as_OT.lt_trans; eassumption.
Qed.

Lemma string_ltb_irrefl x : String.ltb x x = false.
Proof.
  pose proof (proj2 (OrderedTypeEx.String_as_OT.cmp_eq x x) eq_refl) as E.
  unfold OrderedTypeEx.String_as_OT.cmp in E. unfold String.ltb. now rewrite E.
Qed.

Lemma in_insert_sorted x y l : In y (insert_sorted x l) <-> y = x \/ In y l.
Proof.
  induction l as [|z l IH]; simpl; [intuition|].
  destruct (String.compare x z) eqn:E; simpl.
  - apply (proj1 (OrderedTypeEx.String_as_OT.cmp_eq x z)) in E. subst z. intuition.
  - intuition.
  - rewrite IH. intuition.
Qed.

Lemma in_sorted_set y l : In y (sorted_set l) <-> In y l.
Proof.
  induction l as [|x l IH]; simpl; [tauto|].
  rewrite in_insert_sorted, IH. intuition.
Qed.

Lemma ascending_insert x l :
  invariants.ascending l -> invariants.ascending (insert_sorted x l).
Proof.
  induction l as [|z l IH]; simpl; [intros _; split; [constructor | exact I]|].
  intros [Hz Hl]. destruct (String.compare x z) eqn:E; simpl.
  - split; assumption.
  - apply string_ltb_lt in E. split; [|split; assumption].
    constructor; [assumption|]. eapply Forall_impl; [exact Hz|]. simpl.
    intros w Hw. now apply (string_ltb_trans x z w).
  - split; [|now apply IH].
    apply Forall_forall. intros w Hw. apply list_elem_of_In, in_insert_sorted in Hw.
    destruct Hw as [->|Hw].
    + apply string_ltb_lt. rewrite String.compare_antisym, E. reflexivity.
    + rewrite Forall_forall in Hz. apply Hz. now apply list_elem_of_In.
Qed.

Lemma ascending_sorted_set l : invariants.ascending (sorted_set l).
Proof. induction l as [|x l IH]; simpl; [exact I | now apply ascending_insert]. Qed.

Lemma ascending_NoDup l : invariants.ascending l -> NoDup l.
Proof.
  induction l as [|x l IH]; simpl; [intros _; apply NoDup_nil_2|].
  intros [Hx Hl]. apply NoDup_cons. split; [|auto].
  intros Hin. rewrite Forall_forall in Hx. apply Hx in Hin.
  now rewrite string_ltb_irrefl in Hin.
Qed.

Lemma in_tags_under key x l :
  In x (routes_tagging.tags_under key l)
  <-> exists r d, In r l /\ Recommendation.tags r = Some d
                  /\ In x (default [] (d !! key)).
Proof.
  unfold routes_tagging.tags_under. rewrite in_flat_map. split.
  - intros (r & Hr & Hin). destruct (Recommendation.tags r) as [d|] eqn:E;
      [|destruct Hin].
    destruct (models.tags_truthy (Some d)); [|destruct Hin]. eauto.
  - intros (r & d & Hr & E & Hin). exists r. split; [assumption|]. rewrite E.
    destruct (models.tags_truthy (Some d)) eqn:Ht; [assumption|].
    unfold models.tags_truthy in Ht. apply negb_false_iff, bool_decide_eq_true in Ht.
    subst d. now rewrite lookup_empty in Hin.
Qed.

(** X23.  The list of all tags changes nothing and answers with two lists
    in strictly ascending order, so no tag is listed twice in a list.  A
    tag is listed exactly when a recommendation that the requester may see
    carries it: the tags of a hidden profile's recommendations are listed
    for its owner only. *)
Theorem all_tags_listed_once_in_order st :
  let result := routes_tagging.get_all_tags st in
  fst result = st
  /\ invariants.ascending (routes_tagging.tag_categories (snd result))
  /\ invariants.ascending (routes_tagging.tag_collections (snd result))
  /\ NoDup (routes_tagging.tag_categories (snd result))
  /\ NoDup (routes_tagging.tag_collections (snd result))
  /\ forall x,
      In x (routes_tagging.tag_categories (snd result))
      \/ In x (routes_tagging.tag_collections (snd result))
      <-> exists r, In r (orm.recommendations (routes.db st))
                    /\ invariants.may_see st r
                    /\ In x (models.get_tags r).
Proof.
  cbv zeta. unfold routes_tagging.get_all_tags.
  cbn [fst snd routes_tagging.tag_categories routes_tagging.tag_collections].
  split; [reflexivity|].
  split; [apply ascending_sorted_set|]. split; [apply ascending_sorted_set|].
  split; [apply ascending_NoDup, ascending_sorted_set|].
  split; [apply ascending_NoDup, ascending_sorted_set|].
  intros x. rewrite !in_sorted_set, !in_tags_under. split.
  - intros [(r & d & Hr & E & Hin)|(r & d & Hr & E & Hin)];
      apply in_visible in Hr as [Hr Hsee]; exists r;
      (split; [assumption|]); (split; [assumption|]);
      rewrite get_tags_lists, E; apply in_or_app; auto.
  - intros (r & Hr & Hsee & Hin). rewrite get_tags_lists in Hin.
    destruct (Recommendation.tags r) as [d|] eqn:E; [|destruct Hin].
    assert (Hv : In r (routes_tagging.visible st)) by (apply in_visible; auto).
    apply in_app_or in Hin as [Hin|Hin]; [left | right]; exists r, d; auto.
Qed.

Example all_tags_of_the_scenario :
  snd (routes_tagging.get_all_tags scenario.anonymous)
  = routes_tagging.mk_all_tags [] ["smart-art"]
  /\ sorted_set ["b"; "a-1"; "a"; "b"; "a0"] = ["a"; "a-1"; "a0"; "b"].
Proof. split; reflexivity. Qed.
